(** * Plant-disease classifier backend: preprocessing, model wrapper, evaluation

    A shallow embedding of the algorithmic core of the backend
    ([backend/utils/preprocessing.py], [backend/disease_model.py],
    [backend/utils/evaluation.py], [backend/voice_assistant.py]) together
    with the properties the specification states about it (C1 - C10) and
    further properties read off the code (X1 - X24).

    Conventions.
    - Python exceptions are values of [Py.exn]; a call that can raise returns
      [Py.result].
    - Pillow, OpenCV, Keras, the scikit-learn functions, the operating
      system and the speech, translation and language services are external:
      they appear as interfaces (type classes) whose operations the embedded
      code calls, never as code of this development.
    - NumPy operations used by the code (argmax, max, mean, boolean masks,
      expand_dims, astype) are written out.
    - float32 pixel arithmetic is IEEE-754 binary32 ([SpecFloat] with
      [prec = 24], [emax = 128]).  Probabilities and evaluation metrics are
      the rationals denoted by the floats the code manipulates; comparisons of
      finite floats agree with comparisons of those rationals. *)

From Stdlib Require Import ZArith QArith Qabs Lia Lqa SpecFloat.
From Stdlib.Strings Require Import Byte Ascii.
From stdpp Require Import base gmap strings list sorting.

(* ===================================================================== *)
(** * Python outcomes *)
(* ===================================================================== *)

Module Py.

(** The exceptions that the embedded code paths can meet.
    [InvalidStateError] is the name the specification uses for a
    state-machine violation; [BackendError] stands for any exception coming
    out of an external library call. *)
Inductive exn : Type :=
| AttributeError
| IndexError
| ValueError
| TypeError
| AxisError
| FileNotFoundError
| InvalidStateError
| BackendError (msg : string).

Inductive result (A : Type) : Type :=
| Ok (a : A)
| Raise (e : exn).
Arguments Ok {A} _.
Arguments Raise {A} _.

Definition bind {A B} (c : result A) (k : A → result B) : result B :=
  match c with
  | Ok a => k a
  | Raise e => Raise e
  end.

Definition is_ok {A} (c : result A) : bool :=
  match c with Ok _ => true | Raise _ => false end.

(** [l[i]] for a non-negative index. *)
Definition getitem {A} (l : list A) (i : nat) : result A :=
  match l !! i with
  | Some x => Ok x
  | None => Raise IndexError
  end.

(** Run [f] over a list, stopping at the first exception. *)
Fixpoint mapM {A B} (f : A → result B) (l : list A) : result (list B) :=
  match l with
  | [] => Ok []
  | x :: t =>
      bind (f x) (λ y, bind (mapM f t) (λ ys, Ok (y :: ys)))
  end.

End Py.

Export Py.

(** [result] is a monad; the embedded code is written with stdpp's
    [x ← c; k] notation. *)
#[export] Instance result_ret : MRet result := @Ok.
#[export] Instance result_bind : MBind result := λ A B k c, Py.bind c k.
#[export] Instance result_fmap : FMap result :=
  λ A B f c, Py.bind c (λ a, Ok (f a)).

(* ===================================================================== *)
(** * NumPy image arrays and binary32 arithmetic *)
(* ===================================================================== *)

Module Np.

(** binary32 *)
Definition f32 : Type := spec_float.
Definition f32_prec : Z := 24.
Definition f32_emax : Z := 128.

Definition f32_of_Z (n : Z) : f32 := binary_normalize f32_prec f32_emax n 0 false.
Definition f32_div (x y : f32) : f32 := SFdiv f32_prec f32_emax x y.

(** [uint8 -> float32] is exact. *)
Definition f32_of_u8 (b : byte) : f32 := f32_of_Z (Z.of_N (Byte.to_N b)).

(** [0.0 <= x <= 1.0] *)
Definition in_unit_interval (x : f32) : bool :=
  SFleb (f32_of_Z 0) x && SFleb x (f32_of_Z 1).

(** An n-dimensional array: its shape and its elements in row-major order. *)
Record ndarray (A : Type) : Type := mk_ndarray {
  shape : list nat;
  data : list A
}.
Arguments mk_ndarray {A} _ _.
Arguments shape {A} _.
Arguments data {A} _.

(** The two element types the preprocessing path produces. *)
Inductive array : Type :=
| Uint8Array (a : ndarray byte)
| Float32Array (a : ndarray f32).

(** [a.astype('float32')] *)
Definition astype_float32 (a : array) : ndarray f32 :=
  match a with
  | Uint8Array a => mk_ndarray (shape a) (map f32_of_u8 (data a))
  | Float32Array a => a
  end.

(** [a / c] for a float32 array and a Python float scalar: the scalar is
    taken at the array's precision and the division is elementwise. *)
Definition true_divide (a : ndarray f32) (c : f32) : ndarray f32 :=
  mk_ndarray (shape a) (map (λ x, f32_div x c) (data a)).

(** [np.expand_dims(a, axis=0)] *)
Definition expand_dims0 (a : array) : array :=
  match a with
  | Uint8Array a => Uint8Array (mk_ndarray (1%nat :: shape a) (data a))
  | Float32Array a => Float32Array (mk_ndarray (1%nat :: shape a) (data a))
  end.

(** ** Reductions over a row of numbers *)

(** [x < y] *)
Definition Qltb (x y : Q) : bool := negb (Qle_bool y x).

(** [np.argmax]: scan from the left and move to a later index only when its
    value is strictly larger than the best seen so far. *)
Fixpoint argmax_scan (best_i : nat) (best : Q) (i : nat) (l : list Q) : nat :=
  match l with
  | [] => best_i
  | x :: t =>
      if Qltb best x then argmax_scan i x (S i) t
      else argmax_scan best_i best (S i) t
  end.

Definition argmax (l : list Q) : result nat :=
  match l with
  | [] => Raise ValueError
  | x :: t => Ok (argmax_scan 0 x 1 t)
  end.

(** [np.max] *)
Fixpoint amax_scan (best : Q) (l : list Q) : Q :=
  match l with
  | [] => best
  | x :: t => amax_scan (if Qltb best x then x else best) t
  end.

Definition amax (l : list Q) : result Q :=
  match l with
  | [] => Raise ValueError
  | x :: t => Ok (amax_scan x t)
  end.

End Np.

(* ===================================================================== *)
(** * backend/utils/preprocessing.py *)
(* ===================================================================== *)

Module Preprocessing.
Import Np.

Inductive resampling : Type := NEAREST | BILINEAR | BICUBIC | LANCZOS.

(** The part of Pillow (and of NumPy's view of a Pillow image) that
    [preprocess_image] calls.  [size] is (width, height). *)
Class PIL : Type := {
  Image : Type;
  mode : Image → string;
  size : Image → nat * nat;
  fromarray : array → result Image;
  resize : Image → nat * nat → resampling → Image;
  convert : Image → string → Image;
  np_array : Image → array
}.

(** What Pillow documents about those operations: [resize] returns an image
    of the requested size, [convert] one of the requested mode and the same
    size, and an RGB image is seen by NumPy as a uint8 array of shape
    (height, width, 3). *)
Class PILSpec (P : PIL) : Prop := {
  resize_size : ∀ im sz f, size (resize im sz f) = sz;
  convert_mode : ∀ im, mode (convert im "RGB") = "RGB";
  convert_size : ∀ im, size (convert im "RGB") = size im;
  np_array_rgb : ∀ im,
    mode im = "RGB" →
    ∃ d, np_array im = Uint8Array (mk_ndarray [(size im).2; (size im).1; 3%nat] d)
         ∧ length d = ((size im).2 * (size im).1 * 3)%nat
}.

(** [preprocess_image] accepts a Pillow image or a NumPy array. *)
Inductive image_like `{PIL} : Type :=
| PILImage (im : Image)
| NpArray (a : array).

Record ImagePreprocessor : Type := { target_size : nat * nat }.

(** [ImagePreprocessor()] : [__init__(self, target_size=(224, 224))] *)
Definition default_preprocessor : ImagePreprocessor :=
  {| target_size := (224%nat, 224%nat) |}.

(** [255.0] *)
Definition f255 : f32 := f32_of_Z 255.

Section preprocess.
Context `{P : PIL}.

(** [if isinstance(image, np.ndarray): image = Image.fromarray(image)] *)
Definition as_image (image : image_like) : result Image :=
  match image with
  | NpArray a => fromarray a
  | PILImage im => Ok im
  end.

Definition preprocess_image (self : ImagePreprocessor) (image : image_like)
    (normalize : bool) : result array :=
  image ← as_image image;
  let image := resize image (target_size self) LANCZOS in
  let image := if String.eqb (mode image) "RGB" then image
               else convert image "RGB" in
  let img_array := np_array image in
  let img_array :=
    if normalize
    then Float32Array (true_divide (astype_float32 img_array) f255)
    else img_array in
  Ok (expand_dims0 img_array).

End preprocess.

End Preprocessing.

(* ===================================================================== *)
(** * backend/utils/preprocessing.py: crop_leaf_region

    OpenCV is an external library.  Python floats are IEEE-754 binary64
    ([SpecFloat] with [prec = 53], [emax = 1024]). *)
(* ===================================================================== *)

Module Cropping.
Import Np Preprocessing.

(** ** binary64 *)

Definition f64 : Type := spec_float.
Definition f64_prec : Z := 53.
Definition f64_emax : Z := 1024.

(** [float(n)] *)
Definition f64_of_Z (n : Z) : f64 := binary_normalize f64_prec f64_emax n 0 false.

Definition f64_mul (x y : f64) : f64 := SFmul f64_prec f64_emax x y.

(** The literal [0.1]. *)
Definition f64_tenth : f64 := S754_finite false 7205759403792794 (-56).

(** [int(x)]: truncation towards zero. *)
Definition int_of_f64 (x : f64) : result Z :=
  match x with
  | S754_zero _ => Ok 0%Z
  | S754_finite s m e =>
      let magnitude := if (0 <=? e)%Z then Z.shiftl (Z.pos m) e
                       else Z.shiftr (Z.pos m) (- e) in
      Ok (if s then (- magnitude)%Z else magnitude)
  | S754_infinity _ => Raise (BackendError "OverflowError")
  | S754_nan => Raise ValueError
  end.

(** ** Slicing *)

(** A bound of a slice with step 1 over a sequence of length [len], as
    [slice.indices] normalises it. *)
Definition slice_index (len : nat) (i : Z) : nat :=
  if (i <? 0)%Z then Z.to_nat (Z.max 0 (i + Z.of_nat len))
  else Z.to_nat (Z.min i (Z.of_nat len)).

(** [l[start:stop]] *)
Definition slice {A} (l : list A) (start stop : Z) : list A :=
  take (slice_index (length l) stop - slice_index (length l) start)
    (drop (slice_index (length l) start) l).

(** The first [count] consecutive pieces of length [n]. *)
Fixpoint chunks {A} (n count : nat) (l : list A) : list (list A) :=
  match count with
  | 0 => []
  | S count => take n l :: chunks n count (drop n l)
  end.

(** [a[y0:y1, x0:x1]] on an array of two or more dimensions. *)
Definition slice_rows_cols {A} (a : ndarray A) (y0 y1 x0 x1 : Z)
    : result (ndarray A) :=
  match shape a with
  | height :: width :: rest =>
      let depth := foldr Nat.mul 1%nat rest in
      let rows := slice (chunks (width * depth) height (data a)) y0 y1 in
      Ok (mk_ndarray
            (length rows :: (slice_index width x1 - slice_index width x0)%nat :: rest)
            (concat (map (λ row, concat (slice (chunks depth width row) x0 x1)) rows)))
  | _ => Raise IndexError
  end.

Definition array_shape (a : array) : list nat :=
  match a with
  | Uint8Array a => shape a
  | Float32Array a => shape a
  end.

Definition array_slice (a : array) (y0 y1 x0 x1 : Z) : result array :=
  match a with
  | Uint8Array a => Uint8Array <$> slice_rows_cols a y0 y1 x0 x1
  | Float32Array a => Float32Array <$> slice_rows_cols a y0 y1 x0 x1
  end.

(** ** OpenCV *)

Class Cv2 : Type := {
  Contour : Type;
  (** [cv2.cvtColor(a, cv2.COLOR_RGB2GRAY)] *)
  cvtColor_RGB2GRAY : array → result array;
  (** [cv2.GaussianBlur(a, ksize, sigmaX)] *)
  GaussianBlur : array → nat * nat → Z → result array;
  (** [cv2.Canny(a, threshold1, threshold2)] *)
  Canny : array → Z → Z → result array;
  (** [cv2.findContours(a, cv2.RETR_EXTERNAL, cv2.CHAIN_APPROX_SIMPLE)[0]] *)
  findContours : array → result (list Contour);
  contourArea : Contour → Q;
  (** [cv2.boundingRect]: x, y, width, height *)
  boundingRect : Contour → Z * Z * Z * Z
}.

(** [max(first :: rest, key=key)]: a later element replaces the best one only
    when its key is strictly larger. *)
Fixpoint max_by {A} (key : A → Q) (best : A) (rest : list A) : A :=
  match rest with
  | [] => best
  | c :: rest => max_by key (if Qltb (key best) (key c) then c else best) rest
  end.

(** Lines 219-225: the rectangle widened by the margins and clipped to the
    image; the result is x, y, width, height. *)
Definition crop_box (shape0 shape1 : Z) (rect : Z * Z * Z * Z) (margin_x margin_y : Z)
    : Z * Z * Z * Z :=
  let '(x, y, w, h) := rect in
  let x := Z.max 0 (x - margin_x) in
  let y := Z.max 0 (y - margin_y) in
  let w := Z.min (shape1 - x) (w + 2 * margin_x) in
  let h := Z.min (shape0 - y) (h + 2 * margin_y) in
  (x, y, w, h).

Section crop.
Context {P : PIL} {C : Cv2}.

(** [crop_leaf_region(image, margin=0.1)] *)
Definition crop_leaf_region (image : image_like) (margin : f64) : result image_like :=
  let img_array := match image with
                   | PILImage im => np_array im
                   | NpArray a => a
                   end in
  gray ← cvtColor_RGB2GRAY img_array;
  blurred ← GaussianBlur gray (5, 5)%nat 0;
  edges ← Canny blurred 50 150;
  contours ← findContours edges;
  match contours with
  | first :: rest =>
      let largest_contour := max_by contourArea first rest in
      let '(x, y, w, h) := boundingRect largest_contour in
      margin_x ← int_of_f64 (f64_mul (f64_of_Z w) margin);
      margin_y ← int_of_f64 (f64_mul (f64_of_Z h) margin);
      shape1 ← getitem (array_shape img_array) 1;
      shape0 ← getitem (array_shape img_array) 0;
      let '(x, y, w, h) :=
        crop_box (Z.of_nat shape0) (Z.of_nat shape1) (x, y, w, h) margin_x margin_y in
      cropped ← array_slice img_array y (y + h) x (x + w);
      PILImage <$> fromarray cropped
  | [] => Ok image
  end.

End crop.

End Cropping.

(* ===================================================================== *)
(** * backend/disease_model.py *)
(* ===================================================================== *)

Module DiseaseModel.
Import Np.

(** ** Keras objects *)

(** A layer carries its [trainable] flag; a layer that is itself a model also
    has [layers]. *)
#[warnings="-register-all"]
Inductive layer : Type :=
| Layer (name : string) (trainable : bool) (sublayers : option (list layer)).

Definition layer_trainable (l : layer) : bool :=
  match l with Layer _ t _ => t end.

(** [layer.trainable = b]: on a layer with sublayers the flag is pushed down
    to all of them. *)
Fixpoint set_trainable (b : bool) (l : layer) : layer :=
  match l with
  | Layer n _ sub => Layer n b (option_map (map (set_trainable b)) sub)
  end.

(** [layer.layers] *)
Definition get_layers (l : layer) : result (list layer) :=
  match l with
  | Layer _ _ (Some ls) => Ok ls
  | Layer _ _ None => Raise AttributeError
  end.

(** Writing a model's sublayers back after they were mutated. *)
Definition with_layers (l : layer) (ls : list layer) : layer :=
  match l with Layer n t _ => Layer n t (Some ls) end.

Record optimizer : Type := Adam { learning_rate : Q }.

Record compile_args : Type := {
  c_optimizer : optimizer;
  c_loss : string;
  c_metrics : list string
}.

Inductive callback : Type :=
| EarlyStopping (monitor : string) (patience : nat) (restore_best_weights : bool)
| ModelCheckpoint (filepath : string) (save_best_only : bool) (monitor : string)
| ReduceLROnPlateau (monitor : string) (factor : Q) (patience : nat) (min_lr : Q).

(** The types Keras keeps abstract for this code. *)
Class KerasTypes : Type := {
  Weights : Type;
  Dataset : Type;
  History : Type
}.

(** A Keras model: its layers, what it was last compiled with, its weights. *)
Record Model `{KerasTypes} : Type := {
  layers : list layer;
  compiled : option compile_args;
  weights : Weights
}.

(** [model.compile(...)] binds optimizer, loss and metrics, replacing whatever
    was bound before. *)
Definition compile `{KerasTypes} (m : Model) (a : compile_args) : Model :=
  {| layers := layers m; compiled := Some a; weights := weights m |}.

(** The two Keras calls whose results the code consumes: the forward pass
    (one row of class probabilities per input of the batch) and training. *)
Class Keras `{KerasTypes} : Type := {
  model_predict : Model → array → result (list (list Q));
  model_fit : Model → Dataset → Dataset → nat → list callback →
              result (Model * History)
}.

(** ** PlantDiseaseModel *)

Record PlantDiseaseModel `{KerasTypes} : Type := {
  num_classes : nat;
  input_shape : nat * nat * nat;
  model : option Model;
  history : option History
}.

Section plant_disease_model.
Context {T : KerasTypes} {K : Keras}.

(** [__init__(self, num_classes=38, input_shape=(224, 224, 3))] *)
Definition init (num_classes : nat) (input_shape : nat * nat * nat)
    : PlantDiseaseModel :=
  {| num_classes := num_classes; input_shape := input_shape;
     model := None; history := None |}.

(** Reading an attribute of [self.model]: [None] has none. *)
Definition get_model (self : PlantDiseaseModel) : result Model :=
  match model self with
  | Some m => Ok m
  | None => Raise AttributeError
  end.

Definition set_model (self : PlantDiseaseModel) (m : Model) : PlantDiseaseModel :=
  {| num_classes := num_classes self; input_shape := input_shape self;
     model := Some m; history := history self |}.


Definition training_metrics : list string := ["accuracy"; "top_3_accuracy"].

(** [compile_model(self, learning_rate=0.001)] *)
Definition default_learning_rate : Q := 1 # 1000.

Definition compile_model (self : PlantDiseaseModel) (learning_rate : Q)
    : result PlantDiseaseModel :=
  m ← get_model self;
  Ok (set_model self
        (compile m {| c_optimizer := Adam learning_rate;
                      c_loss := "categorical_crossentropy";
                      c_metrics := training_metrics |})).


(** Number of leading elements selected by the slice [l[:stop]]. *)
Definition slice_stop (len : nat) (stop : Z) : nat :=
  if (stop <? 0)%Z then Z.to_nat (Z.max 0 (Z.of_nat len + stop))
  else Z.to_nat (Z.min stop (Z.of_nat len)).

(** [for layer in ls[:stop]: layer.trainable = False] *)
Definition freeze_until (ls : list layer) (stop : Z) : list layer :=
  map (set_trainable false) (take (slice_stop (length ls) stop) ls)
    ++ drop (slice_stop (length ls) stop) ls.

(** [0.0001/10] *)
Definition fine_tune_learning_rate : Q := (1 # 10000) / 10.

(** Lines 82-95 of [fine_tune]: unfreeze the first layer, freeze all but its
    last [unfreeze_layers] sublayers again, recompile.  The layers are mutated
    in place; the model is rebuilt around them here.  When a step raises, the
    exception is the outcome and the model is not returned. *)
Definition fine_tune_recompile (m : Model) (unfreeze_layers : Z) : result Model :=
  base_model ← getitem (layers m) 0;
  let base_model := set_trainable true base_model in
  base_layers ← get_layers base_model;
  let base_model := with_layers base_model (freeze_until base_layers (- unfreeze_layers)) in
  let m := {| layers := <[0%nat := base_model]> (layers m);
              compiled := compiled m; weights := weights m |} in
  Ok (compile m {| c_optimizer := Adam fine_tune_learning_rate;
                   c_loss := "categorical_crossentropy";
                   c_metrics := training_metrics |}).

(** [fine_tune(self, train_data, val_data, epochs=10, unfreeze_layers=50)];
    the history it returns is not stored in [self.history]. *)
Definition fine_tune (self : PlantDiseaseModel) (train_data val_data : Dataset)
    (epochs : nat) (unfreeze_layers : Z) : result (PlantDiseaseModel * History) :=
  m ← get_model self;
  m ← fine_tune_recompile m unfreeze_layers;
  let callbacks :=
    [ EarlyStopping "val_accuracy" 5 true;
      ModelCheckpoint "models/fine_tuned_model.h5" true "val_accuracy";
      ReduceLROnPlateau "val_loss" (2 # 10) 3 (1 # 100000) ] in
  '(m', fine_tune_history) ← model_fit m train_data val_data epochs callbacks;
  Ok (set_model self m', fine_tune_history).

(** [predict_disease(self, image_array, class_names)] *)
Definition predict_disease (self : PlantDiseaseModel) (image_array : array)
    (class_names : list string) : result (string * Q * list Q) :=
  m ← get_model self;
  prediction ← model_predict m image_array;
  row ← getitem prediction 0;
  predicted_class_idx ← argmax row;
  confidence ← getitem row predicted_class_idx;
  predicted_class ← getitem class_names predicted_class_idx;
  Ok (predicted_class, confidence, row).

End plant_disease_model.

End DiseaseModel.

(* ===================================================================== *)
(** * backend/disease_model.py: saving, loading and converting the model

    Paths are byte strings with the POSIX separator.  The file system is
    threaded through the calls that change it. *)
(* ===================================================================== *)

Module DiseaseModelIO.
Import DiseaseModel.

Abbreviation path := (list ascii).

Definition sep : ascii := "/"%char.

(** [p.rfind('/') + 1]: the length of the prefix that ends with the last
    separator, 0 when there is none. *)
Fixpoint rfind_sep_succ (p : path) : nat :=
  match p with
  | [] => 0
  | c :: t =>
      match rfind_sep_succ t with
      | 0 => if Ascii.eqb c sep then 1 else 0
      | S n => S (S n)
      end
  end.

Fixpoint lstrip_sep (p : path) : path :=
  match p with
  | [] => []
  | c :: t => if Ascii.eqb c sep then lstrip_sep t else p
  end.

(** [head.rstrip('/')] *)
Definition rstrip_sep (head : path) : path :=
  reverse (lstrip_sep (reverse head)).

(** [posixpath.dirname] *)
Definition dirname (p : path) : path :=
  let i := rfind_sep_succ p in
  let head := take i p in
  if negb (bool_decide (head = [])) && negb (bool_decide (head = replicate (length head) sep))
  then rstrip_sep head
  else head.

(** The operating-system calls of this file. *)
Class Os : Type := {
  FileSystem : Type;
  (** [os.makedirs(name, exist_ok=...)] *)
  makedirs : FileSystem → path → bool → result FileSystem;
  (** [with open(name, 'wb') as f: f.write(data)] *)
  write_binary : FileSystem → path → list byte → result FileSystem;
  (** [os.listdir(name)] *)
  listdir : FileSystem → path → result (list path);
  (** [os.path.isdir(name)] *)
  isdir : FileSystem → path → bool;
  (** [shutil.copy2(src, dst)] *)
  copy2 : FileSystem → path → path → result FileSystem
}.

(** [os.makedirs('')] finds no directory to create: [mkdir('')] fails with
    ENOENT, and [exist_ok] only forgives a directory that exists. *)
Class OsSpec (O : Os) : Prop := {
  makedirs_empty : ∀ (fs : FileSystem) (exist_ok : bool),
    makedirs fs [] exist_ok = Raise FileNotFoundError
}.

(** Keras and TensorFlow Lite serialisation. *)
Class KerasIO `{KerasTypes} `{Os} : Type := {
  model_save : Model → FileSystem → path → result FileSystem;
  keras_load_model : FileSystem → path → result Model;
  (** [TFLiteConverter.from_keras_model(model)], setting the optimisations,
      and [convert()] *)
  tflite_convert : option Model → result (list byte)
}.

Section model_io.
Context {T : KerasTypes} {O : Os} {KIO : KerasIO}.

(** [save_model(self, filepath='models/plant_disease_model.h5')] *)
Definition save_model (self : PlantDiseaseModel) (fs : FileSystem) (filepath : path)
    : result FileSystem :=
  fs ← makedirs fs (dirname filepath) true;
  m ← get_model self;
  model_save m fs filepath.

(** [load_model(self, filepath='models/plant_disease_model.h5')] *)
Definition load_model (self : PlantDiseaseModel) (fs : FileSystem) (filepath : path)
    : result (PlantDiseaseModel * Model) :=
  m ← keras_load_model fs filepath;
  Ok (set_model self m, m).

(** [convert_to_tflite(self, model_path=..., output_path=...)] *)
Definition convert_to_tflite (self : PlantDiseaseModel) (fs : FileSystem)
    (model_path output_path : path) : result (FileSystem * path) :=
  tflite_model ← tflite_convert (model self);
  fs ← makedirs fs (dirname output_path) true;
  fs ← write_binary fs output_path tflite_model;
  Ok (fs, output_path).

End model_io.

End DiseaseModelIO.

(* ===================================================================== *)
(** * backend/utils/preprocessing.py: split_dataset *)
(* ===================================================================== *)

Module SplitDataset.
Import Cropping DiseaseModelIO.

Definition p (s : string) : path := String.list_ascii_of_string s.

(** [os.path.join(a, b)] (POSIX) *)
Definition join (a b : path) : path :=
  if bool_decide (head b = Some sep) then b
  else if bool_decide (a = []) || bool_decide (last a = Some sep) then a ++ b
  else a ++ sep :: b.

(** [bytes.lower] on one character. *)
Definition lower_char (c : ascii) : ascii :=
  let n := Ascii.nat_of_ascii c in
  if (65 <=? n)%nat && (n <=? 90)%nat then Ascii.ascii_of_nat (n + 32) else c.

Definition lower (s : path) : path := map lower_char s.

(** [s.endswith(suffix)] *)
Definition endswith (s suffix : path) : bool :=
  bool_decide (drop (length s - length suffix) s = suffix).

(** [f.lower().endswith(('.jpg', '.jpeg', '.png'))] *)
Definition is_image (f : path) : bool :=
  existsb (endswith (lower f)) [p ".jpg"; p ".jpeg"; p ".png"].

Definition f64_add (x y : f64) : f64 := SFadd f64_prec f64_emax x y.
Definition f64_sub (x y : f64) : f64 := SFsub f64_prec f64_emax x y.

Definition is_zero (x : f64) : bool :=
  match x with S754_zero _ => true | _ => false end.

(** [x / y] on Python floats: division by zero raises. *)
Definition f64_truediv (x y : f64) : result f64 :=
  if is_zero y then Raise (BackendError "ZeroDivisionError")
  else Ok (SFdiv f64_prec f64_emax x y).

(** [sklearn.model_selection.train_test_split(items, test_size=..,
    random_state=..)] *)
Class ModelSelection : Type := {
  train_test_split : list path → f64 → Z → result (list path * list path)
}.

(** The local variables that the loop may leave unbound, and the file
    system. *)
Record locals `{Os} : Type := {
  fs : FileSystem;
  train_imgs : option (list path);
  val_imgs : option (list path);
  test_imgs : option (list path)
}.

(** Reading a local variable. *)
Definition read_local {A} (v : option A) : result A :=
  match v with
  | Some a => Ok a
  | None => Raise (BackendError "UnboundLocalError")
  end.

Section split.
Context {O : Os} {M : ModelSelection}.

Definition splits : list path := [p "train"; p "val"; p "test"].

(** [for name in names: os.makedirs(name, exist_ok=True)] *)
Fixpoint make_dirs (fs : FileSystem) (names : list path) : result FileSystem :=
  match names with
  | [] => Ok fs
  | name :: rest => fs ← makedirs fs name true; make_dirs fs rest
  end.

(** [for img in imgs: shutil.copy2(os.path.join(class_path, img),
    f"{dst_dir}/{img}")] *)
Fixpoint copy_all (fs : FileSystem) (class_path dst_dir : path) (imgs : list path)
    : result FileSystem :=
  match imgs with
  | [] => Ok fs
  | img :: rest =>
      fs ← copy2 fs (join class_path img) (dst_dir ++ sep :: img);
      copy_all fs class_path dst_dir rest
  end.

(** One iteration of [for class_name in os.listdir(data_dir)]. *)
Definition split_class (data_dir : path) (train_ratio val_ratio test_ratio : f64)
    (st : locals) (class_name : path) : result locals :=
  let class_path := join data_dir class_name in
  if negb (isdir (fs st) class_path) then Ok st
  else
    files ← listdir (fs st) class_path;
    let images := List.filter is_image files in
    '(train, temp) ← train_test_split images (f64_sub (f64_of_Z 1) train_ratio) 42;
    test_size ← f64_truediv test_ratio (f64_add val_ratio test_ratio);
    '(val, test) ← train_test_split temp test_size 42;
    fs1 ← make_dirs (fs st)
            (map (λ split, data_dir ++ p "_" ++ split ++ sep :: class_name) splits);
    fs1 ← copy_all fs1 class_path (data_dir ++ p "_train/" ++ class_name) train;
    fs1 ← copy_all fs1 class_path (data_dir ++ p "_val/" ++ class_name) val;
    fs1 ← copy_all fs1 class_path (data_dir ++ p "_test/" ++ class_name) test;
    Ok {| fs := fs1; train_imgs := Some train; val_imgs := Some val;
          test_imgs := Some test |}.

Fixpoint split_classes (data_dir : path) (train_ratio val_ratio test_ratio : f64)
    (st : locals) (class_names : list path) : result locals :=
  match class_names with
  | [] => Ok st
  | class_name :: rest =>
      st ← split_class data_dir train_ratio val_ratio test_ratio st class_name;
      split_classes data_dir train_ratio val_ratio test_ratio st rest
  end.

(** [split_dataset(data_dir, train_ratio=0.7, val_ratio=0.15,
    test_ratio=0.15)]; the three numbers are those of the closing [print]
    calls. *)
Definition split_dataset (fs0 : FileSystem) (data_dir : path)
    (train_ratio val_ratio test_ratio : f64)
    : result (FileSystem * (nat * nat * nat)) :=
  fs1 ← make_dirs fs0 (map (λ split, data_dir ++ p "_" ++ split) splits);
  class_names ← listdir fs1 data_dir;
  st ← split_classes data_dir train_ratio val_ratio test_ratio
         {| fs := fs1; train_imgs := None; val_imgs := None; test_imgs := None |}
         class_names;
  train ← read_local (train_imgs st);
  val ← read_local (val_imgs st);
  test ← read_local (test_imgs st);
  Ok (fs st, (length train, length val, length test)).

End split.

End SplitDataset.

(* ===================================================================== *)
(** * backend/utils/evaluation.py *)
(* ===================================================================== *)

Module Evaluation.
Import Np.

(** ** Label arrays

    Labels reach the evaluator either as a 1-D array of class indices or as a
    2-D array with one row per sample (one-hot or probabilities). *)
Inductive label_array : Type :=
| Indices (v : list Z)
| Categorical (rows : list (list Q)).

(** [len(y.shape)] *)
Definition ndim (y : label_array) : nat :=
  match y with
  | Indices _ => 1
  | Categorical _ => 2
  end.

(** [np.argmax(rows, axis=1)] on the rows of a 2-D array. *)
Definition argmax_rows (rows : list (list Q)) : result (list Z) :=
  mapM (λ row, Z.of_nat <$> argmax row) rows.

(** [np.max(rows, axis=1)] *)
Definition amax_rows (rows : list (list Q)) : result (list Q) :=
  mapM amax rows.

(** [np.argmax(y, axis=1)]: a 1-D array has no axis 1. *)
Definition argmax_axis1 (y : label_array) : result (list Z) :=
  match y with
  | Indices _ => Raise AxisError
  | Categorical rows => argmax_rows rows
  end.

(** [np.argmax(y, axis=1) if len(y.shape) > 1 else y]; the [else] branch is
    only reached by a 1-D array. *)
Definition class_indices (y : label_array) : result (list Z) :=
  if (1 <? ndim y)%nat then argmax_axis1 y
  else match y with
       | Indices v => Ok v
       | Categorical _ => Raise TypeError
       end.

(** ** Integer matrices *)

Abbreviation matrix := (list (list Z)).

Definition sumZ (l : list Z) : Z := foldr Z.add 0%Z l.

(** [cm[i, j]] *)
Definition getitem2 (cm : matrix) (i j : nat) : result Z :=
  row ← getitem cm i; getitem row j.

(** [cm[:, j]] *)
Definition column {A} (rows : list (list A)) (j : nat) : result (list A) :=
  mapM (λ row, getitem row j) rows.

(** [cm.sum()] *)
Definition matrix_sum (cm : matrix) : Z := sumZ (map sumZ cm).

(** ** sklearn.metrics.confusion_matrix

    Called without [labels]: the label set is the sorted set of values that
    occur in [y_true] or [y_pred], and entry (i, j) counts the samples whose
    true label is the i-th and whose predicted label is the j-th of that
    set.  Sequences of different lengths are rejected. *)
Definition unique_labels (y_true y_pred : list Z) : list Z :=
  merge_sort Z.le (remove_dups (y_true ++ y_pred)).

Definition count_pairs (a b : Z) (pairs : list (Z * Z)) : Z :=
  Z.of_nat (length (filter (λ tp, tp.1 = a ∧ tp.2 = b) pairs)).

Definition confusion_matrix (y_true y_pred : list Z) : result matrix :=
  if (length y_true =? length y_pred)%nat then
    let labels := unique_labels y_true y_pred in
    Ok (map (λ a, map (λ b, count_pairs a b (zip y_true y_pred)) labels) labels)
  else Raise ValueError.

(** ** ModelEvaluator *)

Record ModelEvaluator : Type := {
  class_names : list string;
  num_classes : nat
}.

(** [__init__(self, class_names)] *)
Definition init (class_names : list string) : ModelEvaluator :=
  {| class_names := class_names; num_classes := length class_names |}.

Record class_metrics : Type := {
  precision : Q;
  recall : Q;
  f1_score : Q;
  specificity : Q;
  support : Z
}.

(** One iteration of the loop of [calculate_per_class_metrics]. *)
Definition metrics_of_class (cm : matrix) (i : nat) : result class_metrics :=
  tp ← getitem2 cm i i;
  col ← column cm i;
  let fp := (sumZ col - tp)%Z in
  row ← getitem cm i;
  let fn := (sumZ row - tp)%Z in
  let tn := (matrix_sum cm - tp - fp - fn)%Z in
  let precision :=
    if (0 <? tp + fp)%Z then (inject_Z tp / inject_Z (tp + fp))%Q else 0%Q in
  let recall :=
    if (0 <? tp + fn)%Z then (inject_Z tp / inject_Z (tp + fn))%Q else 0%Q in
  let f1 :=
    if Qltb 0 (precision + recall)
    then (2 * (precision * recall) / (precision + recall))%Q else 0%Q in
  let specificity :=
    if (0 <? tn + fp)%Z then (inject_Z tn / inject_Z (tn + fp))%Q else 0%Q in
  Ok {| precision := precision; recall := recall; f1_score := f1;
        specificity := specificity; support := sumZ row |}.

(** [for i, class_name in enumerate(self.class_names): ...] *)
Fixpoint per_class_loop (cm : matrix) (i : nat) (names : list string)
    (per_class_metrics : gmap string class_metrics)
    : result (gmap string class_metrics) :=
  match names with
  | [] => Ok per_class_metrics
  | class_name :: rest =>
      m ← metrics_of_class cm i;
      per_class_loop cm (S i) rest (<[class_name := m]> per_class_metrics)
  end.

Definition calculate_per_class_metrics (self : ModelEvaluator)
    (y_true y_pred : label_array) : result (gmap string class_metrics) :=
  y_true_classes ← class_indices y_true;
  y_pred_classes ← class_indices y_pred;
  cm ← confusion_matrix y_true_classes y_pred_classes;
  per_class_loop cm 0 (class_names self) ∅.

(** ** evaluate_predictions and calculate_roc_curves *)

(** The scikit-learn functions whose results are only stored. *)
Class Sklearn : Type := {
  Report : Type;
  accuracy_score : list Z → list Z → result Q;
  precision_score_weighted : list Z → list Z → result Q;
  recall_score_weighted : list Z → list Z → result Q;
  f1_score_weighted : list Z → list Z → result Q;
  classification_report : list Z → list Z → list string → result Report;
  label_binarize : list Z → nat → result (list (list Z));
  roc_curve : list Z → list Q → result (list Q * list Q);
  auc : list Q → list Q → result Q
}.

(** Keys of the ROC dictionaries: a class index or the string ["micro"]. *)
Definition roc_key : Type := nat + string.

Record roc_data : Type := {
  fpr : gmap roc_key (list Q);
  tpr : gmap roc_key (list Q);
  roc_auc : gmap roc_key Q
}.

Record evaluation `{Sklearn} : Type := {
  ev_accuracy : Q;
  ev_precision : Q;
  ev_recall : Q;
  ev_f1_score : Q;
  ev_classification_report : Report;
  ev_confusion_matrix : matrix;
  ev_roc_curves : option roc_data
}.

Section evaluate.
Context {S : Sklearn}.

(** [for i in range(self.num_classes): ...] *)
Fixpoint roc_loop (y_true_bin : list (list Z)) (y_pred_proba : list (list Q))
    (classes : list nat) (acc : roc_data) : result roc_data :=
  match classes with
  | [] => Ok acc
  | i :: rest =>
      yt ← column y_true_bin i;
      yp ← column y_pred_proba i;
      '(f, t) ← roc_curve yt yp;
      a ← auc f t;
      roc_loop y_true_bin y_pred_proba rest
        {| fpr := <[inl i := f]> (fpr acc);
           tpr := <[inl i := t]> (tpr acc);
           roc_auc := <[inl i := a]> (roc_auc acc) |}
  end.

Definition calculate_roc_curves (self : ModelEvaluator) (y_true : label_array)
    (y_pred_proba : list (list Q)) : result roc_data :=
  idx ← argmax_axis1 y_true;
  y_true_bin ← label_binarize idx (num_classes self);
  d ← roc_loop y_true_bin y_pred_proba (seq 0 (num_classes self))
        {| fpr := ∅; tpr := ∅; roc_auc := ∅ |};
  '(f, t) ← roc_curve (concat y_true_bin) (concat y_pred_proba);
  a ← auc f t;
  Ok {| fpr := <[inr "micro" := f]> (fpr d);
        tpr := <[inr "micro" := t]> (tpr d);
        roc_auc := <[inr "micro" := a]> (roc_auc d) |}.

Definition evaluate_predictions (self : ModelEvaluator) (y_true y_pred : label_array)
    (y_pred_proba : option (list (list Q))) : result evaluation :=
  y_true_classes ← class_indices y_true;
  y_pred_classes ← class_indices y_pred;
  accuracy ← accuracy_score y_true_classes y_pred_classes;
  precision ← precision_score_weighted y_true_classes y_pred_classes;
  recall ← recall_score_weighted y_true_classes y_pred_classes;
  f1 ← f1_score_weighted y_true_classes y_pred_classes;
  report ← classification_report y_true_classes y_pred_classes (class_names self);
  cm ← confusion_matrix y_true_classes y_pred_classes;
  roc ← match y_pred_proba with
        | Some proba => Some <$> calculate_roc_curves self y_true proba
        | None => Ok None
        end;
  Ok {| ev_accuracy := accuracy; ev_precision := precision; ev_recall := recall;
        ev_f1_score := f1; ev_classification_report := report;
        ev_confusion_matrix := cm; ev_roc_curves := roc |}.

End evaluate.

(** ** calculate_confidence_calibration *)

Definition Qnat (n : nat) : Q := inject_Z (Z.of_nat n).

Definition sumQ (l : list Q) : Q := foldr Qplus 0%Q l.

(** [mask.mean()] of a boolean array: the fraction of [True] entries. *)
Definition mean_bool (mask : list bool) : Q :=
  (Qnat (length (filter (λ b, b = true) mask)) / Qnat (length mask))%Q.

(** [a.mean()] *)
Definition mean (a : list Q) : Q := (sumQ a / Qnat (length a))%Q.

(** [a[mask]] for a boolean mask: the mask must be as long as the array. *)
Definition mask_select {A} (a : list A) (mask : list bool) : result (list A) :=
  if (length a =? length mask)%nat
  then Ok (omap (λ xm : A * bool, if xm.2 then Some xm.1 else None) (zip a mask))
  else Raise IndexError.

(** [np.linspace(0, 1, n_bins + 1)] *)
Definition linspace01 (n_bins : nat) : list Q :=
  map (λ i, (Qnat i / Qnat n_bins)%Q) (seq 0 (S n_bins)).

(** [(max_probs > bin_lower) & (max_probs <= bin_upper)] *)
Definition in_bin_mask (max_probs : list Q) (bin_lower bin_upper : Q) : list bool :=
  map (λ p, Qltb bin_lower p && Qle_bool p bin_upper) max_probs.

(** Body of the first loop: accuracy and mean confidence of one bin. *)
Definition bin_stats (y_true_classes pred_classes : list Z) (max_probs : list Q)
    (bin : Q * Q) : result (Q * Q) :=
  let in_bin := in_bin_mask max_probs bin.1 bin.2 in
  let prop_in_bin := mean_bool in_bin in
  if Qltb 0 prop_in_bin then
    t ← mask_select y_true_classes in_bin;
    p ← mask_select pred_classes in_bin;
    let accuracy_in_bin := mean_bool (zip_with Z.eqb t p) in
    c ← mask_select max_probs in_bin;
    let avg_confidence_in_bin := mean c in
    Ok (accuracy_in_bin, avg_confidence_in_bin)
  else Ok (0%Q, 0%Q).

(** First loop: one entry per bin appended to [accuracies] and
    [confidences]. *)
Fixpoint bins_loop (y_true_classes pred_classes : list Z) (max_probs : list Q)
    (bins : list (Q * Q)) : result (list Q * list Q) :=
  match bins with
  | [] => Ok ([], [])
  | bin :: rest =>
      '(a, c) ← bin_stats y_true_classes pred_classes max_probs bin;
      '(accuracies, confidences) ← bins_loop y_true_classes pred_classes max_probs rest;
      Ok (a :: accuracies, c :: confidences)
  end.

(** Second loop: [ece += prop_in_bin * abs(accuracies[i] - confidences[i])]. *)
Fixpoint ece_loop (max_probs accuracies confidences : list Q) (i : nat)
    (bins : list (Q * Q)) (ece : Q) : result Q :=
  match bins with
  | [] => Ok ece
  | bin :: rest =>
      let prop_in_bin := mean_bool (in_bin_mask max_probs bin.1 bin.2) in
      a ← getitem accuracies i;
      c ← getitem confidences i;
      ece_loop max_probs accuracies confidences (S i) rest
        (ece + prop_in_bin * Qabs (a - c))%Q
  end.

Record calibration : Type := {
  accuracies : list Q;
  confidences : list Q;
  expected_calibration_error : Q;
  bin_boundaries : list Q
}.

(** [calculate_confidence_calibration(y_true, y_pred_proba, n_bins=10)].
    [mean_bool] and [mean] divide by the length; NumPy yields nan where the
    length is 0, which happens only for an empty batch. *)
Definition calculate_confidence_calibration (y_true : label_array)
    (y_pred_proba : list (list Q)) (n_bins : nat) : result calibration :=
  y_true_classes ← class_indices y_true;
  max_probs ← amax_rows y_pred_proba;
  pred_classes ← argmax_rows y_pred_proba;
  let bin_boundaries := linspace01 n_bins in
  let bin_lowers := removelast bin_boundaries in
  let bin_uppers := tail bin_boundaries in
  let bins := zip bin_lowers bin_uppers in
  '(accuracies, confidences) ← bins_loop y_true_classes pred_classes max_probs bins;
  ece ← ece_loop max_probs accuracies confidences 0 bins 0%Q;
  Ok {| accuracies := accuracies; confidences := confidences;
        expected_calibration_error := ece; bin_boundaries := bin_boundaries |}.

End Evaluation.

(* ===================================================================== *)
(** * backend/utils/evaluation.py: analyze_model_errors *)
(* ===================================================================== *)

Module ErrorAnalysis.
Import Np Evaluation.

(** [a != b] on two 1-D arrays: elementwise, an array of length 1 being
    stretched to the other's length; other length mismatches cannot be
    broadcast. *)
Definition not_equal (a b : list Z) : result (list bool) :=
  if (length a =? length b)%nat
  then Ok (zip_with (λ x y, negb (x =? y)%Z) a b)
  else match a, b with
       | [x], _ => Ok (map (λ y, negb (x =? y)%Z) b)
       | _, [y] => Ok (map (λ x, negb (x =? y)%Z) a)
       | _, _ => Raise ValueError
       end.

(** [mask.sum()] *)
Definition count_true (mask : list bool) : Z :=
  Z.of_nat (length (filter (λ b, b = true) mask)).

(** [np.where(mask)[0]] *)
Definition where_true (mask : list bool) : list nat :=
  omap (λ ib : nat * bool, if ib.2 then Some ib.1 else None)
       (zip (seq 0 (length mask)) mask).

Record common_error : Type := {
  true_class : string;
  predicted_class : string;
  count : Z
}.

Record error_analysis : Type := {
  total_errors : Z;
  error_rate : Q;
  misclassified_indices : list nat;
  common_errors : list common_error
}.

(** The two nested [for] loops, as the list of index pairs in the order they
    are visited. *)
Definition index_pairs (n : nat) : list (nat * nat) :=
  i ← seq 0 n; (λ j, (i, j)) <$> seq 0 n.

(** Loop body: [if i != j and error_matrix[i, j] > 0: common_errors.append(...)];
    the matrix is only read when [i != j]. *)
Fixpoint collect_errors (error_matrix : matrix) (class_names : list string)
    (pairs : list (nat * nat)) : result (list common_error) :=
  match pairs with
  | [] => Ok []
  | (i, j) :: rest =>
      if (i =? j)%nat then collect_errors error_matrix class_names rest
      else
        c ← getitem2 error_matrix i j;
        if (0 <? c)%Z then
          t ← getitem class_names i;
          p ← getitem class_names j;
          more ← collect_errors error_matrix class_names rest;
          Ok ({| true_class := t; predicted_class := p; count := c |} :: more)
        else collect_errors error_matrix class_names rest
  end.

(** [common_errors.sort(key=lambda x: x['count'], reverse=True)]: a stable
    sort by decreasing count. *)
Fixpoint insert_by_count (x : common_error) (l : list common_error)
    : list common_error :=
  match l with
  | [] => [x]
  | y :: t =>
      if (count x <? count y)%Z then y :: insert_by_count x t
      else x :: y :: t
  end.

Definition sort_by_count (l : list common_error) : list common_error :=
  foldr insert_by_count [] l.

(** [analyze_model_errors(y_true, y_pred, class_names)].  [mean_bool] divides
    by the length; NumPy yields nan for an empty array. *)
Definition analyze_model_errors (y_true y_pred : label_array)
    (class_names : list string) : result error_analysis :=
  y_true_classes ← class_indices y_true;
  y_pred_classes ← class_indices y_pred;
  misclassified ← not_equal y_true_classes y_pred_classes;
  wrong_true ← mask_select y_true_classes misclassified;
  wrong_pred ← mask_select y_pred_classes misclassified;
  error_matrix ← confusion_matrix wrong_true wrong_pred;
  common_errors ←
    collect_errors error_matrix class_names (index_pairs (length class_names));
  Ok {| total_errors := count_true misclassified;
        error_rate := mean_bool misclassified;
        misclassified_indices := where_true misclassified;
        common_errors := take 10 (sort_by_count common_errors) |}.

End ErrorAnalysis.

(* ===================================================================== *)
(** * backend/voice_assistant.py

    Python strings are sequences of code points.  Whisper, the HTTP client
    and the generative model are external services. *)
(* ===================================================================== *)

Module VoiceAssistant.

Definition text : Type := list N.

(** An ASCII literal. *)
Definition lit (s : string) : text :=
  map (λ a, N.of_nat (Ascii.nat_of_ascii a)) (String.list_ascii_of_string s).

(** [str.isspace] on one code point. *)
Definition isspace (c : N) : bool :=
  ((9 <=? c) && (c <=? 13) || (28 <=? c) && (c <=? 32)
   || (c =? 133) || (c =? 160) || (c =? 5760)
   || (8192 <=? c) && (c <=? 8202)
   || (c =? 8232) || (c =? 8233) || (c =? 8239) || (c =? 8287)
   || (c =? 12288))%N.

Fixpoint lstrip (s : text) : text :=
  match s with
  | [] => []
  | c :: t => if isspace c then lstrip t else s
  end.

(** [s.strip()] *)
Definition strip (s : text) : text :=
  reverse (lstrip (reverse (lstrip s))).

(** Truth value of a string: non-empty. *)
Definition truthy (s : text) : bool :=
  match s with [] => false | _ => true end.

Definition text_eqb (a b : text) : bool := bool_decide (a = b).

(** [try: body except Exception as e: handler] *)
Definition try_except {A} (body : result A) (handler : exn → result A) : result A :=
  match body with
  | Ok a => Ok a
  | Raise e => handler e
  end.

(** Values stored in the dictionaries handed to the HTTP layer. *)
Inductive pyvalue : Type :=
| PStr (s : text)
| PFloat (x : Q)
| PBool (b : bool).

(** Result of [whisper_model.transcribe]. *)
Record whisper_result : Type := { w_text : text; w_language : text }.

(** Response of [requests.post]: the status code and the parsed body, an
    object of strings when it parses. *)
Record http_response : Type := {
  status_code : Z;
  json : result (gmap string text)
}.

Class Services : Type := {
  Whisper : Type;
  whisper_transcribe : Whisper → text → result whisper_result;
  requests_post : text → list (string * text) → Z → result http_response;
  generate_content : text → text → result text;
  (** pyttsx3: an engine, its installed voices, and the three calls that
      change the engine *)
  Engine : Type;
  Voice : Type;
  voice_id : Voice → text;
  get_voices : Engine → result (list Voice);
  set_voice : Engine → text → result Engine;
  save_to_file : Engine → text → text → result Engine;
  run_and_wait : Engine → result Engine
}.

(** The attributes [initialize_services] may leave at [None]. *)
Record VoiceAssistant `{Services} : Type := {
  whisper_model : option Whisper;
  tts_engine : option Engine
}.

Record transcription : Type := {
  tr_text : text;
  tr_language : text;
  tr_confidence : Q
}.

Record ai_response : Type := {
  ar_response : text;
  ar_confidence : Q;
  ar_language : text
}.

Section voice_assistant.
Context {S : Services}.

(** The prompt header of [get_agriculture_response], an f-string over
    [user_location], [season] and [language] (lines 99-146); its wording is
    not transcribed. *)
Variable context : text → text → text → text.

(** [dict[key]] *)
Definition dict_get (d : gmap string text) (key : string) : result text :=
  match d !! key with
  | Some v => Ok v
  | None => Raise (BackendError "KeyError")
  end.

Definition transcribe_audio (self : VoiceAssistant) (audio_file_path : text)
    : result transcription :=
  try_except
    (model ← match whisper_model self with
             | Some m => Ok m
             | None => Raise AttributeError
             end;
     r ← whisper_transcribe model audio_file_path;
     Ok {| tr_text := w_text r; tr_language := w_language r;
           tr_confidence := 8 # 10 |})
    (λ _, Ok {| tr_text := []; tr_language := lit "en"; tr_confidence := 0 |}).

Definition translate_text (self : VoiceAssistant) (text_ source_lang target_lang : text)
    : result text :=
  if text_eqb source_lang target_lang then Ok text_
  else
    try_except
      (response ← requests_post (lit "https://libretranslate.de/translate")
                    [("q", text_); ("source", source_lang);
                     ("target", target_lang); ("format", lit "text")] 10;
       if (status_code response =? 200)%Z then
         body ← json response;
         dict_get body "translatedText"
       else Ok text_)
      (λ _, Ok text_).

Definition apology : text :=
  lit "I'm sorry, I couldn't process your question right now. Please try again.".

Definition get_agriculture_response (self : VoiceAssistant)
    (query language user_location season : text) : result ai_response :=
  try_except
    (let prompt :=
       context user_location season language
         ++ lit (String (Ascii.ascii_of_nat 10) (String (Ascii.ascii_of_nat 10) ""))
         ++ lit "Farmer's question: " ++ query
         ++ lit (String (Ascii.ascii_of_nat 10) (String (Ascii.ascii_of_nat 10) ""))
         ++ lit "Provide a helpful response:" in
     r ← generate_content (lit "gemini-pro") prompt;
     Ok {| ar_response := r; ar_confidence := 9 # 10; ar_language := language |})
    (λ _, Ok {| ar_response := apology; ar_confidence := 1 # 10;
                ar_language := language |}).

Definition process_text_query (self : VoiceAssistant)
    (query target_language user_location season : text)
    : result (gmap string pyvalue) :=
  try_except
    (english_query ←
       (if negb (text_eqb target_language (lit "en"))
        then translate_text self query target_language (lit "en")
        else Ok query);
     ai ← get_agriculture_response self english_query target_language
            user_location season;
     final_response ←
       (if negb (text_eqb target_language (lit "en"))
        then translate_text self (ar_response ai) (lit "en") target_language
        else Ok (ar_response ai));
     Ok (<["user_query" := PStr query]>
         (<["language" := PStr target_language]>
         (<["ai_response" := PStr final_response]>
         (<["confidence" := PFloat (ar_confidence ai)]>
         (<["success" := PBool true]> ∅))))))
    (λ _, Ok (<["error" := PStr (lit "Could not process your question. Please try again.")]>
              (<["success" := PBool false]> ∅))).

Definition process_voice_query (self : VoiceAssistant)
    (audio_file_path target_language user_location season : text)
    : result (gmap string pyvalue) :=
  transcription ← transcribe_audio self audio_file_path;
  if negb (truthy (strip (tr_text transcription))) then
    Ok (<["error" := PStr (lit "Could not understand the audio. Please try again.")]>
        (<["success" := PBool false]> ∅))
  else
    let detected_language := tr_language transcription in
    let user_text := tr_text transcription in
    english_query ← translate_text self user_text detected_language (lit "en");
    ai ← get_agriculture_response self english_query target_language
           user_location season;
    final_response ←
      translate_text self (ar_response ai) (lit "en")
        (if truthy target_language then target_language else detected_language);
    Ok (<["user_query" := PStr user_text]>
        (<["detected_language" := PStr detected_language]>
        (<["ai_response" := PStr final_response]>
        (<["confidence" := PFloat (ar_confidence ai)]>
        (<["success" := PBool true]> ∅))))).

Definition english_questions : list text :=
  [ lit "What fertilizer should I use for tomatoes?";
    lit "How do I treat powdery mildew on my crops?";
    lit "When is the best time to plant wheat?";
    lit "My corn leaves are turning yellow, what should I do?";
    lit "How much water do potato plants need?";
    lit "What are the signs of nitrogen deficiency?";
    lit "How do I prepare soil for the next season?";
    lit "Which crops grow well in monsoon season?" ].

Definition get_sample_questions (self : VoiceAssistant) (language : text)
    : result (list text) :=
  if text_eqb language (lit "en") then Ok english_questions
  else mapM (λ question, translate_text self question (lit "en") language)
         english_questions.

(** [s.startswith(prefix)] *)
Fixpoint startswith (s prefix : text) : bool :=
  match prefix, s with
  | [], _ => true
  | p :: prefix, c :: s => (c =? p)%N && startswith s prefix
  | _ :: _, [] => false
  end.

(** [text_to_speech(self, text, language='en')]: the path of the audio file,
    or [None]. *)
Definition text_to_speech (self : VoiceAssistant) (text_ language : text)
    : result (option text) :=
  try_except
    (engine ← match tts_engine self with
              | Some e => Ok e
              | None => Raise AttributeError
              end;
     voices ← get_voices engine;
     engine ←
       (if startswith language (lit "hi") && (1 <? length voices)%nat
        then v ← getitem voices 1; set_voice engine (voice_id v)
        else v ← getitem voices 0; set_voice engine (voice_id v));
     let output_path := lit "temp_audio_output_" ++ language ++ lit ".wav" in
     engine ← save_to_file engine text_ output_path;
     _ ← run_and_wait engine;
     Ok (Some output_path))
    (λ _, Ok None).

(** What [process_voice_query] could make out of a recording: nothing when
    the Whisper model is missing, when transcription raises, or when the
    transcript is empty or all white space. *)
Definition heard_nothing (self : VoiceAssistant) (audio_file_path : text) : Prop :=
  match whisper_model self with
  | None => True
  | Some m =>
      match whisper_transcribe m audio_file_path with
      | Raise _ => True
      | Ok r => forallb isspace (w_text r) = true
      end
  end.

End voice_assistant.

End VoiceAssistant.

(* ===================================================================== *)
(** * Expected Calibration Error, as the specification words it

    A prediction is summarised by its confidence (the top-class probability)
    and by whether the top class is the true class.  Bin [b] of [n_bins]
    holds the predictions whose confidence lies in (b/n_bins, (b+1)/n_bins].
    A non-empty bin has an accuracy (fraction of correct predictions) and a
    confidence (mean top-class probability); an empty bin counts 0 for both.
    The error is the sum over the bins of the bin's share of the predictions
    times the absolute gap between its accuracy and its confidence. *)
(* ===================================================================== *)

Module CalibrationSpec.
Import Np Evaluation.

Definition sample : Type := (Q * bool)%type.

(** The predictions of a batch: top-class probability, and whether the
    predicted class is the true class. *)
Definition samples_of (y_true_classes pred_classes : list Z) (max_probs : list Q)
    : list sample :=
  zip max_probs (zip_with Z.eqb y_true_classes pred_classes).

(** The [bins] equal-width intervals over (0, 1]. *)
Definition bin_interval (n_bins b : nat) : Q * Q :=
  ((Qnat b / Qnat n_bins)%Q, (Qnat (S b) / Qnat n_bins)%Q).

(** Membership of the half-open interval (lower, upper]. *)
Definition in_interval (bin : Q * Q) (s : sample) : bool :=
  Qltb bin.1 s.1 && Qle_bool s.1 bin.2.

Definition bin_members (n_bins b : nat) (samples : list sample) : list sample :=
  List.filter (in_interval (bin_interval n_bins b)) samples.

Definition bin_accuracy (members : list sample) : Q :=
  match members with
  | [] => 0%Q
  | _ => (Qnat (length (List.filter snd members)) / Qnat (length members))%Q
  end.

Definition bin_confidence (members : list sample) : Q :=
  match members with
  | [] => 0%Q
  | _ => (sumQ (map fst members) / Qnat (length members))%Q
  end.

(** Share of the predictions that fall in the bin. *)
Definition bin_weight (members samples : list sample) : Q :=
  (Qnat (length members) / Qnat (length samples))%Q.

Definition bin_error (n_bins : nat) (samples : list sample) (b : nat) : Q :=
  let members := bin_members n_bins b samples in
  (bin_weight members samples * Qabs (bin_accuracy members - bin_confidence members))%Q.

Definition ece (n_bins : nat) (samples : list sample) : Q :=
  sumQ (map (bin_error n_bins samples) (seq 0 n_bins)).

End CalibrationSpec.

(* ===================================================================== *)
(** * A solid-colour stand-in for Pillow

    The smallest implementation of the [PIL] interface: an image is a mode, a
    size and one colour; every band of every pixel holds that colour. *)
(* ===================================================================== *)

Module SolidImage.
Import Np Preprocessing.

Record solid : Type := { s_mode : string; s_size : nat * nat; s_colour : byte }.

Definition bands (m : string) : nat :=
  if String.eqb m "RGB" then 3%nat
  else if String.eqb m "RGBA" then 4%nat
  else 1%nat.

Definition solid_array (im : solid) : array :=
  Uint8Array
    (mk_ndarray [(s_size im).2; (s_size im).1; bands (s_mode im)]
       (replicate ((s_size im).2 * (s_size im).1 * bands (s_mode im)) (s_colour im))).

Definition solid_fromarray (a : array) : result solid :=
  match a with
  | Uint8Array a =>
      match shape a, data a with
      | [h; w; 3%nat], c :: _ => Ok {| s_mode := "RGB"; s_size := (w, h); s_colour := c |}
      | [h; w], c :: _ => Ok {| s_mode := "L"; s_size := (w, h); s_colour := c |}
      | _, _ => Raise TypeError
      end
  | Float32Array _ => Raise TypeError
  end.

#[export] Instance solid_pil : PIL := {|
  Image := solid;
  mode := s_mode;
  size := s_size;
  fromarray := solid_fromarray;
  resize := λ im sz _, {| s_mode := s_mode im; s_size := sz; s_colour := s_colour im |};
  convert := λ im m, {| s_mode := m; s_size := s_size im; s_colour := s_colour im |};
  np_array := solid_array
|}.

(** A 300 x 300 grey-scale image. *)
Definition grey_300 : solid :=
  {| s_mode := "L"; s_size := (300%nat, 300%nat); s_colour := Byte.x80 |}.

Definition grey_input : @image_like solid_pil := @PILImage solid_pil grey_300.

(** The same image after [resize((224, 224))] and [convert('RGB')]. *)
Definition grey_rgb_224 : solid :=
  @convert solid_pil (@resize solid_pil grey_300 (224%nat, 224%nat) LANCZOS) "RGB".

End SolidImage.

(* ===================================================================== *)
(** * A lookup-table stand-in for Keras

    The smallest implementation of the [Keras] interface: the weights of a
    model are the rows its forward pass returns, and training leaves the
    model as it is. *)
(* ===================================================================== *)

Module TableKeras.
Import Np DiseaseModel.

#[export] Instance table_types : KerasTypes :=
  {| Weights := list (list Q); Dataset := unit; History := list Q |}.

#[export] Instance table_keras : Keras :=
  {| model_predict := λ m _, Ok (weights m);
     model_fit := λ m _ _ _ _, Ok (m, []) |}.

Definition backbone : layer :=
  Layer "efficientnetb0" false
    (Some [Layer "stem_conv" false None;
           Layer "block7a_project_conv" false None;
           Layer "top_conv" false None]).

(** Three classes; the forward pass ties classes 1 and 2 at 2/5. *)
Definition table_model : Model :=
  {| layers := [backbone; Layer "dense_1" true None; Layer "predictions" true None];
     compiled := None;
     weights := [[1 # 5; 2 # 5; 2 # 5]] |}.

(** Built, not compiled, not trained. *)
Definition built : PlantDiseaseModel :=
  {| num_classes := 3; input_shape := (224, 224, 3)%nat;
     model := Some table_model; history := None |}.

(** Built and compiled with a learning rate [lr], not trained. *)
Definition compiled_with (lr : Q) : PlantDiseaseModel :=
  set_model built
    (compile table_model {| c_optimizer := Adam lr;
                            c_loss := "categorical_crossentropy";
                            c_metrics := training_metrics |}).

Definition table_classes : list string :=
  ["Apple___healthy"; "Apple___Apple_scab"; "Tomato___healthy"].

Definition one_pixel : array :=
  Float32Array (mk_ndarray [1; 1; 1; 3]%nat [f32_of_Z 0; f32_of_Z 0; f32_of_Z 0]).

End TableKeras.

(* ===================================================================== *)
(** * Sample batches *)
(* ===================================================================== *)

(** Twenty samples whose confusion matrix is [[8, 2], [1, 9]]. *)
Module MetricsDemo.

Definition twenty_true : list Z :=
  (replicate 10 0 ++ replicate 10 1)%Z.

Definition twenty_pred : list Z :=
  (replicate 8 0 ++ replicate 2 1 ++ replicate 1 0 ++ replicate 9 1)%Z.

End MetricsDemo.

(** Four predictions over two classes. *)
Module CalibrationDemo.
Import Evaluation.

Definition y_true : label_array := Indices [0; 1; 1; 0]%Z.

Definition proba : list (list Q) :=
  [[9 # 10; 1 # 10]; [2 # 10; 8 # 10]; [6 # 10; 4 # 10]; [1 # 2; 1 # 2]].

End CalibrationDemo.

(** One-hot rows, as the data generators of [create_data_generators]
    ([class_mode='categorical']) yield them. *)
Module OneHot.

Definition one_hot (num_classes c : nat) : list Q :=
  map (λ j, if (j =? c)%nat then 1%Q else 0%Q) (seq 0 num_classes).

End OneHot.

(* ===================================================================== *)
(** * A stand-in for OpenCV that finds two fixed rectangles

    The filters return their input; a contour is its bounding rectangle and
    its area is that of the rectangle. *)
(* ===================================================================== *)

Module RectCv2.
Import Np Preprocessing Cropping.

#[export] Instance rect_cv2 : Cv2 := {|
  Contour := Z * Z * Z * Z;
  cvtColor_RGB2GRAY := λ a, Ok a;
  GaussianBlur := λ a _ _, Ok a;
  Canny := λ a _ _, Ok a;
  findContours := λ _, Ok [(2, 3, 4, 5); (10, 5, 20, 10)]%Z;
  contourArea := λ c, inject_Z (c.1.2 * c.2);
  boundingRect := λ c, c
|}.

(** A 40 x 30 RGB image. *)
Definition leaf_photo : @image_like SolidImage.solid_pil :=
  @PILImage SolidImage.solid_pil
    {| SolidImage.s_mode := "RGB"; SolidImage.s_size := (40%nat, 30%nat);
       SolidImage.s_colour := Byte.x80 |}.

End RectCv2.

(* ===================================================================== *)
(** * A file system that is a list of directories and files *)
(* ===================================================================== *)

Module ListFs.
Import DiseaseModel DiseaseModelIO.

#[export] Instance list_os : Os := {|
  FileSystem := list path * list (path * list byte);
  makedirs := λ fs name _,
    match name with
    | [] => Raise FileNotFoundError
    | _ => Ok (name :: fs.1, fs.2)
    end;
  write_binary := λ fs name data,
    if bool_decide (dirname name = [] ∨ dirname name ∈ fs.1)
    then Ok (fs.1, (name, data) :: fs.2)
    else Raise FileNotFoundError;
  listdir := λ fs name,
    if bool_decide (name ∈ fs.1)
    then Ok (map (drop (S (length name)))
               (List.filter (λ q, bool_decide (dirname q = name)) (fs.1 ++ fs.2.*1)))
    else Raise FileNotFoundError;
  isdir := λ fs name, bool_decide (name ∈ fs.1);
  copy2 := λ fs src dst,
    match list_find (λ f, f.1 = src) fs.2 with
    | Some (_, f) =>
        if bool_decide (dirname dst = [] ∨ dirname dst ∈ fs.1)
        then Ok (fs.1, (dst, f.2) :: fs.2)
        else Raise FileNotFoundError
    | None => Raise FileNotFoundError
    end
|}.

#[export] Instance list_keras_io : @KerasIO TableKeras.table_types list_os := {|
  model_save := λ m fs name, write_binary fs name [];
  keras_load_model := λ fs name,
    if bool_decide (name ∈ fs.2.*1) then Ok TableKeras.table_model
    else Raise FileNotFoundError;
  tflite_convert := λ m,
    match m with Some _ => Ok [] | None => Raise AttributeError end
|}.

Definition empty_fs : FileSystem := ([], []).

(** A directory that holds one text file and no class directory. *)
Definition photos_fs : FileSystem :=
  ([String.list_ascii_of_string "photos"],
   [(String.list_ascii_of_string "photos/readme.txt", [])]).

(** A split that puts every item into the training part. *)
#[export] Instance keep_all : SplitDataset.ModelSelection :=
  {| SplitDataset.train_test_split := λ items _ _, Ok (items, []) |}.

End ListFs.

(* ===================================================================== *)
(** * A deployment without network

    Whisper runs locally and one voice is installed; every HTTP request and
    every call of the generative model fails. *)
(* ===================================================================== *)

Module OfflineServices.
Import VoiceAssistant.

#[export] Instance offline : Services := {|
  Whisper := unit;
  whisper_transcribe := λ _ _,
    Ok {| w_text := lit "when to sow wheat"; w_language := lit "en" |};
  requests_post := λ _ _ _, Raise (BackendError "ConnectionError");
  generate_content := λ _ _, Raise (BackendError "ServiceUnavailable");
  Engine := list (text * text);
  Voice := text;
  voice_id := λ v, v;
  get_voices := λ _, Ok [lit "english"];
  set_voice := λ e _, Ok e;
  save_to_file := λ e t path, Ok ((t, path) :: e);
  run_and_wait := λ e, Ok e
|}.

Definition assistant : VoiceAssistant :=
  {| whisper_model := Some tt; tts_engine := Some [] |}.

Definition no_context : text → text → text → text := λ _ _ _, [].

End OfflineServices.

(* ===================================================================== *)
(** * A constant stand-in for the scikit-learn scores

    Every summary score is 1, every ROC curve is the diagonal;
    [label_binarize] is the real one-vs-rest indicator matrix. *)
(* ===================================================================== *)

Module ConstSklearn.
Import Evaluation.

#[export] Instance const_sklearn : Sklearn :=
  {| Report := unit;
     accuracy_score := λ _ _, Ok 1%Q;
     precision_score_weighted := λ _ _, Ok 1%Q;
     recall_score_weighted := λ _ _, Ok 1%Q;
     f1_score_weighted := λ _ _, Ok 1%Q;
     classification_report := λ _ _ _, Ok tt;
     label_binarize := λ idx n,
       Ok (map (λ i, map (λ c, if (i =? Z.of_nat c)%Z then 1%Z else 0%Z) (seq 0 n)) idx);
     roc_curve := λ _ _, Ok ([0%Q; 1%Q], [0%Q; 1%Q]);
     auc := λ _ _, Ok (1 # 2) |}.

Definition two_classes : ModelEvaluator := init ["healthy"; "diseased"].

Definition two_proba : list (list Q) := [[9 # 10; 1 # 10]; [2 # 10; 8 # 10]].

End ConstSklearn.

(* ===================================================================== *)
(** * Properties of the preprocessing path *)
(* ===================================================================== *)

Module PreprocessingProps.
Import Np Preprocessing.

(** Dividing a uint8 value by 255.0 in binary32 lands in [0.0, 1.0]:
    checked on each of the 256 values. *)
Lemma f32_byte_over_255 (b : byte) :
  in_unit_interval (f32_div (f32_of_u8 b) f255) = true.
Proof. destruct b; vm_compute; reflexivity. Qed.

#[export] Instance solid_pil_spec : PILSpec SolidImage.solid_pil.
Proof.
  split; try reflexivity.
  intros im Hm. simpl in *.
  exists (replicate ((SolidImage.s_size im).2 * (SolidImage.s_size im).1 * 3)
            (SolidImage.s_colour im)).
  unfold SolidImage.solid_array. rewrite Hm. simpl.
  split; [reflexivity | apply length_replicate].
Qed.

Section with_pil.
Context {P : PIL} {HP : PILSpec P}.

(** The image handed to NumPy is RGB and has the target size. *)
Lemma resized_rgb (self : ImagePreprocessor) (im : Image) :
  let r := resize im (target_size self) LANCZOS in
  let c := if String.eqb (mode r) "RGB" then r else convert r "RGB" in
  mode c = "RGB" ∧ size c = target_size self.
Proof.
  intros r c. subst c.
  destruct (String.eqb (mode r) "RGB") eqn:E.
  - apply String.eqb_eq in E. split; [exact E | apply resize_size].
  - split; [apply convert_mode | rewrite convert_size; apply resize_size].
Qed.

(** Shape and contents of the result for any target size: the batch axis, then
    height, width and the three channels. *)
Lemma preprocess_image_general (self : ImagePreprocessor) (image : image_like)
    (im : Image) (normalize : bool) :
  as_image image = Ok im →
  ∃ px : list byte,
    length px = ((target_size self).2 * (target_size self).1 * 3)%nat ∧
    preprocess_image self image normalize =
      Ok (if normalize
          then Float32Array
                 (mk_ndarray [1%nat; (target_size self).2; (target_size self).1; 3%nat]
                    (map (λ b, f32_div (f32_of_u8 b) f255) px))
          else Uint8Array
                 (mk_ndarray [1%nat; (target_size self).2; (target_size self).1; 3%nat] px)).
Proof.
  intros Him. unfold preprocess_image. rewrite Him. cbn [mbind result_bind Py.bind].
  destruct (resized_rgb self im) as [Hm Hs].
  destruct (np_array_rgb _ Hm) as (d & Hd & Hlen).
  rewrite Hs in Hd, Hlen. exists d. split; [exact Hlen|].
  rewrite Hd. destruct normalize; cbn.
  - rewrite map_map. reflexivity.
  - reflexivity.
Qed.

End with_pil.

(** C1. For every valid input image (a Pillow image, or an array Pillow can
    convert), [preprocess_image] of the default preprocessor with
    [normalize=True] returns a float32 tensor of shape (1, 224, 224, 3), with
    one element per position, all of them in [0.0, 1.0]. *)
Theorem C1_preprocess_normalized {P : PIL} {HP : PILSpec P} (image : image_like) (im : Image) :
  as_image image = Ok im →
  ∃ t : ndarray f32,
    preprocess_image default_preprocessor image true = Ok (Float32Array t) ∧
    shape t = [1; 224; 224; 3]%nat ∧
    length (data t) = (1 * 224 * 224 * 3)%nat ∧
    Forall (λ x, in_unit_interval x = true) (data t).
Proof.
  intros Him.
  destruct (preprocess_image_general default_preprocessor image im true Him)
    as (px & Hlen & Hrun).
  eexists. split; [exact Hrun|]. cbn [shape data].
  split; [reflexivity|]. split.
  - rewrite length_map, Hlen. cbn [default_preprocessor target_size fst snd]. lia.
  - apply Forall_forall. intros x Hx.
    apply list_elem_of_fmap in Hx as (b & -> & _). apply f32_byte_over_255.
Qed.

(** The theorem at a 300 x 300 grey-scale image. *)
Lemma C1_preprocess_normalized_witness :
  ∃ t : ndarray f32,
    preprocess_image default_preprocessor SolidImage.grey_input true
      = Ok (Float32Array t) ∧
    shape t = [1; 224; 224; 3]%nat ∧
    length (data t) = (1 * 224 * 224 * 3)%nat ∧
    Forall (λ x, in_unit_interval x = true) (data t).
Proof.
  apply (C1_preprocess_normalized SolidImage.grey_input SolidImage.grey_300).
  reflexivity.
Defined.

(** C10. With [normalize=False] the division is skipped: the result is the
    uint8 pixel array NumPy reads from the resized RGB image, unchanged, under
    a leading batch axis; shape (1, 224, 224, 3), every entry in [0, 255]. *)
Theorem C10_preprocess_raw {P : PIL} {HP : PILSpec P} (image : image_like) (im : Image) :
  as_image image = Ok im →
  let rgb :=
    let r := resize im (224, 224)%nat LANCZOS in
    if String.eqb (mode r) "RGB" then r else convert r "RGB" in
  ∃ t : ndarray byte,
    preprocess_image default_preprocessor image false = Ok (Uint8Array t) ∧
    shape t = [1; 224; 224; 3]%nat ∧
    length (data t) = (1 * 224 * 224 * 3)%nat ∧
    np_array rgb = Uint8Array (mk_ndarray [224; 224; 3]%nat (data t)) ∧
    Forall (λ b, (0 ≤ Z.of_N (Byte.to_N b) ≤ 255)%Z) (data t).
Proof.
  intros Him rgb.
  destruct (resized_rgb default_preprocessor im) as [Hm Hs].
  change (mode rgb = "RGB") in Hm. change (size rgb = (224, 224)%nat) in Hs.
  destruct (np_array_rgb _ Hm) as (d & Hd & Hlen).
  rewrite Hs in Hd, Hlen. cbn [fst snd] in Hd, Hlen.
  exists (mk_ndarray [1; 224; 224; 3]%nat d).
  split; [|split; [reflexivity|split; [cbn [data]; lia|split; [exact Hd|]]]].
  - unfold preprocess_image. rewrite Him. cbn [mbind result_bind Py.bind].
    change (Ok (expand_dims0 (np_array rgb)) =
            Ok (Uint8Array (mk_ndarray [1; 224; 224; 3]%nat d))).
    rewrite Hd. reflexivity.
  - apply Forall_forall. intros b _. cbv beta.
    pose proof (Byte.to_N_bounded b) as Hb. clear -Hb. lia.
Qed.

(** The theorem at the same 300 x 300 grey-scale image. *)
Lemma C10_preprocess_raw_witness :
  ∃ t : ndarray byte,
    preprocess_image default_preprocessor SolidImage.grey_input false
      = Ok (Uint8Array t) ∧
    shape t = [1; 224; 224; 3]%nat ∧
    length (data t) = (1 * 224 * 224 * 3)%nat ∧
    @np_array SolidImage.solid_pil SolidImage.grey_rgb_224
      = Uint8Array (mk_ndarray [224; 224; 3]%nat (data t)) ∧
    Forall (λ b, (0 ≤ Z.of_N (Byte.to_N b) ≤ 255)%Z) (data t).
Proof.
  apply (C10_preprocess_raw SolidImage.grey_input SolidImage.grey_300).
  reflexivity.
Defined.

End PreprocessingProps.

(* ===================================================================== *)
(** * Properties of NumPy's argmax and max *)
(* ===================================================================== *)

Module NpProps.
Import Np.

Lemma Qltb_lt (x y : Q) : Qltb x y = true ↔ (x < y)%Q.
Proof.
  unfold Qltb. rewrite negb_true_iff, <- not_true_iff_false, Qle_bool_iff.
  split; [apply Qnot_le_lt | apply Qlt_not_le].
Qed.

Lemma Qltb_ge (x y : Q) : Qltb x y = false ↔ (y <= x)%Q.
Proof.
  unfold Qltb. rewrite negb_false_iff. apply Qle_bool_iff.
Qed.

(** The scan keeps, for the prefix read so far, the index of the first
    maximum: nothing in the prefix is larger, and everything before the kept
    index is strictly smaller. *)
Lemma argmax_scan_spec (rest pre : list Q) (best_i : nat) (best : Q) :
  pre !! best_i = Some best →
  (∀ j p, pre !! j = Some p → (p <= best)%Q) →
  (∀ j p, (j < best_i)%nat → pre !! j = Some p → (p < best)%Q) →
  ∃ v, (pre ++ rest) !! argmax_scan best_i best (length pre) rest = Some v ∧
       (∀ j p, (pre ++ rest) !! j = Some p → (p <= v)%Q) ∧
       (∀ j p, (j < argmax_scan best_i best (length pre) rest)%nat →
               (pre ++ rest) !! j = Some p → (p < v)%Q).
Proof.
  revert pre best_i best.
  induction rest as [|x rest IH]; intros pre best_i best Hbest Hmax Hfirst.
  - cbn [argmax_scan]. rewrite app_nil_r. eauto.
  - cbn [argmax_scan].
    replace (pre ++ x :: rest) with ((pre ++ [x]) ++ rest)
      by (rewrite <- app_assoc; reflexivity).
    replace (S (length pre)) with (length (pre ++ [x]))
      by (rewrite length_app; cbn; lia).
    destruct (Qltb best x) eqn:E.
    + apply Qltb_lt in E. apply IH.
      * rewrite lookup_app_r, Nat.sub_diag by lia. reflexivity.
      * intros j p Hj. apply lookup_app_Some in Hj as [Hj|[_ Hj]].
        -- apply Qlt_le_weak. eapply Qle_lt_trans; [eapply Hmax, Hj | exact E].
        -- apply list_lookup_singleton_Some in Hj as [_ <-]. apply Qle_refl.
      * intros j p Hlt Hj. rewrite lookup_app_l in Hj by lia.
        eapply Qle_lt_trans; [eapply Hmax, Hj | exact E].
    + apply Qltb_ge in E. apply IH.
      * rewrite lookup_app_l by (apply lookup_lt_Some in Hbest; lia). exact Hbest.
      * intros j p Hj. apply lookup_app_Some in Hj as [Hj|[_ Hj]].
        -- eapply Hmax, Hj.
        -- apply list_lookup_singleton_Some in Hj as [_ <-]. exact E.
      * intros j p Hlt Hj. apply lookup_lt_Some in Hbest.
        rewrite lookup_app_l in Hj by lia. eapply Hfirst; eauto.
Qed.

(** [np.argmax] of a non-empty row: the index of a maximum, and the lowest
    such index. *)
Lemma argmax_first_max (l : list Q) :
  l ≠ [] →
  ∃ i v, argmax l = Ok i ∧ l !! i = Some v ∧
         (∀ j p, l !! j = Some p → (p <= v)%Q) ∧
         (∀ j p, (j < i)%nat → l !! j = Some p → (p < v)%Q).
Proof.
  destruct l as [|x t]; [congruence|]. intros _.
  destruct (argmax_scan_spec t [x] 0 x) as (v & Hv & Hmax & Hfirst).
  - reflexivity.
  - intros j p Hj. apply list_lookup_singleton_Some in Hj as [_ <-]. apply Qle_refl.
  - intros j p Hj. lia.
  - exists (argmax_scan 0 x 1 t), v. split; [reflexivity|]. auto.
Qed.

End NpProps.

(* ===================================================================== *)
(** * Properties of the model wrapper *)
(* ===================================================================== *)

Module DiseaseModelProps.
Import Np DiseaseModel NpProps TableKeras.

Section with_keras.
Context {T : KerasTypes} {K : Keras}.

Lemma fine_tune_recompile_compiled (m m2 : Model) (unfreeze_layers : Z) :
  fine_tune_recompile m unfreeze_layers = Ok m2 →
  compiled m2 = Some {| c_optimizer := Adam fine_tune_learning_rate;
                        c_loss := "categorical_crossentropy";
                        c_metrics := training_metrics |}.
Proof.
  unfold fine_tune_recompile. intros Hrun.
  destruct (getitem (layers m) 0) as [b|e]; cbn in Hrun; [|discriminate].
  destruct (get_layers (set_trainable true b)) as [ls|e]; cbn in Hrun; [|discriminate].
  injection Hrun as <-. reflexivity.
Qed.


End with_keras.

(** C2. For every probability vector the forward pass returns for the input,
    [predict_disease] returns the class name at the argmax index of that
    vector, the vector's own entry at that index as confidence (no
    re-normalisation), and the vector itself; the index is that of a maximum,
    and of the first one when several classes tie. *)
Theorem C2_predict_argmax {T : KerasTypes} {K : Keras} (self : PlantDiseaseModel)
    (m : Model) (image_array : array) (class_names : list string)
    (probs : list Q) (others : list (list Q)) :
  model self = Some m →
  model_predict m image_array = Ok (probs :: others) →
  probs ≠ [] →
  (length probs ≤ length class_names)%nat →
  ∃ (idx : nat) (label : string) (confidence : Q),
    predict_disease self image_array class_names = Ok (label, confidence, probs) ∧
    class_names !! idx = Some label ∧
    probs !! idx = Some confidence ∧
    (∀ j p, probs !! j = Some p → (p <= confidence)%Q) ∧
    (∀ j p, (j < idx)%nat → probs !! j = Some p → (p < confidence)%Q).
Proof.
  intros Hm Hrun Hne Hlen.
  destruct (argmax_first_max probs Hne) as (i & v & Harg & Hv & Hmax & Hfirst).
  assert (is_Some (class_names !! i)) as [label Hlabel].
  { apply lookup_lt_is_Some. apply lookup_lt_Some in Hv. lia. }
  exists i, label, v. split; [|auto].
  unfold predict_disease, get_model. rewrite Hm. cbn. rewrite Hrun. cbn.
  rewrite Harg. cbn. unfold getitem. rewrite Hv. cbn. rewrite Hlabel. reflexivity.
Qed.

(** The theorem at a forward pass that ties two classes at 2/5. *)
Lemma C2_predict_argmax_witness :
  ∃ (idx : nat) (label : string) (confidence : Q),
    predict_disease TableKeras.built TableKeras.one_pixel TableKeras.table_classes
      = Ok (label, confidence, [1 # 5; 2 # 5; 2 # 5]) ∧
    TableKeras.table_classes !! idx = Some label ∧
    [1 # 5; 2 # 5; 2 # 5] !! idx = Some confidence ∧
    (∀ j p, [1 # 5; 2 # 5; 2 # 5] !! j = Some p → (p <= confidence)%Q) ∧
    (∀ j p, (j < idx)%nat → [1 # 5; 2 # 5; 2 # 5] !! j = Some p → (p < confidence)%Q).
Proof.
  apply (C2_predict_argmax TableKeras.built TableKeras.table_model
           TableKeras.one_pixel TableKeras.table_classes [1 # 5; 2 # 5; 2 # 5] []).
  - reflexivity.
  - reflexivity.
  - discriminate.
  - simpl. lia.
Defined.

(** C4, as the code has it.  Whatever learning rate [compile_model] was given,
    [fine_tune] recompiles with the constant 0.0001/10 = 1e-5 and hands the
    model so compiled to [fit]; that constant is the initial rate divided by
    100 exactly when the initial rate is 0.001, the default of
    [compile_model]. *)
Theorem C4_fine_tune_rate_is_constant {T : KerasTypes} {K : Keras}
    (self self1 : PlantDiseaseModel) (initial_rate : Q) (m1 m2 : Model)
    (train_data val_data : Dataset) (epochs : nat) (unfreeze_layers : Z) :
  compile_model self initial_rate = Ok self1 →
  model self1 = Some m1 →
  fine_tune_recompile m1 unfreeze_layers = Ok m2 →
  (c_optimizer <$> compiled m1 = Some (Adam initial_rate)) ∧
  (c_optimizer <$> compiled m2 = Some (Adam fine_tune_learning_rate)) ∧
  (fine_tune_learning_rate == 1 # 100000)%Q ∧
  ((fine_tune_learning_rate == initial_rate / 100)%Q ↔ (initial_rate == 1 # 1000)%Q) ∧
  fine_tune self1 train_data val_data epochs unfreeze_layers =
    ('(m', h) ← model_fit m2 train_data val_data epochs
                  [ EarlyStopping "val_accuracy" 5 true;
                    ModelCheckpoint "models/fine_tuned_model.h5" true "val_accuracy";
                    ReduceLROnPlateau "val_loss" (2 # 10) 3 (1 # 100000) ];
     Ok (set_model self1 m', h)).
Proof.
  intros Hc Hm1 Hft.
  split; [|split; [|split; [|split]]].
  - unfold compile_model, get_model in Hc.
    destruct (model self) as [m|]; cbn in Hc; [|discriminate].
    injection Hc as <-. cbn in Hm1. injection Hm1 as <-. reflexivity.
  - rewrite (fine_tune_recompile_compiled _ _ _ Hft). reflexivity.
  - reflexivity.
  - unfold fine_tune_learning_rate. split; intros E.
    + assert (initial_rate == 100 * ((1 # 10000) / 10))%Q as ->
        by (rewrite E; field).
      reflexivity.
    + rewrite E. reflexivity.
  - unfold fine_tune, get_model. rewrite Hm1. cbn. rewrite Hft. reflexivity.
Qed.

(** The theorem at the default initial rate 0.001. *)
Lemma C4_fine_tune_rate_is_constant_witness :
  ∃ m2 : Model,
    fine_tune_recompile (T := TableKeras.table_types)
      (compile TableKeras.table_model
         {| c_optimizer := Adam default_learning_rate;
            c_loss := "categorical_crossentropy";
            c_metrics := training_metrics |}) 50 = Ok m2 ∧
    (c_optimizer <$> compiled m2 = Some (Adam fine_tune_learning_rate)) ∧
    ((fine_tune_learning_rate == default_learning_rate / 100)%Q
       ↔ (default_learning_rate == 1 # 1000)%Q).
Proof.
  eexists. split; [reflexivity|].
  pose proof (C4_fine_tune_rate_is_constant TableKeras.built
                (TableKeras.compiled_with default_learning_rate)
                default_learning_rate _ _ tt tt 10 50
                eq_refl eq_refl eq_refl) as (_ & H2 & _ & H4 & _).
  split; [exact H2 | exact H4].
Defined.

(** C4, as the specification states it, fails: after [compile_model(0.01)] the
    fine-tuning rate is still 1e-5, which is not 0.01/100. *)
Lemma C4_counterexample :
  ∃ (self1 : PlantDiseaseModel) (m1 m2 : Model),
    compile_model TableKeras.built (1 # 100) = Ok self1 ∧
    model self1 = Some m1 ∧
    fine_tune_recompile m1 50 = Ok m2 ∧
    c_optimizer <$> compiled m2 = Some (Adam ((1 # 10000) / 10)) ∧
    ¬ ((1 # 10000) / 10 == (1 # 100) / 100)%Q.
Proof.
  do 3 eexists.
  split; [reflexivity|]. split; [reflexivity|]. split; [reflexivity|].
  split; [reflexivity|]. intros E. vm_compute in E. discriminate.
Qed.




End DiseaseModelProps.

(* ===================================================================== *)
(** * Properties of the evaluator *)
(* ===================================================================== *)

Module EvaluationProps.
Import Np Evaluation.

(** ** Lists *)

Lemma mapM_ok {A B} (f : A → result B) (g : A → B) (l : list A) :
  (∀ x, x ∈ l → f x = Ok (g x)) → mapM f l = Ok (map g l).
Proof.
  induction l as [|x l IH]; intros Hf; [reflexivity|].
  cbn [mapM map]. rewrite Hf by left. cbn.
  rewrite IH by (intros y Hy; apply Hf; right; exact Hy). reflexivity.
Qed.

Lemma mapM_nonempty_rows {B} (f : list Q → result B) (rows : list (list Q)) :
  (∀ row, row ≠ [] → ∃ y, f row = Ok y) →
  Forall (λ row, row ≠ []) rows →
  ∃ ys, mapM f rows = Ok ys ∧ length ys = length rows.
Proof.
  intros Hf. induction 1 as [|row rows Hrow _ (ys & Hys & Hlen)].
  - exists []. split; reflexivity.
  - destruct (Hf row Hrow) as (y & Hy). exists (y :: ys).
    cbn [mapM]. rewrite Hy. cbn. rewrite Hys. cbn. split; [reflexivity|].
    cbn. rewrite Hlen. reflexivity.
Qed.

Lemma filter_map_comm {A B} (g : A → B) (h : B → bool) (l : list A) :
  List.filter h (map g l) = map g (List.filter (λ x, h (g x)) l).
Proof.
  induction l as [|x l IH]; [reflexivity|]. cbn.
  destruct (h (g x)); cbn; rewrite IH; reflexivity.
Qed.

Lemma count_true_map {A} (h : A → bool) (l : list A) :
  length (filter (λ b : bool, b = true) (map h l)) = length (List.filter h l).
Proof.
  induction l as [|x l IH]; [reflexivity|]. cbn [map List.filter].
  rewrite filter_cons. destruct (h x); cbn.
  - rewrite decide_True by reflexivity. cbn. rewrite IH. reflexivity.
  - rewrite decide_False by discriminate. exact IH.
Qed.

Lemma mask_select_map {A B} (g : B → A) (h : B → bool) (l : list B) :
  mask_select (map g l) (map h l) = Ok (map g (List.filter h l)).
Proof.
  unfold mask_select. rewrite !length_map, Nat.eqb_refl. f_equal.
  induction l as [|x l IH]; [reflexivity|]. cbn.
  destruct (h x); cbn; rewrite IH; reflexivity.
Qed.

Lemma zip_with_map {A B C D} (f : B → C → D) (g : A → B) (g' : A → C) (l : list A) :
  zip_with f (map g l) (map g' l) = map (λ x, f (g x) (g' x)) l.
Proof. induction l as [|x l IH]; [reflexivity|]. cbn. rewrite IH. reflexivity. Qed.

(** Three arrays of one length are the three columns of one table. *)
Lemma columns_of_zip {A B C} (a : list A) (b : list B) (c : list C) :
  length a = length b → length b = length c →
  a = map (λ t, t.1.1) (zip (zip a b) c) ∧
  b = map (λ t, t.1.2) (zip (zip a b) c) ∧
  c = map (λ t, t.2) (zip (zip a b) c).
Proof.
  revert b c. induction a as [|x a IH]; intros [|y b] [|z c] Hab Hbc;
    try discriminate; [repeat split|].
  cbn in Hab, Hbc. destruct (IH b c) as (Ha & Hb & Hc); [lia|lia|].
  cbn. repeat split; f_equal; assumption.
Qed.

(** ** Rationals *)

Lemma sumQ_cons (x : Q) (l : list Q) : sumQ (x :: l) = (x + sumQ l)%Q.
Proof. reflexivity. Qed.

Lemma Qnat_pos_div (k n : nat) :
  (0 < n)%nat → Qltb 0 (Qnat k / Qnat n) = true ↔ (0 < k)%nat.
Proof.
  intros Hn. rewrite NpProps.Qltb_lt.
  destruct n as [|n]; [lia|]. unfold Qnat, Qlt, Qdiv, Qmult, Qinv.
  change (Z.of_nat (S n)) with (Z.pos (Pos.of_succ_nat n)). cbn. lia.
Qed.


(** ** Calibration: the code against the specification's definitions *)

Section calibration.
Import CalibrationSpec.

(** A row of the batch seen as a table: true class, predicted class, top
    probability. *)
Local Abbreviation row_true := (λ t : Z * Z * Q, t.1.1).
Local Abbreviation row_pred := (λ t : Z * Z * Q, t.1.2).
Local Abbreviation row_prob := (λ t : Z * Z * Q, t.2).
Local Abbreviation row_sample := (λ t : Z * Z * Q, (t.2, Z.eqb t.1.1 t.1.2)).

Lemma samples_of_table (T : list (Z * Z * Q)) :
  samples_of (map row_true T) (map row_pred T) (map row_prob T) = map row_sample T.
Proof.
  unfold samples_of. rewrite zip_with_map.
  change zip with (zip_with (@pair Q bool)). rewrite zip_with_map. reflexivity.
Qed.

Lemma CalibrationSpec_samples (y_true_classes pred_classes : list Z)
    (max_probs : list Q) :
  length y_true_classes = length pred_classes →
  length pred_classes = length max_probs →
  map row_sample (zip (zip y_true_classes pred_classes) max_probs)
  = samples_of y_true_classes pred_classes max_probs.
Proof.
  intros L1 L2.
  destruct (columns_of_zip y_true_classes pred_classes max_probs L1 L2)
    as (E1 & E2 & E3).
  set (T := zip (zip y_true_classes pred_classes) max_probs) in *.
  pose proof (samples_of_table T) as HT.
  rewrite <- E1, <- E2, <- E3 in HT. symmetry. exact HT.
Qed.

Lemma mean_bool_map {A} (h : A → bool) (l : list A) :
  mean_bool (map h l) = (Qnat (length (List.filter h l)) / Qnat (length l))%Q.
Proof. unfold mean_bool. rewrite count_true_map, length_map. reflexivity. Qed.

Lemma in_bin_mask_table (T : list (Z * Z * Q)) (bin : Q * Q) :
  in_bin_mask (map row_prob T) bin.1 bin.2 =
  map (λ t, in_interval bin (row_sample t)) T.
Proof. unfold in_bin_mask. rewrite map_map. reflexivity. Qed.

(** The share of the batch the code computes for a bin is the bin's weight. *)
Lemma prop_in_bin_weight (T : list (Z * Z * Q)) (bin : Q * Q) :
  mean_bool (in_bin_mask (map row_prob T) bin.1 bin.2) =
  bin_weight (List.filter (in_interval bin) (map row_sample T)) (map row_sample T).
Proof.
  rewrite in_bin_mask_table, mean_bool_map, filter_map_comm.
  unfold bin_weight. rewrite !length_map. reflexivity.
Qed.

Lemma bin_accuracy_nonempty (members : list sample) :
  members ≠ [] →
  bin_accuracy members
  = (Qnat (length (List.filter snd members)) / Qnat (length members))%Q.
Proof. destruct members; [congruence|reflexivity]. Qed.

Lemma bin_confidence_nonempty (members : list sample) :
  members ≠ [] →
  bin_confidence members = (sumQ (map fst members) / Qnat (length members))%Q.
Proof. destruct members; [congruence|reflexivity]. Qed.

(** One pass of the first loop computes the bin's accuracy and confidence,
    and 0 for both when the bin is empty. *)
Lemma bin_stats_table (T : list (Z * Z * Q)) (bin : Q * Q) :
  T ≠ [] →
  bin_stats (map row_true T) (map row_pred T) (map row_prob T) bin =
  Ok (bin_accuracy (List.filter (in_interval bin) (map row_sample T)),
      bin_confidence (List.filter (in_interval bin) (map row_sample T))).
Proof.
  intros HT. unfold bin_stats. cbv zeta.
  rewrite in_bin_mask_table, mean_bool_map, filter_map_comm.
  set (h := λ t : Z * Z * Q, in_interval bin (row_sample t)).
  assert (0 < length T)%nat as Hlen by (destruct T; [congruence|cbn; lia]).
  destruct (List.filter h T) as [|t F] eqn:EF.
  - destruct (Qltb 0 (Qnat (length (@nil (Z * Z * Q))) / Qnat (length T))) eqn:E.
    + apply Qnat_pos_div in E; [cbn in E; lia | exact Hlen].
    + reflexivity.
  - rewrite (proj2 (Qnat_pos_div (length (t :: F)) (length T) Hlen))
      by (cbn; lia).
    rewrite !mask_select_map. fold h. rewrite EF. cbn [mbind result_bind Py.bind].
    rewrite zip_with_map, mean_bool_map.
    rewrite bin_accuracy_nonempty, bin_confidence_nonempty by discriminate.
    unfold mean. rewrite filter_map_comm, !length_map, map_map. reflexivity.
Qed.

Lemma bins_loop_table (T : list (Z * Z * Q)) (bins : list (Q * Q)) :
  T ≠ [] →
  bins_loop (map row_true T) (map row_pred T) (map row_prob T) bins =
  Ok (map (λ bin, bin_accuracy (List.filter (in_interval bin) (map row_sample T))) bins,
      map (λ bin, bin_confidence (List.filter (in_interval bin) (map row_sample T))) bins).
Proof.
  intros HT. induction bins as [|bin bins IH]; [reflexivity|].
  cbn [bins_loop]. rewrite bin_stats_table by exact HT. cbn. rewrite IH. reflexivity.
Qed.

(** The second loop adds one weighted gap per bin, reading the entries the
    first loop stored. *)
Lemma ece_loop_sum (max_probs : list Q) (fa fc : Q * Q → Q) (bins done : list (Q * Q))
    (ece : Q) :
  ∃ e,
    ece_loop max_probs (map fa (done ++ bins)) (map fc (done ++ bins))
      (length done) bins ece = Ok e ∧
    (e == ece + sumQ (map (λ bin, mean_bool (in_bin_mask max_probs bin.1 bin.2)
                                   * Qabs (fa bin - fc bin)) bins))%Q.
Proof.
  revert done ece. induction bins as [|bin bins IH]; intros done ece.
  - exists ece. split; [reflexivity|]. cbn [map sumQ foldr]. lra.
  - cbn [ece_loop]. unfold getitem.
    rewrite !list_lookup_fmap, !lookup_app_r, Nat.sub_diag by lia.
    cbn [lookup list_lookup fmap option_fmap option_map mbind result_bind Py.bind].
    destruct (IH (done ++ [bin])
                (ece + mean_bool (in_bin_mask max_probs bin.1 bin.2)
                       * Qabs (fa bin - fc bin))%Q) as (e & He & Hsum).
    rewrite <- app_assoc, length_app in He. cbn [app length] in He.
    rewrite Nat.add_1_r in He.
    exists e. split; [exact He|]. rewrite Hsum. cbn [map]. rewrite sumQ_cons. ring.
Qed.

(** The bins the code builds from [np.linspace] are the specification's
    intervals. *)
Lemma linspace_bins (n_bins : nat) :
  zip (removelast (linspace01 n_bins)) (tail (linspace01 n_bins)) =
  map (bin_interval n_bins) (seq 0 n_bins).
Proof.
  unfold linspace01.
  set (f := λ i : nat, (Qnat i / Qnat n_bins)%Q).
  assert (removelast (map f (seq 0 (S n_bins))) = map f (seq 0 n_bins)) as ->.
  { rewrite seq_S, map_app. cbn [map]. apply removelast_last. }
  assert (tail (map f (seq 0 (S n_bins))) = map (λ i, f (S i)) (seq 0 n_bins)) as ->.
  { cbn [seq map tail]. rewrite <- seq_shift, map_map. reflexivity. }
  change zip with (zip_with (@pair Q Q)). rewrite zip_with_map. reflexivity.
Qed.

(** Both loops, for a batch given as a table. *)
Lemma loops_table (T : list (Z * Z * Q)) (n_bins : nat) :
  T ≠ [] →
  let samples := map row_sample T in
  let accs := map (λ b, bin_accuracy (bin_members n_bins b samples)) (seq 0 n_bins) in
  let confs := map (λ b, bin_confidence (bin_members n_bins b samples)) (seq 0 n_bins) in
  bins_loop (map row_true T) (map row_pred T) (map row_prob T)
    (map (bin_interval n_bins) (seq 0 n_bins)) = Ok (accs, confs) ∧
  ∃ e, ece_loop (map row_prob T) accs confs 0
         (map (bin_interval n_bins) (seq 0 n_bins)) 0 = Ok e ∧
       (e == ece n_bins samples)%Q.
Proof.
  intros HT samples accs confs. split.
  - rewrite bins_loop_table by exact HT. rewrite !map_map. reflexivity.
  - destruct (ece_loop_sum (map row_prob T)
                (λ bin, bin_accuracy (List.filter (in_interval bin) samples))
                (λ bin, bin_confidence (List.filter (in_interval bin) samples))
                (map (bin_interval n_bins) (seq 0 n_bins)) [] 0%Q)
      as (e & He & Hsum).
    cbn [app length] in He. rewrite !map_map in He.
    exists e. split; [exact He|]. rewrite Hsum, map_map, Qplus_0_l.
    unfold ece. erewrite map_ext; [reflexivity|].
    intros b. cbv beta. rewrite prop_in_bin_weight. reflexivity.
Qed.

End calibration.

Lemma amax_rows_ok (rows : list (list Q)) :
  Forall (λ row, row ≠ []) rows →
  ∃ ys, amax_rows rows = Ok ys ∧ length ys = length rows.
Proof.
  apply mapM_nonempty_rows. intros [|x row] Hrow; [congruence|].
  eexists. reflexivity.
Qed.

Lemma argmax_rows_ok (rows : list (list Q)) :
  Forall (λ row, row ≠ []) rows →
  ∃ ys, argmax_rows rows = Ok ys ∧ length ys = length rows.
Proof.
  apply mapM_nonempty_rows. intros [|x row] Hrow; [congruence|].
  eexists. reflexivity.
Qed.



(** C9. Whenever the confusion matrix of the label sequences is
    [[8, 2], [1, 9]], the entry of ["healthy"] (first of the two classes) has
    precision 8/9 (0.889 to three decimals), recall 8/10 and F1 16/19 (0.842
    to three decimals). *)
Theorem C9_healthy_metrics (y_true y_pred : label_array)
    (y_true_classes y_pred_classes : list Z) :
  class_indices y_true = Ok y_true_classes →
  class_indices y_pred = Ok y_pred_classes →
  confusion_matrix y_true_classes y_pred_classes = Ok [[8; 2]; [1; 9]]%Z →
  ∃ (per_class : gmap string class_metrics) (healthy : class_metrics),
    calculate_per_class_metrics (init ["healthy"; "diseased"]) y_true y_pred
      = Ok per_class ∧
    per_class !! "healthy" = Some healthy ∧
    (precision healthy == 8 # 9)%Q ∧
    (recall healthy == 8 # 10)%Q ∧
    (f1_score healthy == 16 # 19)%Q ∧
    (Qabs (precision healthy - (889 # 1000)) < 5 # 10000)%Q ∧
    (Qabs (f1_score healthy - (842 # 1000)) < 5 # 10000)%Q.
Proof.
  intros Ht Hp Hcm.
  unfold calculate_per_class_metrics. rewrite Ht, Hp. cbn [mbind result_bind Py.bind].
  rewrite Hcm. cbn [mbind result_bind Py.bind init class_names].
  cbn [per_class_loop].
  destruct (metrics_of_class [[8; 2]; [1; 9]]%Z 0) as [healthy|e] eqn:E0;
    [|vm_compute in E0; discriminate].
  destruct (metrics_of_class [[8; 2]; [1; 9]]%Z 1) as [diseased|e] eqn:E1;
    [|vm_compute in E1; discriminate].
  cbn [mbind result_bind Py.bind].
  eexists _, healthy. split; [reflexivity|]. split.
  { rewrite lookup_insert_ne by discriminate. apply lookup_insert_eq. }
  vm_compute in E0. injection E0 as <-. cbn [precision recall f1_score].
  repeat split; reflexivity.
Qed.

(** The theorem at twenty samples with that confusion matrix. *)
Lemma C9_healthy_metrics_witness :
  ∃ (per_class : gmap string class_metrics) (healthy : class_metrics),
    calculate_per_class_metrics (init ["healthy"; "diseased"])
      (Indices MetricsDemo.twenty_true) (Indices MetricsDemo.twenty_pred)
      = Ok per_class ∧
    per_class !! "healthy" = Some healthy ∧
    (precision healthy == 8 # 9)%Q ∧
    (recall healthy == 8 # 10)%Q ∧
    (f1_score healthy == 16 # 19)%Q ∧
    (Qabs (precision healthy - (889 # 1000)) < 5 # 10000)%Q ∧
    (Qabs (f1_score healthy - (842 # 1000)) < 5 # 10000)%Q.
Proof.
  apply (C9_healthy_metrics (Indices MetricsDemo.twenty_true)
           (Indices MetricsDemo.twenty_pred)
           MetricsDemo.twenty_true MetricsDemo.twenty_pred).
  - reflexivity.
  - reflexivity.
  - vm_compute. reflexivity.
Defined.

Lemma column_in_range {A} (rows : list (list A)) (n i : nat) :
  Forall (λ row, length row = n) rows → (i < n)%nat →
  ∃ col, column rows i = Ok col.
Proof.
  intros Hrows Hi. unfold column.
  induction Hrows as [|r rs Hr _ [col IH]]; [exists []; reflexivity|].
  destruct (lookup_lt_is_Some_2 r i ltac:(lia)) as [x Hx].
  exists (x :: col). cbn [mapM]. unfold getitem at 1. rewrite Hx.
  cbn [Py.bind]. rewrite IH. reflexivity.
Qed.

(** Where the confusion matrix does have a row and a column for class [i],
    the loop body returns, and each ratio whose denominator is not positive
    is 0. *)
Lemma metrics_of_class_in_range (cm : matrix) (i : nat) :
  Forall (λ row, length row = length cm) cm →
  (i < length cm)%nat →
  ∃ (m : class_metrics) (tp : Z) (col row : list Z),
    metrics_of_class cm i = Ok m ∧
    getitem2 cm i i = Ok tp ∧ column cm i = Ok col ∧ getitem cm i = Ok row ∧
    support m = sumZ row ∧
    ((sumZ col ≤ 0)%Z → precision m = 0%Q) ∧
    ((sumZ row ≤ 0)%Z → recall m = 0%Q) ∧
    ((precision m + recall m <= 0)%Q → f1_score m = 0%Q) ∧
    ((matrix_sum cm - sumZ row ≤ 0)%Z → specificity m = 0%Q).
Proof.
  intros Hsq Hi.
  destruct (lookup_lt_is_Some_2 cm i Hi) as [row Hrow].
  assert (length row = length cm) as Hlen.
  { rewrite Forall_forall in Hsq. apply Hsq. eapply list_elem_of_lookup_2, Hrow. }
  destruct (lookup_lt_is_Some_2 row i ltac:(lia)) as [tp Htp].
  destruct (column_in_range cm (length cm) i Hsq Hi) as [col Hcol].
  assert (getitem cm i = Ok row) as Hgrow by (unfold getitem; rewrite Hrow; reflexivity).
  assert (getitem2 cm i i = Ok tp) as Hgtp.
  { unfold getitem2. rewrite Hgrow. cbn. unfold getitem. rewrite Htp. reflexivity. }
  eexists _, tp, col, row. split.
  { unfold metrics_of_class. rewrite Hgtp. cbn [mbind result_bind Py.bind].
    rewrite Hcol. cbn [mbind result_bind Py.bind]. rewrite Hgrow.
    cbn [mbind result_bind Py.bind]. reflexivity. }
  cbn [precision recall f1_score specificity support].
  repeat split; try assumption.
  - intros H0. destruct (Z.ltb_spec 0 (tp + (sumZ col - tp))); [lia|reflexivity].
  - intros H0. destruct (Z.ltb_spec 0 (tp + (sumZ row - tp))); [lia|reflexivity].
  - intros H0. match goal with |- (if Qltb 0 ?s then _ else _) = _ =>
      destruct (Qltb 0 s) eqn:E; [|reflexivity] end.
    apply NpProps.Qltb_lt in E. exfalso. eapply Qlt_not_le; eassumption.
  - intros H0. match goal with |- (if (0 <? ?d)%Z then _ else _) = _ =>
      destruct (Z.ltb_spec 0 d); [lia|reflexivity] end.
Qed.

(** The loop reads row and column [i] for every class name: it returns only
    if the confusion matrix has at least as many rows as there are names. *)
Lemma metrics_of_class_ok_lt (cm : matrix) (i : nat) (m : class_metrics) :
  metrics_of_class cm i = Ok m → (i < length cm)%nat.
Proof.
  unfold metrics_of_class, getitem2, getitem, mbind, result_bind. intros Hm.
  destruct (cm !! i) as [row|] eqn:Hrow; [|cbn [Py.bind] in Hm; discriminate].
  eapply lookup_lt_Some, Hrow.
Qed.

Lemma per_class_loop_ok_length (cm : matrix) (names : list string) (i : nat)
    (acc r : gmap string class_metrics) :
  per_class_loop cm i names acc = Ok r → (length names ≤ length cm - i)%nat.
Proof.
  revert i acc. induction names as [|name names IH]; intros i acc Hr.
  - cbn. lia.
  - cbn [per_class_loop] in Hr. unfold mbind, result_bind in Hr.
    destruct (metrics_of_class cm i) as [m|e] eqn:Hm; cbn [Py.bind] in Hr;
      [|discriminate].
    apply metrics_of_class_ok_lt in Hm. apply IH in Hr. cbn [length]. lia.
Qed.

(** [calculate_per_class_metrics] returns only when at least as many distinct
    labels occur in the two sequences as the evaluator has class names. *)
Lemma per_class_metrics_ok_needs_labels (self : ModelEvaluator)
    (y_true y_pred : label_array) (y_true_classes y_pred_classes : list Z)
    (r : gmap string class_metrics) :
  class_indices y_true = Ok y_true_classes →
  class_indices y_pred = Ok y_pred_classes →
  calculate_per_class_metrics self y_true y_pred = Ok r →
  (length (class_names self)
     ≤ length (unique_labels y_true_classes y_pred_classes))%nat.
Proof.
  intros Ht Hp. unfold calculate_per_class_metrics. rewrite Ht, Hp.
  cbn [mbind result_bind Py.bind]. unfold confusion_matrix.
  destruct (length y_true_classes =? length y_pred_classes)%nat; [|discriminate].
  cbn [mbind result_bind Py.bind]. intros Hr.
  apply per_class_loop_ok_length in Hr. rewrite length_map in Hr. lia.
Qed.

(** C3 at an input where it fails: three classes of which the third occurs
    neither among the true nor among the predicted labels.  The confusion
    matrix has two rows, and reading [cm[2, 2]] raises. *)
Theorem C3_absent_class_raises :
  class_indices (Indices [0; 1]%Z) = Ok [0; 1]%Z ∧
  confusion_matrix [0; 1]%Z [0; 1]%Z = Ok [[1; 0]; [0; 1]]%Z ∧
  metrics_of_class [[1; 0]; [0; 1]]%Z 2 = Raise IndexError ∧
  calculate_per_class_metrics (init ["healthy"; "rust"; "blight"])
    (Indices [0; 1]%Z) (Indices [0; 1]%Z) = Raise IndexError.
Proof. vm_compute. repeat split; reflexivity. Qed.

(** C6 where it fails: with index-encoded true labels, [calculate_roc_curves]
    raises on its first line, whatever scikit-learn returns, so
    [evaluate_predictions] with probabilities never returns a report. *)
Theorem C6_index_encoded_true_labels_raise {S : Sklearn} (self : ModelEvaluator)
    (y_true : list Z) (y_pred : label_array) (y_pred_proba : list (list Q)) :
  class_indices (Indices y_true) = Ok y_true ∧
  calculate_roc_curves self (Indices y_true) y_pred_proba = Raise AxisError ∧
  ∀ report, evaluate_predictions self (Indices y_true) y_pred (Some y_pred_proba)
            ≠ Ok report.
Proof.
  split; [reflexivity|]. split; [reflexivity|].
  intros report. unfold evaluate_predictions.
  cbn [class_indices ndim Nat.ltb Nat.leb mbind result_bind Py.bind].
  unfold mbind, result_bind.
  destruct (class_indices y_pred) as [yp|]; cbn [Py.bind]; [|discriminate].
  destruct (accuracy_score y_true yp); cbn [Py.bind]; [|discriminate].
  destruct (precision_score_weighted y_true yp); cbn [Py.bind]; [|discriminate].
  destruct (recall_score_weighted y_true yp); cbn [Py.bind]; [|discriminate].
  destruct (f1_score_weighted y_true yp); cbn [Py.bind]; [|discriminate].
  destruct (classification_report y_true yp _); cbn [Py.bind]; [|discriminate].
  destruct (confusion_matrix y_true yp); cbn [Py.bind]; [|discriminate].
  discriminate.
Qed.

(** The same evaluator and labels, run against the constant scores: without
    probabilities index-encoded labels are accepted; with probabilities the
    one-hot encoding is accepted and the index encoding raises. *)
Example evaluate_index_encoded_without_probabilities :
  is_ok (evaluate_predictions (S := ConstSklearn.const_sklearn) ConstSklearn.two_classes
           (Indices [0; 1]%Z) (Indices [0; 1]%Z) None) = true.
Proof. vm_compute. reflexivity. Qed.

Example evaluate_one_hot_with_probabilities :
  is_ok (evaluate_predictions (S := ConstSklearn.const_sklearn) ConstSklearn.two_classes
           (Categorical [[1; 0]; [0; 1]]%Q) (Indices [0; 1]%Z)
           (Some ConstSklearn.two_proba)) = true.
Proof. vm_compute. reflexivity. Qed.

Example evaluate_index_encoded_with_probabilities :
  evaluate_predictions (S := ConstSklearn.const_sklearn) ConstSklearn.two_classes
    (Indices [0; 1]%Z) (Indices [0; 1]%Z) (Some ConstSklearn.two_proba)
  = Raise AxisError.
Proof. vm_compute. reflexivity. Qed.

End EvaluationProps.

(* ===================================================================== *)
(** * Properties of fine-tuning: which layers end up trainable *)
(* ===================================================================== *)

Module FineTuneProps.
Import Np DiseaseModel.

Lemma layer_trainable_set (b : bool) (l : layer) :
  layer_trainable (set_trainable b l) = b.
Proof. destruct l. reflexivity. Qed.

Lemma freeze_until_length (ls : list layer) (stop : Z) :
  length (freeze_until ls stop) = length ls.
Proof.
  unfold freeze_until. rewrite length_app, length_map, length_take, length_drop. lia.
Qed.

(** Flags after the freezing loop: the first [slice_stop] layers are frozen,
    the others keep their flag. *)
Lemma freeze_until_lookup (ls : list layer) (stop : Z) (i : nat) (l : layer) :
  ls !! i = Some l →
  freeze_until ls stop !! i =
    Some (if decide (i < slice_stop (length ls) stop)%nat
          then set_trainable false l else l).
Proof.
  intros Hl. unfold freeze_until.
  pose proof (lookup_lt_Some _ _ _ Hl) as Hi.
  destruct (decide (i < slice_stop (length ls) stop)%nat) as [Hlt|Hge].
  - rewrite lookup_app_l by (rewrite length_map, length_take; lia).
    rewrite list_lookup_fmap, lookup_take_lt by exact Hlt. rewrite Hl. reflexivity.
  - rewrite lookup_app_r by (rewrite length_map, length_take; lia).
    rewrite length_map, length_take, lookup_drop.
    replace (slice_stop (length ls) stop + (i - slice_stop (length ls) stop `min` length ls))%nat
      with i by lia.
    exact Hl.
Qed.

(** What [fine_tune_recompile] does to a model whose first layer is itself
    a model with sublayers [ls]: it returns, the first layer and every
    sublayer from index [frozen] on are trainable, the sublayers before
    [frozen] are not, and the other layers and the weights are untouched. *)
Lemma fine_tune_recompile_flags {T : KerasTypes} (m : Model) (unfreeze_layers : Z)
    (base : layer) (ls : list layer) :
  layers m !! 0%nat = Some base →
  get_layers base = Ok ls →
  ∃ (m2 : Model) (base' : layer) (ls' : list layer),
    fine_tune_recompile m unfreeze_layers = Ok m2 ∧
    layers m2 !! 0%nat = Some base' ∧
    layer_trainable base' = true ∧
    get_layers base' = Ok ls' ∧
    length ls' = length ls ∧
    (∀ i l', ls' !! i = Some l' →
       layer_trainable l'
       = bool_decide (slice_stop (length ls) (- unfreeze_layers) ≤ i)%nat) ∧
    (∀ i, layers m2 !! S i = layers m !! S i) ∧
    weights m2 = weights m.
Proof.
  intros Hbase Hls.
  destruct base as [n t [sub|]]; cbn in Hls; [|discriminate].
  injection Hls as ->.
  unfold fine_tune_recompile, getitem. rewrite Hbase.
  cbn [mbind result_bind Py.bind set_trainable option_map get_layers with_layers].
  eexists _, _, _. split; [reflexivity|].
  cbn [layers weights compile].
  split. { apply list_lookup_insert_eq. eapply lookup_lt_Some, Hbase. }
  split; [reflexivity|]. split; [reflexivity|].
  split. { rewrite freeze_until_length, length_map. reflexivity. }
  split; [|split; [|reflexivity]].
  - intros i l' Hl'.
    pose proof (lookup_lt_Some _ _ _ Hl') as Hi.
    rewrite freeze_until_length, length_map in Hi.
    destruct (lookup_lt_is_Some_2 ls i Hi) as [l Hl].
    rewrite (freeze_until_lookup _ _ i (set_trainable true l)) in Hl'
      by (rewrite list_lookup_fmap, Hl; reflexivity).
    rewrite length_map in Hl'. injection Hl' as <-.
    destruct (decide (i < slice_stop (length ls) (- unfreeze_layers))%nat).
    + rewrite layer_trainable_set, bool_decide_eq_false_2 by lia. reflexivity.
    + rewrite layer_trainable_set, bool_decide_eq_true_2 by lia. reflexivity.
  - intros i. apply list_lookup_insert_ne. lia.
Qed.

(** X1. [fine_tune] with a positive [unfreeze_layers]: exactly the last
    [unfreeze_layers] sublayers of the first layer end up trainable (all of
    them when there are no more than that). *)
Theorem fine_tune_unfreezes_last_layers {T : KerasTypes} (m : Model)
    (unfreeze_layers : Z) (base : layer) (ls : list layer) :
  layers m !! 0%nat = Some base →
  get_layers base = Ok ls →
  (0 < unfreeze_layers)%Z →
  ∃ (m2 : Model) (base' : layer) (ls' : list layer),
    fine_tune_recompile m unfreeze_layers = Ok m2 ∧
    layers m2 !! 0%nat = Some base' ∧
    get_layers base' = Ok ls' ∧
    length ls' = length ls ∧
    ∀ i l', ls' !! i = Some l' →
      (layer_trainable l' = true
       ↔ (Z.of_nat (length ls) - unfreeze_layers ≤ Z.of_nat i)%Z).
Proof.
  intros Hbase Hls Hu.
  destruct (fine_tune_recompile_flags m unfreeze_layers base ls Hbase Hls)
    as (m2 & base' & ls' & Hrun & H0 & _ & Hget & Hlen & Hflags & _).
  exists m2, base', ls'. repeat (split; [assumption|]).
  intros i l' Hl'. rewrite (Hflags i l' Hl'), bool_decide_eq_true.
  unfold slice_stop. destruct (Z.ltb_spec (- unfreeze_layers) 0); lia.
Qed.

(** The theorem at the three-sublayer backbone and [unfreeze_layers = 2]. *)
Lemma fine_tune_unfreezes_last_layers_witness :
  ∃ (m2 : Model) (base' : layer) (ls' : list layer),
    fine_tune_recompile TableKeras.table_model 2 = Ok m2 ∧
    layers m2 !! 0%nat = Some base' ∧
    get_layers base' = Ok ls' ∧
    length ls' = 3%nat ∧
    ∀ i l', ls' !! i = Some l' →
      (layer_trainable l' = true ↔ (Z.of_nat 3 - 2 ≤ Z.of_nat i)%Z).
Proof.
  apply (fine_tune_unfreezes_last_layers TableKeras.table_model 2
           TableKeras.backbone
           [Layer "stem_conv" false None;
            Layer "block7a_project_conv" false None;
            Layer "top_conv" false None]).
  - reflexivity.
  - reflexivity.
  - lia.
Defined.

(** X2. [fine_tune] with [unfreeze_layers = 0]: the slice [layers[:-0]] is empty,
    nothing is frozen again, and every sublayer of the first layer ends up
    trainable. *)
Theorem fine_tune_unfreeze_zero_unfreezes_all {T : KerasTypes} (m : Model)
    (base : layer) (ls : list layer) :
  layers m !! 0%nat = Some base →
  get_layers base = Ok ls →
  ∃ (m2 : Model) (base' : layer) (ls' : list layer),
    fine_tune_recompile m 0 = Ok m2 ∧
    layers m2 !! 0%nat = Some base' ∧
    get_layers base' = Ok ls' ∧
    length ls' = length ls ∧
    ∀ i l', ls' !! i = Some l' → layer_trainable l' = true.
Proof.
  intros Hbase Hls.
  destruct (fine_tune_recompile_flags m 0 base ls Hbase Hls)
    as (m2 & base' & ls' & Hrun & H0 & _ & Hget & Hlen & Hflags & _).
  exists m2, base', ls'. repeat (split; [assumption|]).
  intros i l' Hl'. rewrite (Hflags i l' Hl'), bool_decide_eq_true.
  unfold slice_stop. destruct (Z.ltb_spec (- 0) 0); lia.
Qed.

(** The theorem at the three-sublayer backbone. *)
Lemma fine_tune_unfreeze_zero_unfreezes_all_witness :
  ∃ (m2 : Model) (base' : layer) (ls' : list layer),
    fine_tune_recompile TableKeras.table_model 0 = Ok m2 ∧
    layers m2 !! 0%nat = Some base' ∧
    get_layers base' = Ok ls' ∧
    length ls' = 3%nat ∧
    ∀ i l', ls' !! i = Some l' → layer_trainable l' = true.
Proof.
  apply (fine_tune_unfreeze_zero_unfreezes_all TableKeras.table_model
           TableKeras.backbone
           [Layer "stem_conv" false None;
            Layer "block7a_project_conv" false None;
            Layer "top_conv" false None]).
  - reflexivity.
  - reflexivity.
Defined.

End FineTuneProps.

(* ===================================================================== *)
(** * Properties of the model life cycle: prediction, training history, saving *)
(* ===================================================================== *)

Module ModelLifecycleProps.
Import Np DiseaseModel DiseaseModelIO NpProps TableKeras ListFs.

(** ** predict_disease with too few class names *)

(** The first maximum of a row is what [np.argmax] returns. *)
Lemma argmax_is_first_max (l : list Q) (i : nat) (v : Q) :
  l !! i = Some v →
  (∀ j p, l !! j = Some p → (p <= v)%Q) →
  (∀ j p, (j < i)%nat → l !! j = Some p → (p < v)%Q) →
  argmax l = Ok i.
Proof.
  intros Hi Hmax Hfirst.
  assert (l ≠ []) as Hne by (intros ->; discriminate).
  destruct (argmax_first_max l Hne) as (i' & v' & -> & Hi' & Hmax' & Hfirst').
  f_equal.
  destruct (Nat.lt_trichotomy i' i) as [Hlt|[->|Hgt]]; [|reflexivity|].
  - pose proof (Hfirst _ _ Hlt Hi') as H1. pose proof (Hmax' _ _ Hi) as H2.
    exfalso. apply (Qlt_irrefl v). eapply Qle_lt_trans; eassumption.
  - pose proof (Hfirst' _ _ Hgt Hi) as H1. pose proof (Hmax _ _ Hi') as H2.
    exfalso. apply (Qlt_irrefl v'). eapply Qle_lt_trans; eassumption.
Qed.

(** X4. When the first maximum of the probability row sits at an index the list
    of class names does not reach, [predict_disease] raises [IndexError]
    instead of returning a prediction. *)
Theorem predict_disease_short_class_list {T : KerasTypes} {K : Keras}
    (self : PlantDiseaseModel) (m : Model) (image_array : array)
    (class_names : list string) (probs : list Q) (others : list (list Q))
    (idx : nat) (confidence : Q) :
  model self = Some m →
  model_predict m image_array = Ok (probs :: others) →
  probs !! idx = Some confidence →
  (∀ j p, probs !! j = Some p → (p <= confidence)%Q) →
  (∀ j p, (j < idx)%nat → probs !! j = Some p → (p < confidence)%Q) →
  (length class_names ≤ idx)%nat →
  predict_disease self image_array class_names = Raise IndexError.
Proof.
  intros Hm Hrun Hidx Hmax Hfirst Hshort.
  unfold predict_disease, get_model. rewrite Hm. cbn. rewrite Hrun. cbn.
  rewrite (argmax_is_first_max probs idx confidence Hidx Hmax Hfirst). cbn.
  unfold getitem. rewrite Hidx. cbn.
  rewrite (lookup_ge_None_2 class_names idx Hshort). reflexivity.
Qed.

Lemma predict_disease_short_class_list_witness :
  predict_disease TableKeras.built TableKeras.one_pixel ["Apple___healthy"]
    = Raise IndexError.
Proof.
  apply (predict_disease_short_class_list TableKeras.built TableKeras.table_model
           TableKeras.one_pixel ["Apple___healthy"] [1 # 5; 2 # 5; 2 # 5] []
           1 (2 # 5)).
  - reflexivity.
  - reflexivity.
  - reflexivity.
  - intros [|[|[|j]]] p; cbn; intros [= <-]; vm_compute; discriminate.
  - intros [|j] p Hj; [|lia]. cbn. intros [= <-]. reflexivity.
  - cbn. lia.
Defined.

(** ** The two training phases and [self.history] *)



(** ** os.path.dirname *)

Lemma rfind_sep_succ_zero (p : path) :
  rfind_sep_succ p = 0%nat ↔ sep ∉ p.
Proof.
  induction p as [|c t IH]; cbn [rfind_sep_succ].
  - split; [intros _; apply not_elem_of_nil | reflexivity].
  - rewrite not_elem_of_cons, <- IH.
    destruct (rfind_sep_succ t) as [|n].
    + destruct (Ascii.eqb_spec c sep) as [->|Hne].
      * split; [discriminate | intros [H _]; congruence].
      * split; [intros _; split; [congruence|reflexivity] | reflexivity].
    + split; [discriminate | intros [_ H]; discriminate].
Qed.

Lemma rfind_sep_succ_le (p : path) : (rfind_sep_succ p ≤ length p)%nat.
Proof.
  induction p as [|c t IH]; cbn [rfind_sep_succ length]; [lia|].
  destruct (rfind_sep_succ t); [destruct (Ascii.eqb c sep)|]; lia.
Qed.

(** [dirname p] is empty exactly when [p] has no separator. *)
Lemma dirname_empty (p : path) : dirname p = [] ↔ sep ∉ p.
Proof.
  rewrite <- rfind_sep_succ_zero. unfold dirname. cbv zeta. split.
  - intros H. destruct (rfind_sep_succ p) as [|n] eqn:E; [reflexivity|]. exfalso.
    destruct (take (S n) p) as [|c t] eqn:Et.
    + pose proof (rfind_sep_succ_le p) as Hle.
      rewrite E in Hle. apply (f_equal length) in Et. rewrite length_take in Et. cbn [length] in Et. lia.
    + rewrite bool_decide_eq_false_2 in H by discriminate. cbn [negb andb] in H.
      destruct (bool_decide (c :: t = replicate (length (c :: t)) sep)) eqn:Eb;
        cbn [negb] in H; [discriminate|].
      apply bool_decide_eq_false in Eb. apply Eb. clear Eb.
      unfold rstrip_sep in H. apply (f_equal reverse) in H.
      rewrite reverse_involutive in H. change (reverse []) with (@nil ascii) in H.
      assert (∀ q, lstrip_sep q = [] → q = replicate (length q) sep) as Hall.
      { clear. induction q as [|d q IH]; [reflexivity|]. cbn [lstrip_sep].
        destruct (Ascii.eqb_spec d sep) as [->|]; [|discriminate].
        intros Hq. cbn. f_equal. apply IH, Hq. }
      apply Hall in H. apply (f_equal reverse) in H.
      rewrite reverse_involutive, length_reverse, reverse_replicate in H.
      exact H.
  - intros ->. reflexivity.
Qed.

(** ** save_model and convert_to_tflite *)

Section with_os.
Context {T : KerasTypes} {O : Os} {KIO : KerasIO} {HO : OsSpec O}.

(** X5. [save_model] with a file name that has no directory part raises
    [FileNotFoundError] from [os.makedirs('')] before the model is touched:
    nothing is saved, whether or not a model has been built. *)
Theorem save_model_bare_file_name (self : PlantDiseaseModel) (fs : FileSystem)
    (filepath : path) :
  sep ∉ filepath →
  save_model self fs filepath = Raise FileNotFoundError.
Proof.
  intros Hsep. unfold save_model.
  rewrite (proj2 (dirname_empty filepath) Hsep), makedirs_empty. reflexivity.
Qed.

(** X6. [convert_to_tflite] with an output name that has no directory part
    raises [FileNotFoundError] after a successful conversion: the converted
    model is not written. *)
Theorem convert_to_tflite_bare_file_name (self : PlantDiseaseModel)
    (fs : FileSystem) (model_path output_path : path) (tflite_model : list byte) :
  tflite_convert (model self) = Ok tflite_model →
  sep ∉ output_path →
  convert_to_tflite self fs model_path output_path = Raise FileNotFoundError.
Proof.
  intros Hconv Hsep. unfold convert_to_tflite. rewrite Hconv. cbn.
  rewrite (proj2 (dirname_empty output_path) Hsep), makedirs_empty. reflexivity.
Qed.

End with_os.

Lemma list_os_spec : OsSpec ListFs.list_os.
Proof. constructor. intros fs exist_ok. reflexivity. Qed.

Lemma save_model_bare_file_name_witness :
  (sep ∉ String.list_ascii_of_string "plant_disease_model.h5") ∧
  save_model TableKeras.built ListFs.empty_fs
    (String.list_ascii_of_string "plant_disease_model.h5") = Raise FileNotFoundError.
Proof.
  assert (sep ∉ String.list_ascii_of_string "plant_disease_model.h5") as H
    by (apply rfind_sep_succ_zero; reflexivity).
  split; [exact H|].
  exact (save_model_bare_file_name (HO := list_os_spec) TableKeras.built
           ListFs.empty_fs (String.list_ascii_of_string "plant_disease_model.h5") H).
Defined.

Lemma convert_to_tflite_bare_file_name_witness :
  convert_to_tflite TableKeras.built ListFs.empty_fs
    (String.list_ascii_of_string "models/plant_disease_model.h5")
    (String.list_ascii_of_string "plant_disease_model.tflite") = Raise FileNotFoundError.
Proof.
  apply (convert_to_tflite_bare_file_name (HO := list_os_spec) TableKeras.built
           ListFs.empty_fs (String.list_ascii_of_string "models/plant_disease_model.h5")
           (String.list_ascii_of_string "plant_disease_model.tflite") []).
  - reflexivity.
  - apply rfind_sep_succ_zero. reflexivity.
Defined.

End ModelLifecycleProps.

(* ===================================================================== *)
(** * Properties of crop_leaf_region *)
(* ===================================================================== *)

Module CroppingProps.
Import Np Preprocessing Cropping.

Lemma length_chunks {A} (n count : nat) (l : list A) :
  length (chunks n count l) = count.
Proof.
  revert l. induction count as [|count IH]; intros l; [reflexivity|].
  cbn [chunks length]. rewrite IH. reflexivity.
Qed.

Lemma slice_index_in_range (len : nat) (i : Z) :
  (0 ≤ i ≤ Z.of_nat len)%Z → slice_index len i = Z.to_nat i.
Proof.
  intros Hi. unfold slice_index.
  destruct (Z.ltb_spec i 0); [lia|]. rewrite Z.min_l by lia. reflexivity.
Qed.

Lemma slice_index_le (len : nat) (i : Z) : (slice_index len i ≤ len)%nat.
Proof. unfold slice_index. destruct (Z.ltb_spec i 0); lia. Qed.

Lemma length_slice {A} (l : list A) (start stop : Z) :
  length (slice l start stop)
  = (slice_index (length l) stop - slice_index (length l) start)%nat.
Proof.
  unfold slice. rewrite length_take, length_drop.
  pose proof (slice_index_le (length l) stop). lia.
Qed.

(** The shape of [a[y0:y1, x0:x1]] when both ranges lie inside the array. *)
Lemma array_slice_shape (a : array) (height width : nat) (rest : list nat)
    (y0 y1 x0 x1 : Z) :
  array_shape a = height :: width :: rest →
  (0 ≤ y0 ≤ y1)%Z → (y1 ≤ Z.of_nat height)%Z →
  (0 ≤ x0 ≤ x1)%Z → (x1 ≤ Z.of_nat width)%Z →
  ∃ cropped, array_slice a y0 y1 x0 x1 = Ok cropped ∧
    array_shape cropped = Z.to_nat (y1 - y0) :: Z.to_nat (x1 - x0) :: rest.
Proof.
  intros Hshape Hy Hy1 Hx Hx1.
  assert (∀ A (b : ndarray A), shape b = height :: width :: rest →
            ∃ c, slice_rows_cols b y0 y1 x0 x1 = Ok c ∧
                 shape c = Z.to_nat (y1 - y0) :: Z.to_nat (x1 - x0) :: rest) as Hb.
  { intros A b Hb. unfold slice_rows_cols. rewrite Hb.
    eexists. split; [reflexivity|]. cbn [shape].
    rewrite length_slice, length_chunks.
    rewrite !slice_index_in_range by lia.
    f_equal; [lia|]. f_equal. lia. }
  destruct a as [b|b]; cbn [array_shape] in Hshape;
    destruct (Hb _ b Hshape) as (c & Hc & Hs); cbn [array_slice];
    rewrite Hc; eexists; (split; [reflexivity|exact Hs]).
Qed.

Section with_cv2.
Context {P : PIL} {C : Cv2}.

(** X7. When OpenCV reports a largest contour whose bounding rectangle lies
    inside the image and both margins are non-negative, [crop_leaf_region]
    crops to a box that stays inside the image and contains that rectangle,
    and hands an array of the box's height and width to [Image.fromarray]. *)
Theorem crop_leaf_region_box (image : image_like) (margin : f64)
    (gray blurred edges : array) (first : Contour) (rest : list Contour)
    (x y w h margin_x margin_y : Z) (height width : nat) (channels : list nat) :
  let img_array := match image with
                   | PILImage im => np_array im
                   | NpArray a => a
                   end in
  cvtColor_RGB2GRAY img_array = Ok gray →
  GaussianBlur gray (5, 5)%nat 0 = Ok blurred →
  Canny blurred 50 150 = Ok edges →
  findContours edges = Ok (first :: rest) →
  boundingRect (max_by contourArea first rest) = (x, y, w, h) →
  array_shape img_array = height :: width :: channels →
  (0 ≤ x)%Z → (0 ≤ y)%Z → (0 ≤ w)%Z → (0 ≤ h)%Z →
  (x + w ≤ Z.of_nat width)%Z → (y + h ≤ Z.of_nat height)%Z →
  int_of_f64 (f64_mul (f64_of_Z w) margin) = Ok margin_x →
  int_of_f64 (f64_mul (f64_of_Z h) margin) = Ok margin_y →
  (0 ≤ margin_x)%Z → (0 ≤ margin_y)%Z →
  ∃ (cropped : array) (x' y' w' h' : Z),
    crop_box (Z.of_nat height) (Z.of_nat width) (x, y, w, h) margin_x margin_y
      = (x', y', w', h') ∧
    array_slice img_array y' (y' + h') x' (x' + w') = Ok cropped ∧
    crop_leaf_region image margin = PILImage <$> fromarray cropped ∧
    array_shape cropped = Z.to_nat h' :: Z.to_nat w' :: channels ∧
    (0 ≤ x' ≤ x)%Z ∧ (x + w ≤ x' + w' ≤ Z.of_nat width)%Z ∧
    (0 ≤ y' ≤ y)%Z ∧ (y + h ≤ y' + h' ≤ Z.of_nat height)%Z.
Proof.
  intros img_array Hgray Hblur Hcanny Hcont Hrect Hshape Hx Hy Hw Hh Hxw Hyh
    Hmx Hmy Hmx0 Hmy0.
  set (x' := Z.max 0 (x - margin_x)).
  set (y' := Z.max 0 (y - margin_y)).
  set (w' := Z.min (Z.of_nat width - x') (w + 2 * margin_x)).
  set (h' := Z.min (Z.of_nat height - y') (h + 2 * margin_y)).
  assert ((0 ≤ x' ≤ x)%Z ∧ (x + w ≤ x' + w' ≤ Z.of_nat width)%Z ∧
          (0 ≤ y' ≤ y)%Z ∧ (y + h ≤ y' + h' ≤ Z.of_nat height)%Z) as Hbox
    by (unfold x', y', w', h'; lia).
  destruct (array_slice_shape img_array height width channels
              y' (y' + h') x' (x' + w') Hshape) as (cropped & Hcrop & Hcs);
    [lia..|].
  exists cropped, x', y', w', h'.
  split; [reflexivity|]. split; [exact Hcrop|]. split.
  - unfold crop_leaf_region. fold img_array.
    rewrite Hgray. cbn [mbind result_bind Py.bind].
    rewrite Hblur. cbn [mbind result_bind Py.bind].
    rewrite Hcanny. cbn [mbind result_bind Py.bind].
    rewrite Hcont. cbn [mbind result_bind Py.bind].
    rewrite Hrect, Hmx. cbn [mbind result_bind Py.bind].
    rewrite Hmy. cbn [mbind result_bind Py.bind].
    rewrite Hshape. cbn [getitem lookup list_lookup mbind result_bind Py.bind].
    unfold crop_box. fold x' y' w' h'. rewrite Hcrop. reflexivity.
  - split; [|exact Hbox]. rewrite Hcs. f_equal; [f_equal; lia|]. f_equal. f_equal. lia.
Qed.

End with_cv2.

Lemma crop_leaf_region_box_witness :
  ∃ cropped : array,
    crop_leaf_region (C := RectCv2.rect_cv2) RectCv2.leaf_photo f64_tenth
      = PILImage <$> fromarray cropped ∧
    array_shape cropped = [12; 24; 3]%nat.
Proof.
  destruct (crop_leaf_region_box (P := SolidImage.solid_pil) (C := RectCv2.rect_cv2)
              RectCv2.leaf_photo f64_tenth
              (SolidImage.solid_array
                 {| SolidImage.s_mode := "RGB"; SolidImage.s_size := (40%nat, 30%nat);
                    SolidImage.s_colour := Byte.x80 |})
              (SolidImage.solid_array
                 {| SolidImage.s_mode := "RGB"; SolidImage.s_size := (40%nat, 30%nat);
                    SolidImage.s_colour := Byte.x80 |})
              (SolidImage.solid_array
                 {| SolidImage.s_mode := "RGB"; SolidImage.s_size := (40%nat, 30%nat);
                    SolidImage.s_colour := Byte.x80 |})
              (2, 3, 4, 5)%Z [(10, 5, 20, 10)%Z]
              10 5 20 10 2 1 30%nat 40%nat [3%nat])
    as (cropped & x' & y' & w' & h' & Hbox & _ & Hrun & Hshape & _);
    try reflexivity; try lia.
  exists cropped. split; [exact Hrun|].
  vm_compute in Hbox. injection Hbox as <- <- <- <-. exact Hshape.
Defined.

End CroppingProps.

(* ===================================================================== *)
(** * Properties of split_dataset *)
(* ===================================================================== *)

Module SplitDatasetProps.
Import Cropping DiseaseModelIO SplitDataset.

Section with_os.
Context {O : Os} {M : ModelSelection}.

(** Entries that are not directories leave the file system and the local
    variables as they are. *)
Lemma split_classes_no_directories (data_dir : path)
    (train_ratio val_ratio test_ratio : f64) (st : locals) (names : list path) :
  (∀ name, name ∈ names → isdir (fs st) (join data_dir name) = false) →
  split_classes data_dir train_ratio val_ratio test_ratio st names = Ok st.
Proof.
  induction names as [|name rest IH]; intros Hno; [reflexivity|].
  cbn [split_classes]. unfold split_class at 1.
  rewrite (Hno name) by left. cbn [negb mbind result_bind Py.bind].
  apply IH. intros n Hn. apply Hno. right. exact Hn.
Qed.

(** X8. When [data_dir] holds no class directory, [split_dataset] creates the
    three output directories and then raises [UnboundLocalError] at its
    closing [print]: [train_imgs] was never assigned. *)
Theorem split_dataset_without_class_directories (fs0 fs1 : FileSystem)
    (data_dir : path) (train_ratio val_ratio test_ratio : f64) (names : list path) :
  make_dirs fs0 (map (λ split, data_dir ++ p "_" ++ split) splits) = Ok fs1 →
  listdir fs1 data_dir = Ok names →
  (∀ name, name ∈ names → isdir fs1 (join data_dir name) = false) →
  split_dataset fs0 data_dir train_ratio val_ratio test_ratio
    = Raise (BackendError "UnboundLocalError").
Proof.
  intros Hdirs Hls Hno. unfold split_dataset.
  rewrite Hdirs. cbn [mbind result_bind Py.bind].
  rewrite Hls. cbn [mbind result_bind Py.bind].
  rewrite split_classes_no_directories by exact Hno. reflexivity.
Qed.

End with_os.

Lemma split_dataset_without_class_directories_witness :
  split_dataset (O := ListFs.list_os) (M := ListFs.keep_all) ListFs.photos_fs
    (p "photos")
    (S754_finite false 6305039478318694 (-53))
    (S754_finite false 5404319552844595 (-55))
    (S754_finite false 5404319552844595 (-55))
  = Raise (BackendError "UnboundLocalError").
Proof.
  apply (split_dataset_without_class_directories (O := ListFs.list_os)
           (M := ListFs.keep_all) ListFs.photos_fs
           ([p "photos_test"; p "photos_val"; p "photos_train"; p "photos"],
            [(p "photos/readme.txt", [])])
           (p "photos") _ _ _ [p "readme.txt"]).
  - reflexivity.
  - vm_compute. reflexivity.
  - intros name Hname. apply list_elem_of_singleton in Hname as ->.
    vm_compute. reflexivity.
Defined.

End SplitDatasetProps.

(* ===================================================================== *)
(** * Properties of the calibration bins and of the Expected Calibration Error *)
(* ===================================================================== *)

Module CalibrationProps.
Import Np Evaluation CalibrationSpec NpProps EvaluationProps.

(** ** Comparisons as propositions *)

Lemma Qle_bool_false (x y : Q) : Qle_bool x y = false ↔ (y < x)%Q.
Proof.
  rewrite <- not_true_iff_false, Qle_bool_iff.
  split; [apply Qnot_le_lt | apply Qlt_not_le].
Qed.

Lemma in_interval_iff (bin : Q * Q) (s : sample) :
  in_interval bin s = true ↔ (bin.1 < s.1)%Q ∧ (s.1 <= bin.2)%Q.
Proof.
  unfold in_interval. rewrite andb_true_iff, Qltb_lt, Qle_bool_iff. reflexivity.
Qed.

Lemma Qnat_nonneg (n : nat) : (0 <= Qnat n)%Q.
Proof. unfold Qnat, Qle. cbn. lia. Qed.

Lemma Qnat_le (a b : nat) : (a ≤ b)%nat → (Qnat a <= Qnat b)%Q.
Proof. intros H. unfold Qnat, Qle. cbn. lia. Qed.

Lemma Qnat_plus (a b : nat) : (Qnat (a + b) == Qnat a + Qnat b)%Q.
Proof. unfold Qnat. rewrite Nat2Z.inj_add, inject_Z_plus. reflexivity. Qed.

Lemma Qdiv_nat_nonneg (x : Q) (n : nat) : (0 <= x)%Q → (0 <= x / Qnat n)%Q.
Proof.
  intros Hx. destruct n as [|n].
  - unfold Qdiv. change (/ Qnat 0)%Q with 0%Q. lra.
  - apply Qle_shift_div_l; [|lra].
    unfold Qnat, Qlt. cbn. lia.
Qed.

Lemma Qdiv_nat_le (x y : Q) (n : nat) : (x <= y)%Q → (x / Qnat n <= y / Qnat n)%Q.
Proof.
  intros Hxy. unfold Qdiv. apply Qmult_le_compat_r; [exact Hxy|].
  destruct n as [|n]; [change (/ Qnat 0)%Q with 0%Q; lra|].
  apply Qlt_le_weak, Qinv_lt_0_compat. unfold Qnat, Qlt. cbn. lia.
Qed.

Lemma Qdiv_nat_le_1 (x : Q) (n : nat) : (x <= Qnat n)%Q → (0 <= x)%Q → (x / Qnat n <= 1)%Q.
Proof.
  intros Hx H0. destruct n as [|n].
  - unfold Qdiv. change (/ Qnat 0)%Q with 0%Q. lra.
  - apply Qle_shift_div_r; [unfold Qnat, Qlt; cbn; lia | lra].
Qed.

(** The bounds of the bins increase from 0 to at most 1. *)
Lemma bin_interval_bounds (n_bins b : nat) :
  (0 <= (bin_interval n_bins b).1)%Q ∧
  ((bin_interval n_bins b).1 <= (bin_interval n_bins b).2)%Q ∧
  ((b < n_bins)%nat → ((bin_interval n_bins b).2 <= 1)%Q).
Proof.
  unfold bin_interval. cbn [fst snd]. split; [|split].
  - apply Qdiv_nat_nonneg, Qnat_nonneg.
  - apply Qdiv_nat_le, Qnat_le. lia.
  - intros Hb. apply Qdiv_nat_le_1; [apply Qnat_le; lia | apply Qnat_nonneg].
Qed.

Ltac q_cases :=
  repeat match goal with
         | |- context [Qltb ?a ?b] =>
             let E := fresh "E" in
             destruct (Qltb a b) eqn:E;
             [apply Qltb_lt in E | apply Qltb_ge in E]
         | |- context [Qle_bool ?a ?b] =>
             let E := fresh "E" in
             destruct (Qle_bool a b) eqn:E;
             [apply Qle_bool_iff in E | apply Qle_bool_false in E]
         end.

(** Among the first [k] bins, a confidence [p] lies in exactly one when
    [0 < p <= k/n_bins], and in none otherwise. *)
Lemma bins_below (n_bins k : nat) (s : sample) :
  length (List.filter (λ b, in_interval (bin_interval n_bins b) s) (seq 0 k)) =
  if Qltb 0 s.1 && Qle_bool s.1 (Qnat k / Qnat n_bins) then 1%nat else 0%nat.
Proof.
  induction k as [|k IH].
  - cbn [seq List.filter length].
    assert (Qnat 0 / Qnat n_bins == 0)%Q as H0 by (unfold Qdiv, Qnat; cbn; ring).
    q_cases; cbn; try reflexivity. exfalso. lra.
  - rewrite seq_S, List.filter_app, length_app, IH. cbn [List.filter Nat.add].
    unfold in_interval at 1.
    destruct (bin_interval_bounds n_bins k) as (Hlo & Hmono & _).
    unfold bin_interval in *. cbn [fst snd] in *.
    q_cases; cbn; try reflexivity; exfalso; lra.
Qed.

(** X9. The bins partition (0, 1]: a confidence in that range lies in exactly one
    of the [n_bins] bins the code builds, any other confidence in none. *)
Theorem calibration_bins_partition (n_bins : nat) (p : Q) :
  (0 < n_bins)%nat →
  length (filter (λ b : bool, b = true)
            (map (λ bin : Q * Q, Qltb bin.1 p && Qle_bool p bin.2)
               (zip (removelast (linspace01 n_bins)) (tail (linspace01 n_bins)))))
  = if Qltb 0 p && Qle_bool p 1 then 1%nat else 0%nat.
Proof.
  intros Hn. rewrite linspace_bins, map_map, count_true_map.
  pose proof (bins_below n_bins n_bins (p, true)) as H.
  unfold in_interval in H. cbn [fst snd] in H. rewrite H.
  assert (Qnat n_bins / Qnat n_bins == 1)%Q as H1.
  { apply Qmult_inv_r. destruct n_bins; [lia|]. unfold Qnat, Qeq. cbn. lia. }
  q_cases; cbn; try reflexivity; exfalso; lra.
Qed.

(** The theorem at ten bins and a confidence of 3/10. *)
Lemma calibration_bins_partition_witness :
  length (filter (λ b : bool, b = true)
            (map (λ bin : Q * Q, Qltb bin.1 (3 # 10) && Qle_bool (3 # 10) bin.2)
               (zip (removelast (linspace01 10)) (tail (linspace01 10)))))
  = if Qltb 0 (3 # 10) && Qle_bool (3 # 10) 1 then 1%nat else 0%nat.
Proof. apply (calibration_bins_partition 10 (3 # 10)). lia. Defined.

(** ** What a run on a non-empty batch returns *)

Lemma calibration_run (y_true : label_array) (y_pred_proba : list (list Q))
    (n_bins : nat) (y_true_classes : list Z) :
  class_indices y_true = Ok y_true_classes →
  length y_true_classes = length y_pred_proba →
  y_pred_proba ≠ [] →
  Forall (λ row, row ≠ []) y_pred_proba →
  ∃ (samples : list sample) (cal : calibration),
    samples ≠ [] ∧
    calculate_confidence_calibration y_true y_pred_proba n_bins = Ok cal ∧
    accuracies cal
      = map (λ b, bin_accuracy (bin_members n_bins b samples)) (seq 0 n_bins) ∧
    confidences cal
      = map (λ b, bin_confidence (bin_members n_bins b samples)) (seq 0 n_bins) ∧
    (Evaluation.expected_calibration_error cal == ece n_bins samples)%Q.
Proof.
  intros Hyt Hlen Hne Hrows.
  destruct (amax_rows_ok _ Hrows) as (mp & Hmp & Lmp).
  destruct (argmax_rows_ok _ Hrows) as (pc & Hpc & Lpc).
  destruct (columns_of_zip y_true_classes pc mp) as (E1 & E2 & E3); [lia|lia|].
  pose proof (CalibrationSpec_samples y_true_classes pc mp) as HS.
  set (T := zip (zip y_true_classes pc) mp) in *.
  assert (T ≠ []) as HT.
  { intros HT. rewrite HT in E3. cbn in E3. subst mp.
    destruct y_pred_proba; [congruence|discriminate]. }
  destruct (loops_table T n_bins HT) as (Hbins & e & Hece & Hsum).
  cbv zeta in Hbins, Hece, Hsum.
  exists (map (λ t : Z * Z * Q, (t.2, (t.1.1 =? t.1.2)%Z)) T).
  eexists {| accuracies := _; confidences := _;
             Evaluation.expected_calibration_error := e;
             bin_boundaries := linspace01 n_bins |}.
  split. { destruct T; [congruence|discriminate]. }
  split.
  - unfold calculate_confidence_calibration.
    rewrite Hyt, Hmp, Hpc. cbn [mbind result_bind Py.bind]. rewrite linspace_bins.
    rewrite E1, E2, E3 at 1. rewrite Hbins. cbn [mbind result_bind Py.bind].
    rewrite E3 at 1. rewrite Hece. reflexivity.
  - cbn [accuracies confidences Evaluation.expected_calibration_error].
    split; [reflexivity|]. split; [reflexivity|exact Hsum].
Qed.

(** ** Sums *)

Lemma sumQ_map_le {A} (f g : A → Q) (l : list A) :
  (∀ x, x ∈ l → (f x <= g x)%Q) → (sumQ (map f l) <= sumQ (map g l))%Q.
Proof.
  induction l as [|x l IH]; intros H; [cbn; lra|].
  cbn [map]. rewrite !sumQ_cons.
  apply Qplus_le_compat; [apply H; left | apply IH; intros y Hy; apply H; right; exact Hy].
Qed.

Lemma sumQ_map_nonneg {A} (f : A → Q) (l : list A) :
  (∀ x, x ∈ l → (0 <= f x)%Q) → (0 <= sumQ (map f l))%Q.
Proof.
  induction l as [|x l IH]; intros H; [cbn; lra|].
  cbn [map]. rewrite sumQ_cons.
  assert (0 <= f x)%Q by (apply H; left).
  assert (0 <= sumQ (map f l))%Q by (apply IH; intros y Hy; apply H; right; exact Hy).
  lra.
Qed.


Lemma sumQ_map_shares {A} (a : A → nat) (n : nat) (l : list A) :
  (sumQ (map (λ x, Qnat (a x) / Qnat n) l) == Qnat (list_sum (map a l)) / Qnat n)%Q.
Proof.
  induction l as [|x l IH].
  - cbn. unfold Qdiv, Qnat. cbn. ring.
  - cbn [map list_sum fold_right]. rewrite sumQ_cons, IH.
    change (fold_right Init.Nat.add 0%nat (map a l)) with (list_sum (map a l)).
    rewrite Qnat_plus. unfold Qdiv. ring.
Qed.

Lemma sumQ_unit_bounds (l : list Q) :
  Forall (λ x, (0 <= x)%Q ∧ (x <= 1)%Q) l →
  (0 <= sumQ l)%Q ∧ (sumQ l <= Qnat (length l))%Q.
Proof.
  induction 1 as [|x l [Hx0 Hx1] _ [IH0 IH1]].
  - cbn. split; [lra|]. unfold Qnat, Qle. cbn. lia.
  - rewrite sumQ_cons. cbn [length].
    change (S (length l)) with (1 + length l)%nat. rewrite Qnat_plus.
    change (Qnat 1) with 1%Q. split; lra.
Qed.

Lemma list_sum_map_add {A} (x y : A → nat) (l : list A) :
  list_sum (map (λ b, x b + y b)%nat l) = (list_sum (map x l) + list_sum (map y l))%nat.
Proof.
  unfold list_sum. induction l as [|b l IH]; [reflexivity|].
  cbn [map fold_right]. rewrite IH. lia.
Qed.

Lemma list_sum_indicator {A} (h : A → bool) (l : list A) :
  list_sum (map (λ b, if h b then 1 else 0)%nat l) = length (List.filter h l).
Proof.
  unfold list_sum. induction l as [|b l IH]; [reflexivity|].
  cbn [map fold_right List.filter]. rewrite IH.
  destruct (h b); reflexivity.
Qed.

Lemma list_sum_zero {A} (l : list A) : list_sum (map (λ _, 0%nat) l) = 0%nat.
Proof.
  unfold list_sum. induction l as [|b l IH]; [reflexivity|]. cbn. exact IH.
Qed.

(** Counting bin members bin by bin or sample by sample gives the same
    total. *)
Lemma count_members_swap {A B} (f : B → A → bool) (bins : list B) (samples : list A) :
  list_sum (map (λ b, length (List.filter (f b) samples)) bins)
  = list_sum (map (λ s, length (List.filter (λ b, f b s) bins)) samples).
Proof.
  induction samples as [|s samples IH].
  - cbn. apply list_sum_zero.
  - cbn [map list_sum fold_right].
    change (fold_right Init.Nat.add 0%nat ?l) with (list_sum l).
    rewrite <- IH, <- list_sum_indicator, <- list_sum_map_add.
    f_equal. apply map_ext. intros b. cbn [List.filter].
    destruct (f b s); reflexivity.
Qed.

(** No sample is counted in two bins. *)
Lemma members_total (n_bins : nat) (samples : list sample) :
  (list_sum (map (λ b, length (bin_members n_bins b samples)) (seq 0 n_bins))
   ≤ length samples)%nat.
Proof.
  unfold bin_members.
  rewrite (count_members_swap (λ b s, in_interval (bin_interval n_bins b) s)).
  induction samples as [|s samples IH]; [cbn; lia|].
  cbn [map list_sum fold_right length].
  change (fold_right Init.Nat.add 0%nat ?l) with (list_sum l).
  rewrite bins_below.
  destruct (Qltb 0 s.1 && Qle_bool s.1 (Qnat n_bins / Qnat n_bins)); lia.
Qed.

(** ** Bounds on what a bin contributes *)

Lemma bin_accuracy_unit (members : list sample) :
  (0 <= bin_accuracy members)%Q ∧ (bin_accuracy members <= 1)%Q.
Proof.
  destruct members as [|s members]; [cbn; split; lra|].
  rewrite bin_accuracy_nonempty by discriminate. split.
  - apply Qdiv_nat_nonneg, Qnat_nonneg.
  - apply Qdiv_nat_le_1; [|apply Qnat_nonneg].
    apply Qnat_le, List.filter_length_le.
Qed.

Lemma bin_confidence_unit (n_bins b : nat) (samples : list sample) :
  (b < n_bins)%nat →
  (0 <= bin_confidence (bin_members n_bins b samples))%Q ∧
  (bin_confidence (bin_members n_bins b samples) <= 1)%Q.
Proof.
  intros Hb.
  destruct (bin_members n_bins b samples) as [|s members] eqn:E; [cbn; split; lra|].
  rewrite bin_confidence_nonempty by discriminate.
  assert (Forall (λ x, (0 <= x)%Q ∧ (x <= 1)%Q) (map fst (s :: members))) as Hall.
  { rewrite <- E. apply Forall_forall. intros x Hx.
    apply list_elem_of_fmap in Hx as (y & -> & Hy).
    apply list_elem_of_In in Hy. unfold bin_members in Hy.
    apply List.filter_In in Hy as [_ Hy]. apply in_interval_iff in Hy as [Hlo Hup].
    destruct (bin_interval_bounds n_bins b) as (H0 & _ & H1).
    specialize (H1 Hb). split; lra. }
  apply sumQ_unit_bounds in Hall as [H0 H1]. rewrite length_map in H1. split.
  - apply Qdiv_nat_nonneg. exact H0.
  - apply Qdiv_nat_le_1; assumption.
Qed.

Lemma bin_error_bounds (n_bins b : nat) (samples : list sample) :
  (b < n_bins)%nat →
  (0 <= bin_error n_bins samples b)%Q ∧
  (bin_error n_bins samples b
   <= Qnat (length (bin_members n_bins b samples)) / Qnat (length samples))%Q.
Proof.
  intros Hb. unfold bin_error, bin_weight. cbv zeta.
  set (members := bin_members n_bins b samples).
  destruct (bin_accuracy_unit members) as [Ha0 Ha1].
  destruct (bin_confidence_unit n_bins b samples Hb) as [Hc0 Hc1].
  fold members in Hc0, Hc1.
  assert (0 <= Qnat (length members) / Qnat (length samples))%Q as Hw
    by (apply Qdiv_nat_nonneg, Qnat_nonneg).
  assert (0 <= Qabs (bin_accuracy members - bin_confidence members))%Q as Hg0
    by apply Qabs_nonneg.
  assert (Qabs (bin_accuracy members - bin_confidence members) <= 1)%Q as Hg1
    by (apply Qabs_Qle_condition; split; lra).
  split; [apply Qmult_le_0_compat; assumption|].
  set (w := (Qnat (length members) / Qnat (length samples))%Q) in *.
  set (g := Qabs (bin_accuracy members - bin_confidence members)) in *.
  rewrite <- (Qmult_1_l w) at 2. rewrite (Qmult_comm w g).
  apply Qmult_le_compat_r; assumption.
Qed.

Lemma ece_unit (n_bins : nat) (samples : list sample) :
  samples ≠ [] → (0 <= ece n_bins samples)%Q ∧ (ece n_bins samples <= 1)%Q.
Proof.
  intros Hne. unfold ece. split.
  - apply sumQ_map_nonneg. intros b Hb.
    apply list_elem_of_In, in_seq in Hb. apply bin_error_bounds. lia.
  - eapply Qle_trans.
    { apply (sumQ_map_le _
               (λ b, Qnat (length (bin_members n_bins b samples))
                     / Qnat (length samples))%Q).
      intros b Hb. apply list_elem_of_In, in_seq in Hb.
      apply bin_error_bounds. lia. }
    rewrite sumQ_map_shares. apply Qdiv_nat_le_1; [|apply Qnat_nonneg].
    apply Qnat_le, members_total.
Qed.

(** X10. The Expected Calibration Error of a non-empty batch lies between 0
    and 1, whatever the probabilities are. *)
Theorem calibration_error_in_unit_interval (y_true : label_array)
    (y_pred_proba : list (list Q)) (n_bins : nat) (y_true_classes : list Z) :
  class_indices y_true = Ok y_true_classes →
  length y_true_classes = length y_pred_proba →
  y_pred_proba ≠ [] →
  Forall (λ row, row ≠ []) y_pred_proba →
  ∃ cal : calibration,
    calculate_confidence_calibration y_true y_pred_proba n_bins = Ok cal ∧
    length (accuracies cal) = n_bins ∧
    length (confidences cal) = n_bins ∧
    (0 <= Evaluation.expected_calibration_error cal)%Q ∧
    (Evaluation.expected_calibration_error cal <= 1)%Q.
Proof.
  intros Hyt Hlen Hne Hrows.
  destruct (calibration_run y_true y_pred_proba n_bins y_true_classes
              Hyt Hlen Hne Hrows) as (samples & cal & HS & Hrun & Ha & Hc & He).
  exists cal. split; [exact Hrun|].
  rewrite Ha, Hc, !length_map, length_seq, He.
  split; [reflexivity|]. split; [reflexivity|]. apply ece_unit, HS.
Qed.

(** The theorem at four predictions and five bins. *)
Lemma calibration_error_in_unit_interval_witness :
  ∃ cal : calibration,
    calculate_confidence_calibration CalibrationDemo.y_true CalibrationDemo.proba 5
      = Ok cal ∧
    length (accuracies cal) = 5%nat ∧
    length (confidences cal) = 5%nat ∧
    (0 <= Evaluation.expected_calibration_error cal)%Q ∧
    (Evaluation.expected_calibration_error cal <= 1)%Q.
Proof.
  apply (calibration_error_in_unit_interval CalibrationDemo.y_true
           CalibrationDemo.proba 5 [0; 1; 1; 0]%Z).
  - reflexivity.
  - reflexivity.
  - discriminate.
  - repeat constructor; discriminate.
Defined.



End CalibrationProps.

(* ===================================================================== *)
(** * Per-class metrics as ratios of counts *)
(* ===================================================================== *)

Module PerClassProps.
Import Np Evaluation NpProps EvaluationProps.

(** ** Sums of confusion-matrix entries *)

Lemma sumZ_cons (x : Z) (l : list Z) : sumZ (x :: l) = (x + sumZ l)%Z.
Proof. reflexivity. Qed.

Lemma sumZ_zero {A} (l : list A) : sumZ (map (λ _, 0%Z) l) = 0%Z.
Proof.
  induction l as [|x l IH]; [reflexivity|]. cbn [map]. rewrite sumZ_cons, IH. lia.
Qed.

Lemma sumZ_map_add {A} (f g : A → Z) (l : list A) :
  sumZ (map (λ x, f x + g x)%Z l) = (sumZ (map f l) + sumZ (map g l))%Z.
Proof.
  induction l as [|x l IH]; [reflexivity|].
  cbn [map]. rewrite !sumZ_cons, IH. lia.
Qed.

(** Exactly one key of a duplicate-free list equals a given member. *)
Lemma sumZ_indicator (L : list Z) (k : Z) :
  NoDup L → k ∈ L →
  sumZ (map (λ b, if decide (k = b) then 1%Z else 0%Z) L) = 1%Z.
Proof.
  induction 1 as [|b L Hb HL IH]; intros Hk; [inversion Hk|].
  cbn [map]. rewrite sumZ_cons. destruct (decide (k = b)) as [->|Hne].
  - rewrite (map_ext_in _ (λ _, 0%Z)), sumZ_zero; [lia|].
    intros c Hc. apply list_elem_of_In in Hc.
    destruct (decide (b = c)) as [->|]; [contradiction|reflexivity].
  - apply elem_of_cons in Hk as [?|Hk]; [contradiction|].
    rewrite IH by exact Hk. lia.
Qed.

(** Counting the items that satisfy [Q] key by key, over a duplicate-free
    list of keys that contains every key that occurs. *)
Lemma sum_count_by_key {X} (g : X → Z) (Q : X → Prop) `{∀ x, Decision (Q x)}
    (L : list Z) (xs : list X) :
  NoDup L → (∀ x, x ∈ xs → g x ∈ L) →
  sumZ (map (λ b, Z.of_nat (length (filter (λ x, Q x ∧ g x = b) xs))) L)
  = Z.of_nat (length (filter Q xs)).
Proof.
  intros HL. induction xs as [|x xs IH]; intros Hkeys.
  - cbn. apply sumZ_zero.
  - rewrite filter_cons.
    rewrite (map_ext _
               (λ b, (if decide (Q x) then (if decide (g x = b) then 1 else 0) else 0)
                     + Z.of_nat (length (filter (λ x, Q x ∧ g x = b) xs)))%Z).
    2:{ intros b. rewrite filter_cons.
        destruct (decide (Q x)) as [HQ|HQ], (decide (g x = b)) as [Hg|Hg];
          [rewrite decide_True by tauto|rewrite decide_False by tauto..];
          cbn [length]; lia. }
    rewrite sumZ_map_add, IH by (intros y Hy; apply Hkeys; right; exact Hy).
    destruct (decide (Q x)).
    + rewrite sumZ_indicator by (try assumption; apply Hkeys; left).
      cbn [length]. lia.
    + rewrite sumZ_zero. lia.
Qed.

Lemma sumZ_ext {A} (f g : A → Z) (l : list A) :
  (∀ x, f x = g x) → sumZ (map f l) = sumZ (map g l).
Proof. intros H. f_equal. apply map_ext. exact H. Qed.

Lemma filter_all {A} (l : list A) : filter (λ _ : A, True) l = l.
Proof.
  induction l as [|x l IH]; [reflexivity|].
  rewrite filter_cons_True by exact I. rewrite IH. reflexivity.
Qed.

Lemma count_fst_zip (c : Z) (y_true y_pred : list Z) :
  length y_true = length y_pred →
  length (filter (λ tp : Z * Z, tp.1 = c) (zip y_true y_pred))
  = length (filter (λ t, t = c) y_true).
Proof.
  revert y_pred. induction y_true as [|t y_true IH]; intros [|p y_pred] Hlen;
    try discriminate; [reflexivity|].
  cbn [zip zip_with]. rewrite !filter_cons. cbn [fst].
  destruct (decide (t = c)); cbn [length]; rewrite IH by (cbn in Hlen; lia);
    reflexivity.
Qed.

Lemma count_snd_zip (c : Z) (y_true y_pred : list Z) :
  length y_true = length y_pred →
  length (filter (λ tp : Z * Z, tp.2 = c) (zip y_true y_pred))
  = length (filter (λ p, p = c) y_pred).
Proof.
  revert y_pred. induction y_true as [|t y_true IH]; intros [|p y_pred] Hlen;
    try discriminate; [reflexivity|].
  cbn [zip zip_with]. rewrite !filter_cons. cbn [snd].
  destruct (decide (p = c)); cbn [length]; rewrite IH by (cbn in Hlen; lia);
    reflexivity.
Qed.

(** ** Rows, columns and total of the confusion matrix *)

Section matrix.
Context (L : list Z) (pairs : list (Z * Z)).
Hypothesis L_nodup : NoDup L.
Hypothesis true_in_L : ∀ tp, tp ∈ pairs → tp.1 ∈ L.
Hypothesis pred_in_L : ∀ tp, tp ∈ pairs → tp.2 ∈ L.

Local Abbreviation cm := (map (λ a, map (λ b, count_pairs a b pairs) L) L).

Lemma cm_row (i : nat) (a : Z) :
  L !! i = Some a → cm !! i = Some (map (λ b, count_pairs a b pairs) L).
Proof. intros Ha. rewrite list_lookup_fmap, Ha. reflexivity. Qed.

Lemma cm_column (i : nat) (b : Z) :
  L !! i = Some b → column cm i = Ok (map (λ a, count_pairs a b pairs) L).
Proof.
  intros Hb. unfold column.
  rewrite (mapM_ok _ (λ row, nth i row 0%Z)).
  - rewrite map_map. f_equal. apply map_ext. intros a.
    rewrite nth_lookup, list_lookup_fmap, Hb. reflexivity.
  - intros row Hrow. apply list_elem_of_fmap in Hrow as (a & -> & _).
    unfold getitem. rewrite nth_lookup, list_lookup_fmap, Hb. reflexivity.
Qed.

Lemma cm_row_sum (a : Z) :
  sumZ (map (λ b, count_pairs a b pairs) L)
  = Z.of_nat (length (filter (λ tp : Z * Z, tp.1 = a) pairs)).
Proof.
  unfold count_pairs.
  apply (sum_count_by_key snd (λ tp : Z * Z, tp.1 = a) L pairs L_nodup pred_in_L).
Qed.

Lemma cm_column_sum (b : Z) :
  sumZ (map (λ a, count_pairs a b pairs) L)
  = Z.of_nat (length (filter (λ tp : Z * Z, tp.2 = b) pairs)).
Proof.
  rewrite <- (sum_count_by_key fst (λ tp : Z * Z, tp.2 = b) L pairs L_nodup true_in_L).
  apply sumZ_ext. intros a. unfold count_pairs. do 2 f_equal.
  apply list_filter_iff. intros tp. tauto.
Qed.

Lemma cm_total : matrix_sum cm = Z.of_nat (length pairs).
Proof.
  unfold matrix_sum. rewrite map_map.
  rewrite (sumZ_ext _ (λ a, Z.of_nat (length (filter (λ tp : Z * Z, True ∧ tp.1 = a) pairs)))).
  2:{ intros a. rewrite cm_row_sum. do 2 f_equal. apply list_filter_iff. intros tp. tauto. }
  rewrite (sum_count_by_key fst (λ _, True) L pairs L_nodup true_in_L).
  rewrite filter_all. reflexivity.
Qed.

End matrix.

(** ** The loop over the class names *)

Lemma per_class_loop_lookup (cm : matrix) (names : list string) (i : nat)
    (acc : gmap string class_metrics) :
  NoDup names →
  (∀ k, (k < length names)%nat → ∃ m, metrics_of_class cm (i + k) = Ok m) →
  ∃ r, per_class_loop cm i names acc = Ok r ∧
       (∀ k name, names !! k = Some name →
          ∃ m, r !! name = Some m ∧ metrics_of_class cm (i + k) = Ok m) ∧
       (∀ x, x ∉ names → r !! x = acc !! x).
Proof.
  intros Hnd. revert i acc.
  induction Hnd as [|name names Hname Hnd IH]; intros i acc Hok.
  - exists acc. split; [reflexivity|]. split; [intros k name Hk; discriminate|auto].
  - destruct (Hok 0%nat ltac:(cbn; lia)) as [m Hm]. rewrite Nat.add_0_r in Hm.
    destruct (IH (S i) (<[name := m]> acc)) as (r & Hr & Hin & Hout).
    { intros k Hk. destruct (Hok (S k) ltac:(cbn; lia)) as [m' Hm'].
      exists m'. rewrite <- Hm'. f_equal. lia. }
    exists r. split; [|split].
    + cbn [per_class_loop]. rewrite Hm. cbn [mbind result_bind Py.bind]. exact Hr.
    + intros [|k] name' Hk.
      * cbn in Hk. injection Hk as <-. exists m. rewrite Nat.add_0_r.
        split; [|exact Hm]. rewrite Hout by exact Hname. apply lookup_insert_eq.
      * cbn in Hk. destruct (Hin k name' Hk) as (m' & Hl & Hm').
        exists m'. split; [exact Hl|]. rewrite <- Hm'. f_equal. lia.
    + intros x Hx. apply not_elem_of_cons in Hx as [Hne Hx].
      rewrite Hout by exact Hx. apply lookup_insert_ne. congruence.
Qed.

(** Every label of the two sequences is among the labels of the confusion
    matrix, and those are pairwise different. *)
Lemma unique_labels_elem (y_true y_pred : list Z) (x : Z) :
  x ∈ unique_labels y_true y_pred ↔ x ∈ y_true ∨ x ∈ y_pred.
Proof.
  unfold unique_labels. rewrite merge_sort_Permutation, elem_of_remove_dups.
  apply elem_of_app.
Qed.

Lemma unique_labels_nodup (y_true y_pred : list Z) :
  NoDup (unique_labels y_true y_pred).
Proof.
  unfold unique_labels. rewrite merge_sort_Permutation. apply NoDup_remove_dups.
Qed.

(** X12. When the labels that occur are exactly 0, ..., n-1 for the n distinct
    class names, [calculate_per_class_metrics] returns an entry for every
    class name, and the entry of class [c] holds the usual ratios of the
    label counts: support = number of true [c]; precision = hits / number of
    predicted [c]; recall = hits / support; specificity = (samples that are
    neither true nor predicted [c]) / (samples that are not true [c]); each
    ratio is 0 when its denominator is 0. *)
Theorem per_class_metrics_are_count_ratios (self : ModelEvaluator)
    (y_true y_pred : label_array) (y_true_classes y_pred_classes : list Z) :
  class_indices y_true = Ok y_true_classes →
  class_indices y_pred = Ok y_pred_classes →
  length y_true_classes = length y_pred_classes →
  unique_labels y_true_classes y_pred_classes
    = map Z.of_nat (seq 0 (length (class_names self))) →
  NoDup (class_names self) →
  ∃ per_class : gmap string class_metrics,
    calculate_per_class_metrics self y_true y_pred = Ok per_class ∧
    ∀ (c : nat) (name : string), class_names self !! c = Some name →
      ∃ m : class_metrics,
        per_class !! name = Some m ∧
        let n := Z.of_nat (length y_true_classes) in
        let actual :=
          Z.of_nat (length (filter (λ t, t = Z.of_nat c) y_true_classes)) in
        let predicted :=
          Z.of_nat (length (filter (λ p, p = Z.of_nat c) y_pred_classes)) in
        let hits :=
          count_pairs (Z.of_nat c) (Z.of_nat c) (zip y_true_classes y_pred_classes) in
        support m = actual ∧
        (precision m
         == if (0 <? predicted)%Z then inject_Z hits / inject_Z predicted else 0)%Q ∧
        (recall m
         == if (0 <? actual)%Z then inject_Z hits / inject_Z actual else 0)%Q ∧
        (specificity m
         == if (0 <? n - actual)%Z
            then inject_Z (n - actual - predicted + hits) / inject_Z (n - actual)
            else 0)%Q.
Proof.
  intros Ht Hp Hlen HL Hnames.
  set (L := map Z.of_nat (seq 0 (length (class_names self)))) in *.
  set (pairs := zip y_true_classes y_pred_classes).
  assert (NoDup L) as HLnd by (rewrite <- HL; apply unique_labels_nodup).
  assert (∀ tp, tp ∈ pairs → tp.1 ∈ L) as HtL.
  { intros [t p] Hin. rewrite <- HL. apply unique_labels_elem. left.
    eapply elem_of_zip_l, Hin. }
  assert (∀ tp, tp ∈ pairs → tp.2 ∈ L) as HpL.
  { intros [t p] Hin. rewrite <- HL. apply unique_labels_elem. right.
    eapply elem_of_zip_r, Hin. }
  set (cm := map (λ a, map (λ b, count_pairs a b pairs) L) L).
  assert (∀ c, (c < length (class_names self))%nat → L !! c = Some (Z.of_nat c)) as HLc.
  { intros c Hc. unfold L. rewrite list_lookup_fmap, lookup_seq_lt by exact Hc.
    reflexivity. }
  assert (∀ c, (c < length (class_names self))%nat →
            metrics_of_class cm c
            = Ok (let tp := count_pairs (Z.of_nat c) (Z.of_nat c) pairs in
                  let col := map (λ a, count_pairs a (Z.of_nat c) pairs) L in
                  let row := map (λ b, count_pairs (Z.of_nat c) b pairs) L in
                  let fp := (sumZ col - tp)%Z in
                  let fn := (sumZ row - tp)%Z in
                  let tn := (matrix_sum cm - tp - fp - fn)%Z in
                  let precision :=
                    if (0 <? tp + fp)%Z then (inject_Z tp / inject_Z (tp + fp))%Q else 0%Q in
                  let recall :=
                    if (0 <? tp + fn)%Z then (inject_Z tp / inject_Z (tp + fn))%Q else 0%Q in
                  {| precision := precision; recall := recall;
                     f1_score :=
                       if Qltb 0 (precision + recall)
                       then (2 * (precision * recall) / (precision + recall))%Q else 0%Q;
                     specificity :=
                       if (0 <? tn + fp)%Z then (inject_Z tn / inject_Z (tn + fp))%Q else 0%Q;
                     support := sumZ row |})) as Hmetrics.
  { intros c Hc. unfold metrics_of_class, getitem2, getitem.
    pose proof (cm_row L pairs c (Z.of_nat c) (HLc c Hc)) as Hrow.
    pose proof (cm_column L pairs c (Z.of_nat c) (HLc c Hc)) as Hcol.
    fold cm in Hrow, Hcol. rewrite Hrow.
    cbn [mbind result_bind Py.bind]. rewrite list_lookup_fmap, (HLc c Hc).
    cbn [fmap option_fmap option_map mbind result_bind Py.bind].
    rewrite Hcol. reflexivity. }
  destruct (per_class_loop_lookup cm (class_names self) 0 ∅ Hnames)
    as (per_class & Hloop & Hin & _).
  { intros k Hk. rewrite Nat.add_0_l, (Hmetrics k Hk). eexists. reflexivity. }
  exists per_class. split.
  { unfold calculate_per_class_metrics. rewrite Ht, Hp.
    cbn [mbind result_bind Py.bind]. unfold confusion_matrix.
    rewrite Hlen, Nat.eqb_refl. cbn [mbind result_bind Py.bind].
    rewrite HL. exact Hloop. }
  intros c name Hname.
  pose proof (lookup_lt_Some _ _ _ Hname) as Hc.
  destruct (Hin c name Hname) as (m & Hm & Hmc). cbn [Nat.add] in Hmc.
  rewrite (Hmetrics c Hc) in Hmc. injection Hmc as <-.
  eexists. split; [exact Hm|]. cbv zeta.
  cbn [support precision recall specificity].
  rewrite (cm_row_sum L pairs HLnd HpL), (cm_column_sum L pairs HLnd HtL).
  unfold cm. rewrite (cm_total L pairs HLnd HtL HpL).
  fold pairs.
  rewrite (count_fst_zip (Z.of_nat c) y_true_classes y_pred_classes Hlen
            : length (filter _ pairs) = _).
  rewrite (count_snd_zip (Z.of_nat c) y_true_classes y_pred_classes Hlen
            : length (filter _ pairs) = _).
  replace (length pairs) with (length y_true_classes)
    by (unfold pairs; rewrite length_zip_with; lia).
  set (hits := count_pairs (Z.of_nat c) (Z.of_nat c) pairs).
  set (actual := Z.of_nat (length (filter (λ t, t = Z.of_nat c) y_true_classes))).
  set (predicted := Z.of_nat (length (filter (λ p, p = Z.of_nat c) y_pred_classes))).
  set (n := Z.of_nat (length y_true_classes)).
  replace (hits + (predicted - hits))%Z with predicted by lia.
  replace (hits + (actual - hits))%Z with actual by lia.
  replace (n - hits - (predicted - hits) - (actual - hits) + (predicted - hits))%Z
    with (n - actual)%Z by lia.
  replace (n - hits - (predicted - hits) - (actual - hits))%Z
    with (n - actual - predicted + hits)%Z by lia.
  repeat split; reflexivity.
Qed.

(** The theorem at twenty samples over two classes, read at the second
    class. *)
Lemma per_class_metrics_are_count_ratios_witness :
  ∃ (per_class : gmap string class_metrics) (m : class_metrics),
    calculate_per_class_metrics (init ["healthy"; "diseased"])
      (Indices MetricsDemo.twenty_true) (Indices MetricsDemo.twenty_pred)
      = Ok per_class ∧
    per_class !! "diseased" = Some m ∧
    support m = 10%Z ∧
    (precision m == 9 # 11)%Q ∧ (recall m == 9 # 10)%Q ∧
    (specificity m == 8 # 10)%Q.
Proof.
  assert (NoDup (class_names (init ["healthy"; "diseased"]))) as Hnd.
  { cbn. apply NoDup_cons_2; [|apply NoDup_singleton].
    rewrite list_elem_of_singleton. discriminate. }
  destruct (per_class_metrics_are_count_ratios (init ["healthy"; "diseased"])
              (Indices MetricsDemo.twenty_true) (Indices MetricsDemo.twenty_pred)
              MetricsDemo.twenty_true MetricsDemo.twenty_pred
              eq_refl eq_refl eq_refl ltac:(vm_compute; reflexivity) Hnd)
    as (per_class & Hrun & Hall).
  destruct (Hall 1%nat "diseased" eq_refl) as (m & Hm & Hs & Hp & Hr & Hsp).
  exists per_class, m. split; [exact Hrun|]. split; [exact Hm|].
  split; [rewrite Hs; vm_compute; reflexivity|].
  split; [rewrite Hp; vm_compute; reflexivity|].
  split; [rewrite Hr; vm_compute; reflexivity|].
  rewrite Hsp; vm_compute; reflexivity.
Defined.

End PerClassProps.

(* ===================================================================== *)
(** * Properties of analyze_model_errors *)
(* ===================================================================== *)

Module ErrorAnalysisProps.
Import Np Evaluation ErrorAnalysis NpProps EvaluationProps.

(** ** The misclassified samples *)

Lemma zip_columns {A B} (a : list A) (b : list B) :
  length a = length b → a = map fst (zip a b) ∧ b = map snd (zip a b).
Proof.
  revert b. induction a as [|x a IH]; intros [|y b] Hlen; try discriminate;
    [split; reflexivity|].
  destruct (IH b) as [Ha Hb]; [cbn in Hlen; lia|].
  cbn. split; f_equal; assumption.
Qed.

Lemma not_equal_same_length (a b : list Z) :
  length a = length b →
  not_equal a b = Ok (map (λ tp : Z * Z, negb (tp.1 =? tp.2)%Z) (zip a b)).
Proof.
  intros Hlen. unfold not_equal. rewrite Hlen, Nat.eqb_refl. f_equal.
  revert b Hlen. induction a as [|x a IH]; intros [|y b] Hlen; try discriminate;
    [reflexivity|].
  cbn. rewrite IH by (cbn in Hlen; lia). reflexivity.
Qed.



Lemma index_pairs_elem (n i j : nat) :
  (i, j) ∈ index_pairs n ↔ (i < n)%nat ∧ (j < n)%nat.
Proof.
  unfold index_pairs. rewrite list_elem_of_bind. split.
  - intros (i' & Hj & Hi). apply list_elem_of_fmap in Hj as (j' & [= -> ->] & Hj).
    apply elem_of_seq in Hi, Hj. lia.
  - intros [Hi Hj]. exists i. split.
    + apply list_elem_of_fmap. exists j. split; [reflexivity|].
      apply elem_of_seq. lia.
    + apply elem_of_seq. lia.
Qed.

(** What [analyze_model_errors] computes for two label sequences of one
    length: everything but the collecting loop is fixed by the table of
    (true, predicted) pairs. *)
Lemma analyze_run (y_true y_pred : label_array) (names : list string)
    (y_true_classes y_pred_classes : list Z) :
  class_indices y_true = Ok y_true_classes →
  class_indices y_pred = Ok y_pred_classes →
  length y_true_classes = length y_pred_classes →
  let wrong_bit := λ tp : Z * Z, negb (tp.1 =? tp.2)%Z in
  let all := zip y_true_classes y_pred_classes in
  let wrong := List.filter wrong_bit all in
  let labels := unique_labels (map fst wrong) (map snd wrong) in
  analyze_model_errors y_true y_pred names =
  (common ← collect_errors
              (map (λ a, map (λ b, count_pairs a b wrong) labels) labels)
              names (index_pairs (length names));
   Ok {| total_errors := count_true (map wrong_bit all);
         error_rate := mean_bool (map wrong_bit all);
         misclassified_indices := where_true (map wrong_bit all);
         common_errors := take 10 (sort_by_count common) |}).
Proof.
  intros Ht Hp Hlen wrong_bit all wrong labels.
  unfold analyze_model_errors. rewrite Ht, Hp. cbn [mbind result_bind Py.bind].
  rewrite not_equal_same_length by exact Hlen. cbn [mbind result_bind Py.bind].
  fold all. fold wrong_bit.
  destruct (zip_columns y_true_classes y_pred_classes Hlen) as [E1 E2].
  fold all in E1, E2.
  rewrite E1 at 1. rewrite mask_select_map. cbn [mbind result_bind Py.bind].
  rewrite E2 at 1. rewrite mask_select_map. cbn [mbind result_bind Py.bind].
  fold wrong. unfold confusion_matrix. rewrite !length_map, Nat.eqb_refl.
  cbn [mbind result_bind Py.bind]. fold labels.
  change zip with (zip_with (@pair Z Z)). rewrite zip_with_map.
  rewrite (map_ext (λ x : Z * Z, (x.1, x.2)) id) by (intros []; reflexivity).
  rewrite map_id. reflexivity.
Qed.



(** ** Positions of the errors *)

Lemma where_from_spec (mask : list bool) (s : nat) :
  let found := omap (λ ib : nat * bool, if ib.2 then Some ib.1 else None)
                 (zip (seq s (length mask)) mask) in
  (∀ k, k ∈ found ↔ (s ≤ k)%nat ∧ mask !! (k - s)%nat = Some true) ∧
  length found = length (filter (λ b : bool, b = true) mask) ∧
  StronglySorted lt found.
Proof.
  revert s. induction mask as [|b mask IH]; intros s found.
  - subst found. cbn. split; [|split; [reflexivity|constructor]].
    intros k. split; [intros H; inversion H|intros [_ H]; discriminate].
  - destruct (IH (S s)) as (Helem & Hlen & Hsorted).
    cbv zeta in Helem, Hlen, Hsorted.
    assert (∀ k, k ∈ omap (λ ib : nat * bool, if ib.2 then Some ib.1 else None)
                       (zip (seq (S s) (length mask)) mask) → (s < k)%nat) as Hlt.
    { intros k Hk. apply Helem in Hk. lia. }
    subst found. rewrite filter_cons.
    destruct b; cbn [length seq zip zip_with omap list_omap snd fst].
    + rewrite decide_True by reflexivity. split; [|split].
      * intros k. rewrite elem_of_cons, Helem. split.
        -- intros [->|[Hk Hm]].
           ++ rewrite Nat.sub_diag. split; [lia|reflexivity].
           ++ split; [lia|]. replace (k - s)%nat with (S (k - S s)) by lia. exact Hm.
        -- intros [Hk Hm]. destruct (decide (k = s)) as [->|Hne]; [left; reflexivity|].
           right. split; [lia|].
           replace (k - s)%nat with (S (k - S s)) in Hm by lia. exact Hm.
      * cbn [length]. rewrite Hlen. reflexivity.
      * constructor; [exact Hsorted|]. apply Forall_forall. exact Hlt.
    + rewrite decide_False by discriminate. split; [|split; assumption].
      intros k. rewrite Helem. split.
      * intros [Hk Hm]. split; [lia|].
        replace (k - s)%nat with (S (k - S s)) by lia. exact Hm.
      * intros [Hk Hm]. destruct (decide (k = s)) as [->|Hne].
        -- rewrite Nat.sub_diag in Hm. discriminate.
        -- split; [lia|]. replace (k - s)%nat with (S (k - S s)) in Hm by lia.
           exact Hm.
Qed.

Lemma wrong_bit_lookup (y_true_classes y_pred_classes : list Z) (k : nat) :
  map (λ tp : Z * Z, negb (tp.1 =? tp.2)%Z) (zip y_true_classes y_pred_classes) !! k
    = Some true
  ↔ ∃ t p, y_true_classes !! k = Some t ∧ y_pred_classes !! k = Some p ∧ t ≠ p.
Proof.
  rewrite list_lookup_fmap. change zip with (zip_with (@pair Z Z)).
  rewrite lookup_zip_with.
  destruct (y_true_classes !! k) as [t|]; cbn; [|split; [discriminate|intros (?&?&?&_); discriminate]].
  destruct (y_pred_classes !! k) as [p|]; cbn; [|split; [discriminate|intros (?&?&_&?&_); discriminate]].
  destruct (Z.eqb_spec t p) as [->|Hne]; cbn.
  - split; [discriminate|]. intros (t' & p' & [= <-] & [= <-] & Hne). contradiction.
  - split; [|reflexivity]. intros _. exists t, p. auto.
Qed.

(** X14. Whenever [analyze_model_errors] returns for a non-empty batch, the
    reported indices are exactly the positions where the two label
    sequences differ, in increasing order; [total_errors] is their number
    and [error_rate] that number over the batch size. *)
Theorem analyze_model_errors_counts (y_true y_pred : label_array)
    (names : list string) (y_true_classes y_pred_classes : list Z)
    (r : error_analysis) :
  class_indices y_true = Ok y_true_classes →
  class_indices y_pred = Ok y_pred_classes →
  length y_true_classes = length y_pred_classes →
  y_true_classes ≠ [] →
  analyze_model_errors y_true y_pred names = Ok r →
  (∀ k, k ∈ misclassified_indices r ↔
        ∃ t p, y_true_classes !! k = Some t ∧ y_pred_classes !! k = Some p ∧ t ≠ p) ∧
  StronglySorted lt (misclassified_indices r) ∧
  total_errors r = Z.of_nat (length (misclassified_indices r)) ∧
  error_rate r
  = (inject_Z (total_errors r) / inject_Z (Z.of_nat (length y_true_classes)))%Q.
Proof.
  intros Ht Hp Hlen Hne Hrun.
  rewrite (analyze_run y_true y_pred names _ _ Ht Hp Hlen) in Hrun. cbv zeta in Hrun.
  unfold mbind, result_bind in Hrun.
  destruct (collect_errors _ names _) as [common|e]; cbn [Py.bind] in Hrun;
    [|discriminate].
  injection Hrun as <-.
  cbn [misclassified_indices total_errors error_rate].
  set (mask := map (λ tp : Z * Z, negb (tp.1 =? tp.2)%Z)
                 (zip y_true_classes y_pred_classes)).
  destruct (where_from_spec mask 0) as (Helem & Hcount & Hsorted).
  fold (where_true mask) in Helem, Hcount, Hsorted.
  split; [|split; [exact Hsorted|split]].
  - intros k. rewrite Helem, Nat.sub_0_r, <- wrong_bit_lookup. fold mask.
    split; [tauto|]. intros H. split; [lia|exact H].
  - unfold count_true. rewrite Hcount. reflexivity.
  - unfold mean_bool, count_true, Qnat. do 3 f_equal.
    unfold mask. rewrite length_map, length_zip_with. lia.
Qed.

(** The theorem at four samples of which the second and fourth are wrong. *)
Lemma analyze_model_errors_counts_witness :
  ∃ r : error_analysis,
    analyze_model_errors (Indices [0; 0; 1; 1]%Z) (Indices [0; 1; 1; 0]%Z)
      ["healthy"; "diseased"] = Ok r ∧
    (∀ k, k ∈ misclassified_indices r ↔
          ∃ t p, [0; 0; 1; 1]%Z !! k = Some t ∧ [0; 1; 1; 0]%Z !! k = Some p ∧ t ≠ p) ∧
    StronglySorted lt (misclassified_indices r) ∧
    total_errors r = Z.of_nat (length (misclassified_indices r)) ∧
    error_rate r
    = (inject_Z (total_errors r) / inject_Z (Z.of_nat (length [0; 0; 1; 1]%Z)))%Q.
Proof.
  eexists. split; [vm_compute; reflexivity|].
  eapply (analyze_model_errors_counts (Indices [0; 0; 1; 1]%Z)
            (Indices [0; 1; 1; 0]%Z) ["healthy"; "diseased"]).
  - reflexivity.
  - reflexivity.
  - reflexivity.
  - discriminate.
  - vm_compute. reflexivity.
Defined.

(** ** The list of common errors *)

Lemma insert_by_count_perm (x : common_error) (l : list common_error) :
  insert_by_count x l ≡ₚ x :: l.
Proof.
  induction l as [|y l IH]; [reflexivity|]. cbn [insert_by_count].
  destruct (count x <? count y)%Z; [|reflexivity].
  rewrite IH. apply Permutation_swap.
Qed.

Lemma sort_by_count_perm (l : list common_error) : sort_by_count l ≡ₚ l.
Proof.
  induction l as [|x l IH]; [reflexivity|].
  cbn [sort_by_count foldr]. fold (sort_by_count l).
  rewrite insert_by_count_perm, IH. reflexivity.
Qed.

Lemma insert_by_count_sorted (x : common_error) (l : list common_error) :
  StronglySorted (λ a b, (count b ≤ count a)%Z) l →
  StronglySorted (λ a b, (count b ≤ count a)%Z) (insert_by_count x l).
Proof.
  induction 1 as [|y l Hl IH Hy]; [repeat constructor|].
  cbn [insert_by_count]. destruct (Z.ltb_spec (count x) (count y)) as [Hlt|Hge].
  - constructor; [exact IH|].
    apply Forall_forall. intros z Hz.
    apply (elem_of_Permutation_proper _ _ _ (insert_by_count_perm x l)) in Hz.
    apply elem_of_cons in Hz as [->|Hz]; [lia|].
    rewrite Forall_forall in Hy. apply Hy, Hz.
  - constructor; [constructor; assumption|].
    constructor; [exact Hge|].
    apply Forall_forall. intros z Hz. rewrite Forall_forall in Hy.
    specialize (Hy z Hz). lia.
Qed.

Lemma sort_by_count_sorted (l : list common_error) :
  StronglySorted (λ a b, (count b ≤ count a)%Z) (sort_by_count l).
Proof.
  induction l as [|x l IH]; [constructor|].
  cbn [sort_by_count foldr]. apply insert_by_count_sorted, IH.
Qed.

Lemma strongly_sorted_lookup {A} (R : A → A → Prop) (l : list A) (a b : nat) (x y : A) :
  StronglySorted R l → (a < b)%nat → l !! a = Some x → l !! b = Some y → R x y.
Proof.
  intros Hs. revert a b. induction Hs as [|z l Hl IH Hz]; intros a b Hab Ha Hb.
  { discriminate. }
  destruct b as [|b]; [lia|]. cbn in Hb. destruct a as [|a].
  - cbn in Ha. injection Ha as ->. rewrite Forall_forall in Hz.
    eapply Hz, list_elem_of_lookup_2, Hb.
  - cbn in Ha. eapply (IH a b); [lia|eassumption..].
Qed.

(** What the collecting loop returns: one entry per visited off-diagonal
    pair with a positive matrix entry, and nothing else. *)
Lemma collect_errors_entries (cm : matrix) (names : list string)
    (pairs : list (nat * nat)) (r : list common_error) :
  collect_errors cm names pairs = Ok r →
  ∀ e, e ∈ r ↔
       ∃ i j, (i, j) ∈ pairs ∧ i ≠ j ∧
              names !! i = Some (true_class e) ∧
              names !! j = Some (predicted_class e) ∧
              getitem2 cm i j = Ok (count e) ∧ (0 < count e)%Z.
Proof.
  revert r. induction pairs as [|[i j] pairs IH]; intros r Hr e.
  { injection Hr as <-. split; [intros H; inversion H|].
    intros (i & j & H & _). inversion H. }
  cbn [collect_errors] in Hr.
  assert (∀ more : list common_error,
            (e ∈ more ↔
             ∃ i' j', (i', j') ∈ pairs ∧ i' ≠ j' ∧
                      names !! i' = Some (true_class e) ∧
                      names !! j' = Some (predicted_class e) ∧
                      getitem2 cm i' j' = Ok (count e) ∧ (0 < count e)%Z) →
            ¬ (i ≠ j ∧ names !! i = Some (true_class e) ∧
               names !! j = Some (predicted_class e) ∧
               getitem2 cm i j = Ok (count e) ∧ (0 < count e)%Z) →
            (e ∈ more ↔
             ∃ i' j', (i', j') ∈ (i, j) :: pairs ∧ i' ≠ j' ∧
                      names !! i' = Some (true_class e) ∧
                      names !! j' = Some (predicted_class e) ∧
                      getitem2 cm i' j' = Ok (count e) ∧ (0 < count e)%Z)) as Hskip.
  { intros more Hmore Hnot. rewrite Hmore. split.
    - intros (i' & j' & Hin & Hrest). exists i', j'. split; [right; exact Hin|exact Hrest].
    - intros (i' & j' & Hin & Hrest). exists i', j'.
      apply elem_of_cons in Hin as [[= -> ->]|Hin]; [contradiction|].
      split; assumption. }
  destruct (Nat.eqb_spec i j) as [->|Hne].
  { apply Hskip; [apply IH, Hr|]. intros [Hne _]. contradiction. }
  unfold mbind, result_bind in Hr.
  destruct (getitem2 cm i j) as [c|] eqn:Hc; cbn [Py.bind] in Hr; [|discriminate].
  destruct (Z.ltb_spec 0 c) as [Hpos|Hnpos].
  - unfold getitem in Hr.
    destruct (names !! i) as [t|] eqn:Ht; cbn [Py.bind] in Hr; [|discriminate].
    destruct (names !! j) as [p|] eqn:Hp; cbn [Py.bind] in Hr; [|discriminate].
    destruct (collect_errors cm names pairs) as [more|] eqn:Hmore;
      cbn [Py.bind] in Hr; [|discriminate].
    injection Hr as <-. rewrite elem_of_cons, (IH more eq_refl e). split.
    + intros [->|(i' & j' & Hin & Hrest)].
      * exists i, j. cbn. split; [left; reflexivity|].
        repeat split; assumption.
      * exists i', j'. split; [right; exact Hin|exact Hrest].
    + intros (i' & j' & Hin & Hne' & Hti & Hpj & Hcnt & Hpos').
      apply elem_of_cons in Hin as [[= -> ->]|Hin].
      * left. destruct e as [t' p' c']. cbn in *. congruence.
      * right. exists i', j'. repeat split; assumption.
  - apply Hskip; [apply IH, Hr|].
    intros (_ & _ & _ & Hcnt & Hpos'). injection Hcnt as ->. lia.
Qed.

Lemma collect_errors_returns (cm : matrix) (names : list string)
    (pairs : list (nat * nat)) :
  (∀ i j, (i, j) ∈ pairs →
     is_Some (names !! i) ∧ is_Some (names !! j) ∧ ∃ c, getitem2 cm i j = Ok c) →
  ∃ r, collect_errors cm names pairs = Ok r.
Proof.
  induction pairs as [|[i j] pairs IH]; intros Hok; [exists []; reflexivity|].
  destruct IH as [more Hmore]. { intros i' j' Hin. apply Hok. right. exact Hin. }
  destruct (Hok i j ltac:(left)) as ([t Ht] & [p Hp] & c & Hc).
  cbn [collect_errors]. destruct (i =? j)%nat; [eauto|].
  rewrite Hc. cbn [mbind result_bind Py.bind].
  destruct (0 <? c)%Z; [|eauto].
  unfold getitem. rewrite Ht, Hp. cbn [mbind result_bind Py.bind].
  rewrite Hmore. cbn. eauto.
Qed.

(** An off-diagonal count is the same over all samples and over the
    misclassified ones. *)
Lemma count_pairs_wrong (a b : Z) (all : list (Z * Z)) :
  a ≠ b →
  count_pairs a b (List.filter (λ tp : Z * Z, negb (tp.1 =? tp.2)%Z) all)
  = count_pairs a b all.
Proof.
  intros Hab. unfold count_pairs. f_equal.
  induction all as [|[t p] all IH]; [reflexivity|].
  cbn [List.filter fst snd]. rewrite (filter_cons _ (t, p) all). cbn [fst snd].
  destruct (Z.eqb_spec t p) as [->|Hne]; cbn [negb].
  - rewrite decide_False by (intros [-> ->]; contradiction). exact IH.
  - rewrite filter_cons. cbn [fst snd].
    destruct (decide (t = a ∧ p = b)); cbn [length]; rewrite IH; reflexivity.
Qed.

Lemma error_matrix_entry (n : nat) (wrong : list (Z * Z)) (i j : nat) :
  (i < n)%nat → (j < n)%nat →
  let labels := map Z.of_nat (seq 0 n) in
  getitem2 (map (λ a, map (λ b, count_pairs a b wrong) labels) labels) i j
  = Ok (count_pairs (Z.of_nat i) (Z.of_nat j) wrong).
Proof.
  intros Hi Hj labels. unfold getitem2, getitem, labels.
  rewrite !list_lookup_fmap, lookup_seq_lt by exact Hi.
  cbn [fmap option_fmap option_map mbind result_bind Py.bind].
  rewrite !list_lookup_fmap, lookup_seq_lt by exact Hj. reflexivity.
Qed.

(** X15. When the labels that occur among the misclassified samples are exactly
    0, ..., n-1 for the n class names, [analyze_model_errors] returns; its
    [common_errors] has at most 10 entries in order of decreasing count;
    every entry names two different classes and carries the number of
    samples of the first class predicted as the second, which is positive;
    and when fewer than 10 entries are reported, every such confusion is
    among them. *)
Theorem analyze_model_errors_common_errors (y_true y_pred : label_array)
    (names : list string) (y_true_classes y_pred_classes : list Z) :
  class_indices y_true = Ok y_true_classes →
  class_indices y_pred = Ok y_pred_classes →
  length y_true_classes = length y_pred_classes →
  let all := zip y_true_classes y_pred_classes in
  let wrong := List.filter (λ tp : Z * Z, negb (tp.1 =? tp.2)%Z) all in
  unique_labels (map fst wrong) (map snd wrong)
    = map Z.of_nat (seq 0 (length names)) →
  ∃ r : error_analysis,
    analyze_model_errors y_true y_pred names = Ok r ∧
    (length (common_errors r) ≤ 10)%nat ∧
    (∀ a b x y, (a < b)%nat →
       common_errors r !! a = Some x → common_errors r !! b = Some y →
       (count y ≤ count x)%Z) ∧
    (∀ e, e ∈ common_errors r →
       ∃ i j, i ≠ j ∧
              names !! i = Some (true_class e) ∧
              names !! j = Some (predicted_class e) ∧
              count e = count_pairs (Z.of_nat i) (Z.of_nat j) all ∧
              (0 < count e)%Z) ∧
    ((length (common_errors r) < 10)%nat →
     ∀ i j t p, i ≠ j → names !! i = Some t → names !! j = Some p →
       (0 < count_pairs (Z.of_nat i) (Z.of_nat j) all)%Z →
       {| true_class := t; predicted_class := p;
          count := count_pairs (Z.of_nat i) (Z.of_nat j) all |} ∈ common_errors r).
Proof.
  intros Ht Hp Hlen all wrong HL.
  rewrite (analyze_run y_true y_pred names _ _ Ht Hp Hlen). cbv zeta.
  fold all. fold wrong. rewrite HL.
  set (n := length names) in *.
  set (cm := map (λ a, map (λ b, count_pairs a b wrong) (map Z.of_nat (seq 0 n)))
               (map Z.of_nat (seq 0 n))).
  assert (∀ i j, (i < n)%nat → (j < n)%nat →
            getitem2 cm i j = Ok (count_pairs (Z.of_nat i) (Z.of_nat j) wrong)) as Hcm.
  { intros i j Hi Hj. apply error_matrix_entry; assumption. }
  destruct (collect_errors_returns cm names (index_pairs n)) as [common Hcommon].
  { intros i j Hin. apply index_pairs_elem in Hin as [Hi Hj].
    split; [apply lookup_lt_is_Some_2; exact Hi|].
    split; [apply lookup_lt_is_Some_2; exact Hj|].
    eexists. apply Hcm; assumption. }
  rewrite Hcommon. cbn [mbind result_bind Py.bind].
  eexists. split; [reflexivity|]. cbn [common_errors].
  pose proof (collect_errors_entries cm names (index_pairs n) common Hcommon) as Hentries.
  assert (∀ e, e ∈ sort_by_count common ↔ e ∈ common) as Hsort.
  { intros e. apply elem_of_Permutation_proper, sort_by_count_perm. }
  split; [rewrite length_take; lia|]. split; [|split].
  - intros a b x y Hab Ha Hb.
    apply lookup_take_Some in Ha as [Ha _]. apply lookup_take_Some in Hb as [Hb _].
    apply (strongly_sorted_lookup _ _ a b x y (sort_by_count_sorted common) Hab Ha Hb).
  - intros e He. apply elem_of_take in He as (k & He & _).
    apply list_elem_of_lookup_2, Hsort, Hentries in He
      as (i & j & Hin & Hne & Hi & Hj & Hcnt & Hpos).
    apply index_pairs_elem in Hin as [Hin Hjn].
    rewrite (Hcm i j Hin Hjn) in Hcnt. injection Hcnt as Hcnt.
    exists i, j. repeat split; try assumption.
    rewrite <- Hcnt. apply count_pairs_wrong. lia.
  - intros Hshort i j t p Hne Hi Hj Hpos.
    rewrite length_take in Hshort. rewrite take_ge by lia.
    apply Hsort, Hentries. exists i, j. cbn [true_class predicted_class count].
    pose proof (lookup_lt_Some _ _ _ Hi) as Hin.
    pose proof (lookup_lt_Some _ _ _ Hj) as Hjn.
    split; [apply index_pairs_elem; split; assumption|].
    repeat split; try assumption.
    rewrite (Hcm i j Hin Hjn). f_equal. apply count_pairs_wrong. lia.
Qed.

(** The theorem at seven samples over three classes, all misclassified. *)
Lemma analyze_model_errors_common_errors_witness :
  let y_true_classes := [0; 0; 1; 1; 2; 2; 2]%Z in
  let y_pred_classes := [1; 1; 2; 0; 0; 0; 0]%Z in
  let names := ["healthy"; "rust"; "blight"] in
  let all := zip y_true_classes y_pred_classes in
  ∃ r : error_analysis,
    analyze_model_errors (Indices y_true_classes) (Indices y_pred_classes) names
      = Ok r ∧
    (length (common_errors r) ≤ 10)%nat ∧
    (∀ a b x y, (a < b)%nat →
       common_errors r !! a = Some x → common_errors r !! b = Some y →
       (count y ≤ count x)%Z) ∧
    (∀ e, e ∈ common_errors r →
       ∃ i j, i ≠ j ∧
              names !! i = Some (true_class e) ∧
              names !! j = Some (predicted_class e) ∧
              count e = count_pairs (Z.of_nat i) (Z.of_nat j) all ∧
              (0 < count e)%Z) ∧
    ((length (common_errors r) < 10)%nat →
     ∀ i j t p, i ≠ j → names !! i = Some t → names !! j = Some p →
       (0 < count_pairs (Z.of_nat i) (Z.of_nat j) all)%Z →
       {| true_class := t; predicted_class := p;
          count := count_pairs (Z.of_nat i) (Z.of_nat j) all |} ∈ common_errors r).
Proof.
  cbv zeta.
  apply (analyze_model_errors_common_errors
           (Indices [0; 0; 1; 1; 2; 2; 2]%Z) (Indices [1; 1; 2; 0; 0; 0; 0]%Z)
           ["healthy"; "rust"; "blight"]
           [0; 0; 1; 1; 2; 2; 2]%Z [1; 1; 2; 0; 0; 0; 0]%Z).
  - reflexivity.
  - reflexivity.
  - reflexivity.
  - vm_compute. reflexivity.
Defined.

End ErrorAnalysisProps.

(* ===================================================================== *)
(** * One-hot labels and index labels *)
(* ===================================================================== *)

Module EncodingProps.
Import Np Evaluation ErrorAnalysis OneHot NpProps ModelLifecycleProps.

Lemma one_hot_lookup (n c j : nat) :
  (j < n)%nat →
  one_hot n c !! j = Some (if (j =? c)%nat then 1%Q else 0%Q).
Proof.
  intros Hj. unfold one_hot. rewrite list_lookup_fmap, lookup_seq_lt by exact Hj.
  reflexivity.
Qed.

(** [np.argmax] undoes one-hot encoding. *)
Lemma argmax_one_hot (n c : nat) : (c < n)%nat → argmax (one_hot n c) = Ok c.
Proof.
  intros Hc. apply (argmax_is_first_max _ c 1%Q).
  - rewrite one_hot_lookup by exact Hc. rewrite Nat.eqb_refl. reflexivity.
  - intros j p Hj. pose proof (lookup_lt_Some _ _ _ Hj) as Hlt.
    unfold one_hot in Hlt. rewrite length_fmap, length_seq in Hlt.
    rewrite one_hot_lookup in Hj by exact Hlt. injection Hj as <-.
    destruct (j =? c)%nat; discriminate.
  - intros j p Hjc Hj. rewrite one_hot_lookup in Hj by lia. injection Hj as <-.
    destruct (Nat.eqb_spec j c); [lia|reflexivity].
Qed.

Lemma class_indices_one_hot (n : nat) (labels : list nat) :
  Forall (λ c, (c < n)%nat) labels →
  class_indices (Categorical (map (one_hot n) labels)) = Ok (map Z.of_nat labels).
Proof.
  intros Hall. unfold class_indices. cbn [ndim Nat.ltb Nat.leb argmax_axis1].
  unfold argmax_rows.
  induction Hall as [|c labels Hc _ IH]; [reflexivity|].
  cbn [map mapM]. rewrite argmax_one_hot by exact Hc. cbn. rewrite IH. reflexivity.
Qed.

(** X16. True labels may be handed over one-hot encoded or as class indices: the
    per-class metrics, the error analysis, the calibration and (without
    probabilities) [evaluate_predictions] come out the same. *)
Theorem one_hot_labels_equal_index_labels {S : Sklearn} (self : ModelEvaluator)
    (n : nat) (labels : list nat) (y_pred : label_array)
    (y_pred_proba : list (list Q)) (n_bins : nat) :
  Forall (λ c, (c < n)%nat) labels →
  let one_hot_labels := Categorical (map (one_hot n) labels) in
  let index_labels := Indices (map Z.of_nat labels) in
  calculate_per_class_metrics self one_hot_labels y_pred
    = calculate_per_class_metrics self index_labels y_pred ∧
  analyze_model_errors one_hot_labels y_pred (class_names self)
    = analyze_model_errors index_labels y_pred (class_names self) ∧
  calculate_confidence_calibration one_hot_labels y_pred_proba n_bins
    = calculate_confidence_calibration index_labels y_pred_proba n_bins ∧
  evaluate_predictions self one_hot_labels y_pred None
    = evaluate_predictions self index_labels y_pred None.
Proof.
  intros Hall one_hot_labels index_labels.
  assert (class_indices one_hot_labels = class_indices index_labels) as H
    by (apply class_indices_one_hot, Hall).
  unfold calculate_per_class_metrics, analyze_model_errors,
    calculate_confidence_calibration, evaluate_predictions.
  rewrite H. repeat split; reflexivity.
Qed.

Lemma one_hot_labels_equal_index_labels_witness :
  calculate_per_class_metrics (init ["healthy"; "diseased"])
    (Categorical (map (one_hot 2) [0; 1; 1; 0]%nat)) (Indices [0; 1; 0; 0]%Z)
  = calculate_per_class_metrics (init ["healthy"; "diseased"])
      (Indices [0; 1; 1; 0]%Z) (Indices [0; 1; 0; 0]%Z).
Proof.
  assert (Forall (λ c, (c < 2)%nat) [0; 1; 1; 0]%nat) as Hall
    by (repeat constructor).
  exact (proj1 (one_hot_labels_equal_index_labels (S := ConstSklearn.const_sklearn)
                  (init ["healthy"; "diseased"]) 2 [0; 1; 1; 0]%nat
                  (Indices [0; 1; 0; 0]%Z) CalibrationDemo.proba 10 Hall)).
Defined.

End EncodingProps.

(* ===================================================================== *)
(** * Properties of calculate_roc_curves *)
(* ===================================================================== *)

Module RocProps.
Import Np Evaluation NpProps.

Section with_sklearn.
Context {S : Sklearn}.



End with_sklearn.


End RocProps.

(* ===================================================================== *)
(** * Properties of the voice assistant *)
(* ===================================================================== *)

Module VoiceAssistantProps.
Import VoiceAssistant.

Lemma text_eqb_true (a b : text) : text_eqb a b = true ↔ a = b.
Proof. unfold text_eqb. apply bool_decide_eq_true. Qed.


(** ** Blank strings *)

Lemma lstrip_nil (s : text) : lstrip s = [] ↔ forallb isspace s = true.
Proof.
  induction s as [|c s IH]; [split; reflexivity|].
  cbn [lstrip forallb]. destruct (isspace c); cbn.
  - exact IH.
  - split; discriminate.
Qed.

Lemma lstrip_head (s : text) (c : N) (t : text) :
  lstrip s = c :: t → isspace c = false.
Proof.
  induction s as [|d s IH]; [discriminate|]. cbn [lstrip].
  destruct (isspace d) eqn:E; [exact IH|]. intros [= -> _]. exact E.
Qed.

(** [s.strip()] is empty exactly when every character of [s] is white
    space. *)
Lemma strip_nil (s : text) : strip s = [] ↔ forallb isspace s = true.
Proof.
  unfold strip. rewrite <- lstrip_nil. split.
  - intros H. apply (f_equal reverse) in H. rewrite reverse_involutive in H.
    cbn in H. apply lstrip_nil in H.
    destruct (lstrip s) as [|c t] eqn:E; [reflexivity|]. exfalso.
    apply lstrip_head in E.
    rewrite forallb_forall in H. specialize (H c).
    rewrite H in E; [discriminate|].
    apply list_elem_of_In, elem_of_reverse. left.
  - intros ->. reflexivity.
Qed.

Section with_services.
Context {S : Services}.
Variable context : text → text → text → text.

(** ** translate_text *)


Lemma translate_text_ok (self : VoiceAssistant) (t src tgt : text) :
  ∃ out, translate_text self t src tgt = Ok out.
Proof.
  unfold translate_text. destruct (text_eqb src tgt); [eauto|].
  destruct (requests_post _ _ _) as [response|e];
    cbn [try_except mbind result_bind Py.bind]; [|eauto].
  destruct (status_code response =? 200)%Z; [|cbn; eauto].
  destruct (json response) as [body|e];
    cbn [try_except mbind result_bind Py.bind]; [|eauto].
  unfold dict_get. destruct (body !! "translatedText"); cbn; eauto.
Qed.

Lemma translate_text_unavailable (self : VoiceAssistant) (t src tgt : text) :
  (∀ url data timeout r,
     requests_post url data timeout = Ok r → status_code r ≠ 200%Z) →
  translate_text self t src tgt = Ok t.
Proof.
  intros Hdown. unfold translate_text. destruct (text_eqb src tgt); [reflexivity|].
  destruct (requests_post _ _ _) as [response|e] eqn:Hpost;
    cbn [try_except mbind result_bind Py.bind]; [|reflexivity].
  destruct (Z.eqb_spec (status_code response) 200) as [Hst|Hst]; [|reflexivity].
  exfalso. exact (Hdown _ _ _ _ Hpost Hst).
Qed.

(** ** get_sample_questions *)

Lemma mapM_translate (self : VoiceAssistant) (src tgt : text) (l : list text) :
  ∃ qs, Py.mapM (λ q, translate_text self q src tgt) l = Ok qs ∧
        length qs = length l.
Proof.
  induction l as [|q l (qs & IH & Hlen)]; [exists []; split; reflexivity|].
  destruct (translate_text_ok self q src tgt) as (out & Hout).
  exists (out :: qs). cbn [Py.mapM]. rewrite Hout. cbn [Py.bind].
  rewrite IH. cbn. split; [reflexivity|]. cbn. congruence.
Qed.

Lemma mapM_translate_unavailable (self : VoiceAssistant) (src tgt : text)
    (l : list text) :
  (∀ url data timeout r,
     requests_post url data timeout = Ok r → status_code r ≠ 200%Z) →
  Py.mapM (λ q, translate_text self q src tgt) l = Ok l.
Proof.
  intros Hdown. induction l as [|q l IH]; [reflexivity|].
  cbn [Py.mapM]. rewrite (translate_text_unavailable self q src tgt Hdown).
  cbn [Py.bind]. rewrite IH. reflexivity.
Qed.

(** X19. [get_sample_questions] never raises and always returns eight questions,
    whatever the language code and whatever the translation service does. *)
Theorem get_sample_questions_eight (self : VoiceAssistant) (language : text) :
  ∃ qs, get_sample_questions self language = Ok qs ∧ length qs = 8.
Proof.
  unfold get_sample_questions.
  destruct (text_eqb language (lit "en")); [eexists; split; reflexivity|].
  destruct (mapM_translate self (lit "en") language english_questions)
    as (qs & -> & Hlen).
  exists qs. split; [reflexivity|]. rewrite Hlen. reflexivity.
Qed.

(** X20. When the translation service never answers 200, [get_sample_questions]
    returns the English questions for every language code. *)
Theorem get_sample_questions_falls_back_to_english
    (self : VoiceAssistant) (language : text) :
  (∀ url data timeout r,
     requests_post url data timeout = Ok r → status_code r ≠ 200%Z) →
  get_sample_questions self language = Ok english_questions.
Proof.
  intros Hdown. unfold get_sample_questions.
  destruct (text_eqb language (lit "en")); [reflexivity|].
  apply mapM_translate_unavailable, Hdown.
Qed.

(** ** get_agriculture_response *)

Lemma get_agriculture_response_ok (self : VoiceAssistant)
    (query language user_location season : text) :
  ∃ ai, get_agriculture_response context self query language user_location season
          = Ok ai ∧
        ar_language ai = language ∧
        ((ar_confidence ai = 9 # 10 ∧
          generate_content (lit "gemini-pro")
            (context user_location season language
               ++ lit (String (Ascii.ascii_of_nat 10) (String (Ascii.ascii_of_nat 10) EmptyString))
               ++ lit "Farmer's question: " ++ query
               ++ lit (String (Ascii.ascii_of_nat 10) (String (Ascii.ascii_of_nat 10) EmptyString))
               ++ lit "Provide a helpful response:") = Ok (ar_response ai)) ∨
         (ar_confidence ai = 1 # 10 ∧ ar_response ai = apology ∧
          ∃ e, generate_content (lit "gemini-pro")
            (context user_location season language
               ++ lit (String (Ascii.ascii_of_nat 10) (String (Ascii.ascii_of_nat 10) EmptyString))
               ++ lit "Farmer's question: " ++ query
               ++ lit (String (Ascii.ascii_of_nat 10) (String (Ascii.ascii_of_nat 10) EmptyString))
               ++ lit "Provide a helpful response:") = Raise e)).
Proof.
  unfold get_agriculture_response. cbv zeta.
  destruct (generate_content _ _) as [r|e] eqn:E;
    cbn [try_except mbind result_bind Py.bind].
  - eexists. split; [reflexivity|]. cbn. split; [reflexivity|]. left. eauto.
  - eexists. split; [reflexivity|]. cbn. split; [reflexivity|]. right. eauto.
Qed.

(** ** process_text_query *)

(** X21. The [except] branch of [process_text_query] is dead: for every query,
    every language code and every behaviour of the translation and
    generative services the method returns a dictionary with
    [success = True], no [error] entry, the query it was given and a
    confidence of 0.9 or 0.1. *)
Theorem process_text_query_always_succeeds (self : VoiceAssistant)
    (query target_language user_location season : text) :
  ∃ (final_response : text) (confidence : Q),
    process_text_query context self query target_language user_location season
      = Ok (<["user_query" := PStr query]>
           (<["language" := PStr target_language]>
           (<["ai_response" := PStr final_response]>
           (<["confidence" := PFloat confidence]>
           (<["success" := PBool true]> ∅))))) ∧
    (confidence = 9 # 10 ∨ confidence = 1 # 10).
Proof.
  unfold process_text_query.
  assert (∃ q, (if negb (text_eqb target_language (lit "en"))
                then translate_text self query target_language (lit "en")
                else Ok query) = Ok q) as (q & ->).
  { destruct (negb _); [apply translate_text_ok|eauto]. }
  cbn [try_except mbind result_bind Py.bind].
  destruct (get_agriculture_response_ok self q target_language user_location season)
    as (ai & -> & _ & Hai).
  cbn [try_except mbind result_bind Py.bind].
  assert (∃ f, (if negb (text_eqb target_language (lit "en"))
                then translate_text self (ar_response ai) (lit "en") target_language
                else Ok (ar_response ai)) = Ok f) as (f & ->).
  { destruct (negb _); [apply translate_text_ok|eauto]. }
  cbn [try_except mbind result_bind Py.bind].
  exists f, (ar_confidence ai). split; [reflexivity|].
  destruct Hai as [(-> & _)|(-> & _)]; auto.
Qed.

(** X22. When the generative model raises, [process_text_query] still reports
    success: an English query is answered with the fixed apology and
    confidence 0.1. *)
Theorem process_text_query_masks_model_failure (self : VoiceAssistant)
    (query user_location season : text) :
  (∀ model prompt, ∃ e, generate_content model prompt = Raise e) →
  process_text_query context self query (lit "en") user_location season
    = Ok (<["user_query" := PStr query]>
         (<["language" := PStr (lit "en")]>
         (<["ai_response" := PStr apology]>
         (<["confidence" := PFloat (1 # 10)]>
         (<["success" := PBool true]> ∅))))).
Proof.
  intros Hfail. unfold process_text_query.
  replace (text_eqb (lit "en") (lit "en")) with true
    by (symmetry; apply text_eqb_true; reflexivity).
  cbn [negb try_except mbind result_bind Py.bind].
  destruct (get_agriculture_response_ok self query (lit "en") user_location season)
    as (ai & -> & _ & [(_ & Hok)|(Hc & Hr & _)]).
  - destruct (Hfail (lit "gemini-pro")
      (context user_location season (lit "en")
         ++ lit (String (Ascii.ascii_of_nat 10) (String (Ascii.ascii_of_nat 10) EmptyString))
         ++ lit "Farmer's question: " ++ query
         ++ lit (String (Ascii.ascii_of_nat 10) (String (Ascii.ascii_of_nat 10) EmptyString))
         ++ lit "Provide a helpful response:")) as (e & He).
    rewrite He in Hok. discriminate.
  - cbn [try_except mbind result_bind Py.bind]. rewrite Hc, Hr. reflexivity.
Qed.

(** ** process_voice_query *)

Lemma transcribe_audio_ok (self : VoiceAssistant) (path : text) :
  ∃ tr, transcribe_audio self path = Ok tr ∧
    (tr_text tr = [] ∧
       match whisper_model self with
       | None => True
       | Some m => ∃ e, whisper_transcribe m path = Raise e
       end
     ∨ ∃ m r, whisper_model self = Some m ∧ whisper_transcribe m path = Ok r ∧
              tr_text tr = w_text r ∧ tr_language tr = w_language r).
Proof.
  unfold transcribe_audio.
  destruct (whisper_model self) as [m|];
    cbn [try_except mbind result_bind Py.bind].
  - destruct (whisper_transcribe m path) as [r|e] eqn:E;
      cbn [try_except mbind result_bind Py.bind].
    + eexists. split; [reflexivity|]. right. exists m, r. cbn. auto.
    + eexists. split; [reflexivity|]. left. cbn. eauto.
  - eexists. split; [reflexivity|]. left. cbn. auto.
Qed.

(** X23. [process_voice_query] never raises.  It answers with the error
    dictionary ([success = False]) exactly when nothing was heard: no Whisper
    model, a failed transcription, or a transcript of white space only; in
    every other case it answers with [success = True] and the transcript as
    [user_query], whatever the translation and generative services do. *)
Theorem process_voice_query_outcome (self : VoiceAssistant)
    (audio_file_path target_language user_location season : text) :
  ∃ d,
    process_voice_query context self audio_file_path target_language
      user_location season = Ok d ∧
    (heard_nothing self audio_file_path ∧
       d = <["error" := PStr (lit "Could not understand the audio. Please try again.")]>
           (<["success" := PBool false]> ∅)
     ∨
     ¬ heard_nothing self audio_file_path ∧
       ∃ m r, whisper_model self = Some m ∧
              whisper_transcribe m audio_file_path = Ok r ∧
              d !! "success" = Some (PBool true) ∧
              d !! "user_query" = Some (PStr (w_text r)) ∧
              d !! "detected_language" = Some (PStr (w_language r)) ∧
              d !! "error" = None).
Proof.
  unfold process_voice_query, heard_nothing.
  destruct (transcribe_audio_ok self audio_file_path) as (tr & -> & Htr).
  cbn [mbind result_bind Py.bind].
  destruct Htr as [(Ht & Hw)|(m & r & Hm & Hr & Ht & Hl)].
  - rewrite Ht. cbn [strip lstrip reverse truthy negb].
    eexists. split; [reflexivity|]. left. split; [|reflexivity].
    destruct (whisper_model self) as [m|]; [|exact I].
    destruct Hw as (e & ->). exact I.
  - rewrite Hm, Hr, Ht, Hl.
    destruct (strip (w_text r)) as [|c t] eqn:Hs; cbn [truthy negb].
    + eexists. split; [reflexivity|]. left. split; [|reflexivity].
      apply strip_nil, Hs.
    + destruct (translate_text_ok self (w_text r) (w_language r) (lit "en"))
        as (q & ->).
      cbn [mbind result_bind Py.bind].
      destruct (get_agriculture_response_ok self q target_language user_location season)
        as (ai & -> & _).
      cbn [mbind result_bind Py.bind].
      destruct (translate_text_ok self (ar_response ai) (lit "en")
                  (if truthy target_language then target_language else w_language r))
        as (f & ->).
      cbn [mbind result_bind Py.bind].
      eexists. split; [reflexivity|]. right. split.
      * intros Hall. apply strip_nil in Hall. congruence.
      * exists m, r. repeat split; first [assumption | reflexivity].
Qed.

(** ** text_to_speech *)

(** X24. [text_to_speech] never raises: it returns [None], or the path
    [temp_audio_output_<language>.wav].  Without an engine, or with an engine
    that has no voice installed, it returns [None]. *)
Theorem text_to_speech_outcome (self : VoiceAssistant) (text_ language : text) :
  ∃ out : option text,
    text_to_speech self text_ language = Ok out ∧
    (out = None ∨
     out = Some (lit "temp_audio_output_" ++ language ++ lit ".wav")) ∧
    (tts_engine self = None → out = None) ∧
    (∀ engine, tts_engine self = Some engine → get_voices engine = Ok [] →
               out = None).
Proof.
  unfold text_to_speech.
  destruct (tts_engine self) as [engine|];
    cbn [try_except mbind result_bind Py.bind];
    [|exists None; repeat split; auto].
  destruct (get_voices engine) as [voices|e] eqn:Hv;
    cbn [try_except mbind result_bind Py.bind];
    [|exists None; repeat split; auto].
  assert (∀ r : result Engine,
            (voices = [] → ∃ e, r = Raise e) →
            ∃ out : option text,
              try_except
                (engine0 ← r;
                 engine1 ← save_to_file engine0 text_
                   (lit "temp_audio_output_" ++ language ++ lit ".wav");
                 _ ← run_and_wait engine1;
                 Ok (Some (lit "temp_audio_output_" ++ language ++ lit ".wav")))
                (λ _, Ok None) = Ok out ∧
              (out = None ∨
               out = Some (lit "temp_audio_output_" ++ language ++ lit ".wav")) ∧
              (Some engine = None → out = None) ∧
              (∀ engine', Some engine = Some engine' → get_voices engine' = Ok [] →
                          out = None)) as Hrest.
  { intros [engine2|e] Hr; cbn [try_except mbind result_bind Py.bind];
      [|exists None; repeat split; auto].
    destruct (save_to_file engine2 _ _) as [engine3|e];
      cbn [try_except mbind result_bind Py.bind];
      [|exists None; repeat split; auto].
    destruct (run_and_wait engine3) as [engine4|e];
      cbn [try_except mbind result_bind Py.bind];
      [|exists None; repeat split; auto].
    eexists. split; [reflexivity|]. split; [right; reflexivity|].
    split; [discriminate|]. intros ? [= <-] Hv'.
    rewrite Hv in Hv'. injection Hv' as ->.
    destruct (Hr eq_refl) as (e & He). discriminate. }
  apply Hrest. intros ->. rewrite andb_false_r. cbn. eauto.
Qed.

End with_services.

(** ** Instances *)

Lemma get_sample_questions_falls_back_to_english_witness :
  (∀ url data timeout r,
     @requests_post OfflineServices.offline url data timeout = Ok r →
     status_code r ≠ 200%Z) ∧
  get_sample_questions OfflineServices.assistant (lit "hi") = Ok english_questions.
Proof.
  assert (∀ url data timeout r,
     @requests_post OfflineServices.offline url data timeout = Ok r →
     status_code r ≠ 200%Z) as H by (cbn; discriminate).
  split; [exact H|].
  exact (get_sample_questions_falls_back_to_english OfflineServices.assistant (lit "hi") H).
Defined.

Lemma process_text_query_masks_model_failure_witness :
  (∀ model prompt, ∃ e,
     @generate_content OfflineServices.offline model prompt = Raise e) ∧
  ∃ d, process_text_query OfflineServices.no_context OfflineServices.assistant
         (lit "when to sow wheat") (lit "en") (lit "India") (lit "current") = Ok d ∧
       d !! "success" = Some (PBool true) ∧
       d !! "confidence" = Some (PFloat (1 # 10)).
Proof.
  assert (∀ model prompt, ∃ e,
     @generate_content OfflineServices.offline model prompt = Raise e) as H
    by (intros; eexists; reflexivity).
  split; [exact H|].
  eexists. split.
  - exact (process_text_query_masks_model_failure OfflineServices.no_context
             OfflineServices.assistant (lit "when to sow wheat") (lit "India")
             (lit "current") H).
  - split; reflexivity.
Defined.

End VoiceAssistantProps.
